(** * Mastodon-Explorer: the timeline-fetching client

    A shallow embedding of [src/services/mastodon.ts] (class
    [MastodonService]) and the properties of its request layer, its
    permission fallback and its incremental crawler.

    The file [src/services/mastodon.ts] holds two copies of the class.
    The first one (module [Service]) retries rate-limited requests and
    bounds a crawl by a wall-clock budget and a cap of 5000 fetched
    items; the second one (module [ServiceAlt]) has neither retry nor
    time budget and a cap of 10000.

    The asynchronous code is sequential (every promise is awaited at
    once), so it is modelled in a state-and-exception monad over a trace
    of the observable events: HTTP exchanges, sleeps, clock readings and
    progress callbacks.  The remote server, the clock, the random source
    and the date parser form the environment [Env].  Console output is
    diagnostic only and is left out of the trace.

    Module [App] embeds what [src/App.tsx] does with the service: the
    handlers [fetchInitialData], [handleFetchAllHistory] and
    [handleLogout], which call the first copy, and the values computed
    from the statuses ([activityData], the text the search is matched
    against).  Rendering and the charts are left out. *)

From Stdlib Require Import ZArith List String Ascii Bool Lia QArith Qround.
From Stdlib Require Import DecimalString DecimalPos DecimalZ.

Set Warnings "-register-all".
Import ListNotations.
Local Open Scope string_scope.
Local Open Scope Z_scope.

(** ** JavaScript values and built-ins *)

Module Js.

(** A value of type [string | undefined] (or [string | null]) is an
    [option string]; it is truthy when it is a non-empty string. *)
Definition truthy (v : option string) : bool :=
  match v with
  | Some (String _ _) => true
  | _ => false
  end.

(** The string behind a truthy value. *)
Definition str (v : option string) : string :=
  match v with
  | Some s => s
  | None => ""
  end.

(** A JavaScript number that may be [NaN]: [None] is [NaN]. Integers are
    exact here; the rounding of doubles beyond 2^53 is not modelled, so
    the operations below are those of the code on the numbers that are
    [exact]. *)
Definition number : Type := option Z.

(** The numbers on which a double is an integer and the arithmetic of
    doubles is that of the integers. *)
Definition exact (x : number) : Prop :=
  match x with
  | Some z => Z.abs z <= 2 ^ 53
  | None => True
  end.

Definition num_mul (a : number) (b : Z) : number :=
  match a with
  | Some x => Some (x * b)
  | None => None
  end.

(** [a < b] on numbers: false as soon as one side is [NaN]. *)
Definition num_lt (a b : number) : bool :=
  match a, b with
  | Some x, Some y => x <? y
  | _, _ => false
  end.

(** [n.toString()] for an integer below 10^21, where JavaScript prints
    every digit. *)
Definition Number_toString (n : Z) : string :=
  NilZero.string_of_int (Z.to_int n).

Definition is_whitespace (c : ascii) : bool :=
  match nat_of_ascii c with
  | 9%nat | 10%nat | 11%nat | 12%nat | 13%nat | 32%nat => true
  | _ => false
  end.

Fixpoint skip_whitespace (s : string) : string :=
  match s with
  | String c s' => if is_whitespace c then skip_whitespace s' else s
  | EmptyString => s
  end.

(** The value of [c] as a digit in the given radix, if it is one. *)
Definition digit_value (radix : Z) (c : ascii) : option Z :=
  let n := Z.of_nat (nat_of_ascii c) in
  let v := if (48 <=? n) && (n <=? 57) then Some (n - 48)
           else if (97 <=? n) && (n <=? 122) then Some (n - 87)
           else if (65 <=? n) && (n <=? 90) then Some (n - 55)
           else None in
  match v with
  | Some d => if d <? radix then Some d else None
  | None => None
  end.

(** The number written by the longest prefix of digits of [s]; [acc] is
    the value of the digits read so far ([None]: no digit yet). *)
Fixpoint digits_prefix (radix : Z) (s : string) (acc : option Z) : option Z :=
  match s with
  | String c s' =>
      match digit_value radix c with
      | Some d =>
          digits_prefix radix s'
            (Some (match acc with Some a => a * radix + d | None => d end))
      | None => acc
      end
  | EmptyString => acc
  end.

(** [parseInt(s)] with no radix argument: leading (ASCII) white space
    is skipped, a sign is read, a [0x] prefix selects radix 16, and the
    longest prefix of digits is the value; [NaN] when there is no digit. *)
Definition parseInt (s : string) : number :=
  let s := skip_whitespace s in
  let '(sign, s) :=
    match s with
    | String "-" s' => (-1, s')
    | String "+" s' => (1, s')
    | _ => (1, s)
    end in
  let '(radix, s) :=
    match s with
    | String "0" (String "x" s') => (16, s')
    | String "0" (String "X" s') => (16, s')
    | _ => (10, s)
    end in
  match digits_prefix radix s None with
  | Some n => Some (sign * n)
  | None => None
  end.

(** [s.replace(/\/$/, "")]: one slash at the very end is removed. *)
Fixpoint strip_trailing_slash (s : string) : string :=
  match s with
  | String c EmptyString => if Ascii.eqb c "/" then EmptyString else s
  | String c s' => String c (strip_trailing_slash s')
  | EmptyString => EmptyString
  end.

(** [s.replace(/^https?:\/\//, "")]. *)
Definition strip_scheme (s : string) : string :=
  if String.prefix "https://" s then substring 8 (String.length s - 8) s
  else if String.prefix "http://" s then substring 7 (String.length s - 7) s
  else s.

(** Exactly [n] decimal digits at the head of [s]: their value and the
    rest of the string. *)
Fixpoint read_digits (n : nat) (s : string) (acc : Z) : option (Z * string) :=
  match n with
  | O => Some (acc, s)
  | S n' =>
      match s with
      | String c s' =>
          match digit_value 10 c with
          | Some d => read_digits n' s' (acc * 10 + d)
          | None => None
          end
      | EmptyString => None
      end
  end.

Definition expect (c : ascii) (s : string) : option string :=
  match s with
  | String c' s' => if Ascii.eqb c c' then Some s' else None
  | EmptyString => None
  end.

(** Days from 1970-01-01 to the given civil date (proleptic Gregorian). *)
Definition days_from_civil (y m d : Z) : Z :=
  let y' := if m <=? 2 then y - 1 else y in
  let era := y' / 400 in
  let yoe := y' - era * 400 in
  let doy := (153 * (if m <=? 2 then m + 9 else m - 3) + 2) / 5 + d - 1 in
  let doe := yoe * 365 + yoe / 4 - yoe / 100 + doy in
  era * 146097 + doe - 719468.

Definition opt_bind {A B} (o : option A) (k : A -> option B) : option B :=
  match o with
  | Some a => k a
  | None => None
  end.

(** The time value of [new Date(s)] for the ISO profile the API uses:
    [YYYY-MM-DD], or [YYYY-MM-DDTHH:MM:SS] with an optional [.mmm],
    closed by [Z]. Milliseconds since the epoch; [NaN] (an invalid date)
    for anything else. *)
Definition Date_parse_iso (s : string) : number :=
  opt_bind (read_digits 4 s 0) (fun '(y, s) =>
  opt_bind (expect "-" s) (fun s =>
  opt_bind (read_digits 2 s 0) (fun '(m, s) =>
  opt_bind (expect "-" s) (fun s =>
  opt_bind (read_digits 2 s 0) (fun '(d, s) =>
  if negb ((1 <=? m) && (m <=? 12) && (1 <=? d) && (d <=? 31)) then None else
  let day := days_from_civil y m d * 86400000 in
  match s with
  | EmptyString => Some day
  | _ =>
    opt_bind (expect "T" s) (fun s =>
    opt_bind (read_digits 2 s 0) (fun '(hh, s) =>
    opt_bind (expect ":" s) (fun s =>
    opt_bind (read_digits 2 s 0) (fun '(mi, s) =>
    opt_bind (expect ":" s) (fun s =>
    opt_bind (read_digits 2 s 0) (fun '(ss, s) =>
    if negb ((hh <=? 23) && (mi <=? 59) && (ss <=? 59)) then None else
    let time := day + hh * 3600000 + mi * 60000 + ss * 1000 in
    match s with
    | String "Z" EmptyString => Some time
    | String "." s =>
        opt_bind (read_digits 3 s 0) (fun '(ms, s) =>
        match s with
        | String "Z" EmptyString => Some (time + ms)
        | _ => None
        end)
    | _ => None
    end))))))
  end))))).

End Js.

(** ** Data model ([src/types.ts]) *)

Record MastodonAccount := {
  account_id : string;
  account_username : string;
  account_display_name : string;
  account_avatar : string;
  account_header : string;
  account_note : string;
  account_url : string;
  account_statuses_count : Z;
  account_followers_count : Z;
  account_following_count : Z
}.

Record MediaAttachment := {
  media_id : string;
  media_type : string;
  media_url : string;
  media_preview_url : string
}.

(** A status as the API sends it. The interface of [types.ts] does not
    declare [reblog]; the crawler reads it through [any]: it is the
    boosted status, or null. *)
Inductive MastodonStatus := mkStatus {
  id : string;
  created_at : string;
  content : string;
  replies_count : Z;
  reblogs_count : Z;
  favourites_count : Z;
  url : string;
  account : MastodonAccount;
  media_attachments : list MediaAttachment;
  reblog : option MastodonStatus
}.

(** [!s.reblog] *)
Definition not_reblog (s : MastodonStatus) : bool :=
  match reblog s with
  | Some _ => false
  | None => true
  end.

(** ** The world: HTTP exchanges, clock, random source *)

Record Url := {
  host : string;
  path : string;
  searchParams : list (string * string)
}.

Record Request := {
  req_url : Url;
  req_headers : list (string * string)
}.

(** What [response.json()] gives. Reading a property of [null] throws,
    which it does of no other value; a number, a string or a boolean
    behaves here as an object without [error] field. *)
Inductive Body :=
| BodyInvalid                          (* not JSON: the promise rejects *)
| BodyObject (error : option string)   (* some other object, with its [error] field *)
| BodyStatuses (l : list MastodonStatus)
| BodyAccount (a : MastodonAccount)
| BodyNull.                            (* the JSON value [null] *)

Record Response := {
  status : Z;
  retry_after : option string;         (* headers.get("Retry-After") *)
  body : Body
}.

(** [response.ok] *)
Definition ok (r : Response) : bool :=
  (200 <=? status r) && (status r <=? 299).

Inductive FetchResult :=
| Responded (r : Response)
| NetworkFailure (reason : string).

Inductive Event :=
| EvFetch (req : Request) (res : FetchResult)
| EvSleep (ms : Js.number)
| EvNow (t : Z)
| EvProgress (count : Z).

(** The events so far, the latest first. *)
Definition Trace : Type := list Event.

Record Env := {
  respond : Trace -> Request -> FetchResult;  (* the remote server *)
  clock : Trace -> Z;                         (* Date.now() *)
  random : Trace -> Q;                        (* Math.random() *)
  Date_parse : string -> Js.number            (* the time value of new Date(s) *)
}.

(** Errors a call can throw; [error.status] exists on the first kind only. *)
Inductive JsError :=
| HttpError (message : string) (status : Z)
| PlainError (message : string)
| SyntaxError
| TypeError (message : string)
| NetworkError (reason : string).

Definition error_status (e : JsError) : option Z :=
  match e with
  | HttpError _ st => Some st
  | _ => None
  end.

(** [error.status === n] *)
Definition status_is (e : JsError) (n : Z) : bool :=
  match error_status e with
  | Some st => st =? n
  | None => false
  end.

(** ** The monad of sequential asynchronous code *)

Inductive Outcome (A : Type) :=
| Returned (a : A)
| Thrown (e : JsError)
| OutOfFuel.

Arguments Returned {A} a.
Arguments Thrown {A} e.
Arguments OutOfFuel {A}.

Definition M (A : Type) : Type := Trace -> Outcome A * Trace.

Definition ret {A} (a : A) : M A := fun tr => (Returned a, tr).

Definition throw {A} (e : JsError) : M A := fun tr => (Thrown e, tr).

Definition out_of_fuel {A} : M A := fun tr => (OutOfFuel, tr).

Definition bind {A B} (m : M A) (k : A -> M B) : M B := fun tr =>
  match m tr with
  | (Returned a, tr') => k a tr'
  | (Thrown e, tr') => (Thrown e, tr')
  | (OutOfFuel, tr') => (OutOfFuel, tr')
  end.

(** [try { m } catch (error) { handler error }] *)
Definition try_catch {A} (m : M A) (handler : JsError -> M A) : M A := fun tr =>
  match m tr with
  | (Thrown e, tr') => handler e tr'
  | r => r
  end.

Declare Scope monad_scope.
Delimit Scope monad_scope with monad.
Notation "x <- c1 ;; c2" := (bind c1 (fun x => c2))
  (at level 61, c1 at next level, right associativity) : monad_scope.
Notation "c1 ;; c2" := (bind c1 (fun _ => c2))
  (at level 61, right associativity) : monad_scope.
Local Open Scope monad_scope.

Section World.

Variable env : Env.

(** [await fetch(url, { headers })] *)
Definition fetch (req : Request) : M Response := fun tr =>
  let res := respond env tr req in
  match res with
  | Responded r => (Returned r, EvFetch req res :: tr)
  | NetworkFailure reason => (Thrown (NetworkError reason), EvFetch req res :: tr)
  end.

(** [await this.sleep(ms)] *)
Definition sleep (ms : Js.number) : M unit := fun tr =>
  (Returned tt, EvSleep ms :: tr).

Definition Date_now : M Z := fun tr =>
  let t := clock env tr in (Returned t, EvNow t :: tr).

Definition Math_random : M Q := fun tr => (Returned (random env tr), tr).

(** The caller's [onProgress(count)]. *)
Definition progress (count : Z) : M unit := fun tr =>
  (Returned tt, EvProgress count :: tr).

(** [new Date(s)], as its time value. *)
Definition new_Date (s : string) : Js.number := Date_parse env s.

End World.

(** ** The service object *)

Record MastodonService := {
  instance : string;
  token : option string
}.

(** The constructor. *)
Definition new_MastodonService (instance : string) (token : option string)
  : MastodonService :=
  {| instance := Js.strip_scheme (Js.strip_trailing_slash instance);
     token := token |}.

Module Page.
Record t := {
  statuses : Body;
  fellBack : bool
}.
End Page.

Module Result.
Record t := {
  statuses : list MastodonStatus;
  lastId : option string;
  reachedThreshold : bool;
  fellBack : bool
}.
End Result.

(** [errorData.error]: only an object has the field. *)
Definition error_field (b : Body) : option string :=
  match b with
  | BodyObject e => e
  | _ => None
  end.

(** [batch] seen as an array: anything else has no [length]. *)
Definition as_array (b : Body) : option (list MastodonStatus) :=
  match b with
  | BodyStatuses l => Some l
  | _ => None
  end.

Definition len {A} (l : list A) : Z := Z.of_nat (List.length l).

(** The end of [fetchApi], the same text in both copies: a response
    that is not [ok] is thrown as an error that carries its status, and
    the parsed body is returned otherwise. When the body of a response
    that is not [ok] is [null], reading [errorData.error] throws a
    [TypeError] instead, which has no status. *)
Definition settle (response : Response) : M Body :=
  if negb (ok response) then
    let errorData :=
      match body response with
      | BodyInvalid => BodyObject (Some "Unknown error")
      | b => b
      end in
    match errorData with
    | BodyNull => throw (TypeError "Cannot read properties of null (reading 'error')")
    | _ =>
        throw (HttpError
                 (if Js.truthy (error_field errorData)
                  then Js.str (error_field errorData)
                  else "HTTP error! status: " ++ Js.Number_toString (status response))
                 (status response))
    end
  else
    match body response with
    | BodyInvalid => throw SyntaxError
    | b => ret b
    end.

(** The request [fetchApi] sends, the same in both copies. The path is
    kept as the text given to [new URL]: an instance or an endpoint
    with a [?] or a [#] in it, which [new URL] would split, is not
    modelled. *)
Definition request (this : MastodonService) (endpoint : string)
    (params : list (string * string)) (useAuth : bool) : Request :=
  {| req_url := {| host := instance this;
                   path := "/api/v1/" ++ endpoint;
                   searchParams := params |};
     req_headers :=
       ("Content-Type", "application/json") ::
       (if Js.truthy (token this) && useAuth
        then [("Authorization", "Bearer " ++ Js.str (token this))]
        else []) |}.

(** The parameters [getStatusesPage] builds, the same in both copies. *)
Definition page_params (maxId : option string) (limit : Z)
  : list (string * string) :=
  ("limit", Js.Number_toString limit) ::
  (if Js.truthy maxId then [("max_id", Js.str maxId)] else []).

(** ** What a trace shows *)

(** The number of HTTP requests sent. *)
Fixpoint fetches (tr : Trace) : Z :=
  match tr with
  | EvFetch _ _ :: tr' => fetches tr' + 1
  | _ :: tr' => fetches tr'
  | [] => 0
  end.

(** The page of statuses an exchange delivered, if it did. *)
Definition page_of (ev : Event) : list (list MastodonStatus) :=
  match ev with
  | EvFetch _ (Responded r) =>
      if ok r then
        match body r with
        | BodyStatuses l => [l]
        | _ => []
        end
      else []
  | _ => []
  end.

(** The pages delivered so far, the earliest first. *)
Fixpoint pages (tr : Trace) : list (list MastodonStatus) :=
  match tr with
  | ev :: tr' => (pages tr' ++ page_of ev)%list
  | [] => []
  end.

(** ** The service, first copy: rate-limit retry, time budget, cap 5000 *)

Module Service.

Module Session.
(** The local variables of [getStatusesUntil] that the loop updates. *)
Record t := {
  allFilteredStatuses : list MastodonStatus;
  maxId : option string;
  reachedThreshold : bool;
  totalFetched : Z;
  wasFellBack : bool
}.
End Session.

Definition TIME_BUDGET : Z := 10000.

Section Methods.

Variable env : Env.
Variable this : MastodonService.

(** [const waitTime = retryAfter ? parseInt(retryAfter) * 1000
                                 : Math.pow(2, retryCount) * 1000] *)
Definition waitTime (retryAfter : option string) (retryCount : nat) : Js.number :=
  if Js.truthy retryAfter
  then Js.num_mul (Js.parseInt (Js.str retryAfter)) 1000
  else Some (2 ^ Z.of_nat retryCount * 1000).

(** [fetchApi]; each call, the recursive ones included, takes one unit
    of fuel. *)
Fixpoint fetchApi_fuel (fuel : nat) (endpoint : string)
    (params : list (string * string)) (useAuth : bool) (retryCount : nat)
    : M Body :=
  match fuel with
  | O => out_of_fuel
  | S fuel' =>
      response <- fetch env (request this endpoint params useAuth);;
      if (status response =? 429) && (retryCount <? 2)%nat then
        let retryAfter := retry_after response in
        sleep (waitTime retryAfter retryCount);;
        fetchApi_fuel fuel' endpoint params useAuth (retryCount + 1)
      else settle response
  end.

(** A call that starts at [retryCount] recurs at most [2 - retryCount]
    times. *)
Definition fetchApi (endpoint : string) (params : list (string * string))
    (useAuth : bool) (retryCount : nat) : M Body :=
  fetchApi_fuel (S (2 - retryCount)) endpoint params useAuth retryCount.

Definition verifyCredentials : M Body :=
  if negb (Js.truthy (token this))
  then throw (PlainError "Token required for verifyCredentials")
  else fetchApi "accounts/verify_credentials" [] true 0.

(** [limit] defaults to 40 in the source; callers here pass it. *)
Definition getStatusesPage (accountId : string) (maxId : option string)
    (limit : Z) : M Page.t :=
  let params := page_params maxId limit in
  try_catch
    (statuses <- fetchApi ("accounts/" ++ accountId ++ "/statuses") params true 0;;
     ret {| Page.statuses := statuses; Page.fellBack := false |})
    (fun error =>
       if status_is error 403 || status_is error 401 then
         statuses <- fetchApi ("accounts/" ++ accountId ++ "/statuses") params false 0;;
         ret {| Page.statuses := statuses; Page.fellBack := true |}
       else throw error).

Section Crawl.

Variable accountId : string.
Variable untilDate : Js.number.       (* the time value of the Date *)
Variable onProgress : bool.           (* whether a callback was supplied *)

(** One run of the body of the [while] loop. The flag is [false] when
    the body leaves by [break] and [true] when it reaches its end. *)
Definition crawl_body (startTime : Z) (s : Session.t) : M (Session.t * bool) :=
  now <- Date_now env;;
  if now - startTime >? TIME_BUDGET then ret (s, false) else
  page <- getStatusesPage accountId (Session.maxId s) 40;;
  let wasFellBack := if Page.fellBack page then true else Session.wasFellBack s in
  match as_array (Page.statuses page) with
  | None =>
      throw (TypeError
               match Page.statuses page with
               | BodyNull => "Cannot read properties of null (reading 'length')"
               | _ => "Cannot read properties of undefined (reading 'id')"
               end)
  | Some batch =>
      if len batch =? 0 then
        ret ({| Session.allFilteredStatuses := Session.allFilteredStatuses s;
                Session.maxId := Session.maxId s;
                Session.reachedThreshold := Session.reachedThreshold s;
                Session.totalFetched := Session.totalFetched s;
                Session.wasFellBack := wasFellBack |}, false)
      else
        match nth_error batch (List.length batch - 1) with
        | None => throw (TypeError "Cannot read properties of undefined (reading 'id')")
        | Some oldest =>
            let maxId := Some (id oldest) in
            let totalFetched := Session.totalFetched s + len batch in
            let originalPosts := filter not_reblog batch in
            let allFilteredStatuses := (Session.allFilteredStatuses s ++ originalPosts)%list in
            let oldestInBatch := new_Date env (created_at oldest) in
            let reachedThreshold :=
              if Js.num_lt oldestInBatch untilDate then true
              else Session.reachedThreshold s in
            let s' := {| Session.allFilteredStatuses := allFilteredStatuses;
                         Session.maxId := maxId;
                         Session.reachedThreshold := reachedThreshold;
                         Session.totalFetched := totalFetched;
                         Session.wasFellBack := wasFellBack |} in
            (if onProgress then progress (len allFilteredStatuses) else ret tt);;
            if len batch <? 40 then ret (s', false) else
            if totalFetched >? 5000 then ret (s', false) else
            r <- Math_random env;;
            sleep (Some (Qfloor (r * inject_Z 300)%Q + 200));;
            ret (s', true)
        end
  end.

(** [while (!reachedThreshold) { body }]; each test of the condition
    takes one unit of fuel. *)
Fixpoint crawl (fuel : nat) (startTime : Z) (s : Session.t) : M Session.t :=
  match fuel with
  | O => out_of_fuel
  | S fuel' =>
      if Session.reachedThreshold s then ret s else
      r <- crawl_body startTime s;;
      if snd r then crawl fuel' startTime (fst r) else ret (fst r)
  end.

Definition initial (startId : option string) : Session.t :=
  {| Session.allFilteredStatuses := [];
     Session.maxId := startId;
     Session.reachedThreshold := false;
     Session.totalFetched := 0;
     Session.wasFellBack := false |}.

(** [getStatusesUntil] up to its [return]: the final local variables. *)
Definition getStatusesUntil_session (fuel : nat) (startId : option string)
  : M Session.t :=
  startTime <- Date_now env;;
  crawl fuel startTime (initial startId).

Definition getStatusesUntil (fuel : nat) (startId : option string) : M Result.t :=
  s <- getStatusesUntil_session fuel startId;;
  ret {| Result.statuses := Session.allFilteredStatuses s;
         Result.lastId := Session.maxId s;
         Result.reachedThreshold := Session.reachedThreshold s;
         Result.fellBack := Session.wasFellBack s |}.

(** A run of the loop body from state [s] at trace [tr] is within the
    time budget and its page fetch delivers the page [batch], with
    fallback flag [fb], leaving the trace [tr2]. *)
Definition page_fetched (startTime : Z) (s : Session.t) (tr : Trace)
    (batch : list MastodonStatus) (fb : bool) (tr2 : Trace) : Prop :=
  clock env tr - startTime <= TIME_BUDGET /\
  getStatusesPage accountId (Session.maxId s) 40 (EvNow (clock env tr) :: tr) =
  (Returned {| Page.statuses := BodyStatuses batch; Page.fellBack := fb |}, tr2).

(** The local variables once the non-empty page [batch], whose last
    element is [oldest], has been processed. *)
Definition processed (s : Session.t) (batch : list MastodonStatus)
    (oldest : MastodonStatus) (fb : bool) : Session.t :=
  {| Session.allFilteredStatuses :=
       (Session.allFilteredStatuses s ++ filter not_reblog batch)%list;
     Session.maxId := Some (id oldest);
     Session.reachedThreshold :=
       if Js.num_lt (new_Date env (created_at oldest)) untilDate then true
       else Session.reachedThreshold s;
     Session.totalFetched := Session.totalFetched s + len batch;
     Session.wasFellBack := if fb then true else Session.wasFellBack s |}.

End Crawl.

End Methods.

End Service.

(** ** The service, second copy: no retry, no time budget, cap 10000 *)

Module ServiceAlt.

Module Session.
Record t := {
  allFilteredStatuses : list MastodonStatus;
  maxId : option string;
  reachedThreshold : bool;
  hasMore : bool;
  totalFetched : Z;
  wasFellBack : bool
}.
End Session.

Section Methods.

Variable env : Env.
Variable this : MastodonService.

Definition fetchApi (endpoint : string) (params : list (string * string))
    (useAuth : bool) : M Body :=
  response <- fetch env (request this endpoint params useAuth);;
  settle response.

Definition verifyCredentials : M Body :=
  if negb (Js.truthy (token this))
  then throw (PlainError "Token required for verifyCredentials")
  else fetchApi "accounts/verify_credentials" [] true.

Definition getStatusesPage (accountId : string) (maxId : option string)
    (limit : Z) : M Page.t :=
  let params := page_params maxId limit in
  try_catch
    (statuses <- fetchApi ("accounts/" ++ accountId ++ "/statuses") params true;;
     ret {| Page.statuses := statuses; Page.fellBack := false |})
    (fun error =>
       if status_is error 403 || status_is error 401 then
         statuses <- fetchApi ("accounts/" ++ accountId ++ "/statuses") params false;;
         ret {| Page.statuses := statuses; Page.fellBack := true |}
       else throw error).

Section Crawl.

Variable accountId : string.
Variable untilDate : Js.number.
Variable onProgress : bool.

(** One run of the body of the [while] loop; the flag is [false] when
    the body leaves by [break]. *)
Definition crawl_body (s : Session.t) : M (Session.t * bool) :=
  page <- getStatusesPage accountId (Session.maxId s) 40;;
  let wasFellBack := if Page.fellBack page then true else Session.wasFellBack s in
  match as_array (Page.statuses page) with
  | None =>
      throw (TypeError
               match Page.statuses page with
               | BodyNull => "Cannot read properties of null (reading 'length')"
               | _ => "Cannot read properties of undefined (reading 'id')"
               end)
  | Some batch =>
      if len batch =? 0 then
        ret ({| Session.allFilteredStatuses := Session.allFilteredStatuses s;
                Session.maxId := Session.maxId s;
                Session.reachedThreshold := Session.reachedThreshold s;
                Session.hasMore := false;
                Session.totalFetched := Session.totalFetched s;
                Session.wasFellBack := wasFellBack |}, false)
      else
        match nth_error batch (List.length batch - 1) with
        | None => throw (TypeError "Cannot read properties of undefined (reading 'id')")
        | Some oldest =>
            let maxId := Some (id oldest) in
            let totalFetched := Session.totalFetched s + len batch in
            let originalPosts := filter not_reblog batch in
            let allFilteredStatuses := (Session.allFilteredStatuses s ++ originalPosts)%list in
            let oldestInBatch := new_Date env (created_at oldest) in
            let reachedThreshold :=
              if Js.num_lt oldestInBatch untilDate then true
              else Session.reachedThreshold s in
            (if onProgress then progress (len allFilteredStatuses) else ret tt);;
            let hasMore := if len batch <? 40 then false else Session.hasMore s in
            let s' := {| Session.allFilteredStatuses := allFilteredStatuses;
                         Session.maxId := maxId;
                         Session.reachedThreshold := reachedThreshold;
                         Session.hasMore := hasMore;
                         Session.totalFetched := totalFetched;
                         Session.wasFellBack := wasFellBack |} in
            if totalFetched >? 10000 then ret (s', false) else ret (s', true)
        end
  end.

(** [while (hasMore && !reachedThreshold) { body }]; each test of the
    condition takes one unit of fuel. *)
Fixpoint crawl (fuel : nat) (s : Session.t) : M Session.t :=
  match fuel with
  | O => out_of_fuel
  | S fuel' =>
      if Session.hasMore s && negb (Session.reachedThreshold s) then
        r <- crawl_body s;;
        if snd r then crawl fuel' (fst r) else ret (fst r)
      else ret s
  end.

Definition initial (startId : option string) : Session.t :=
  {| Session.allFilteredStatuses := [];
     Session.maxId := startId;
     Session.reachedThreshold := false;
     Session.hasMore := true;
     Session.totalFetched := 0;
     Session.wasFellBack := false |}.

Definition getStatusesUntil_session (fuel : nat) (startId : option string)
  : M Session.t :=
  crawl fuel (initial startId).

Definition getStatusesUntil (fuel : nat) (startId : option string) : M Result.t :=
  s <- getStatusesUntil_session fuel startId;;
  ret {| Result.statuses := Session.allFilteredStatuses s;
         Result.lastId := Session.maxId s;
         Result.reachedThreshold := Session.reachedThreshold s;
         Result.fellBack := Session.wasFellBack s |}.

(** The page fetch of a run of the loop body from state [s] at trace
    [tr] delivers the page [batch], with fallback flag [fb], leaving
    the trace [tr2]. *)
Definition page_fetched (s : Session.t) (tr : Trace)
    (batch : list MastodonStatus) (fb : bool) (tr2 : Trace) : Prop :=
  getStatusesPage accountId (Session.maxId s) 40 tr =
  (Returned {| Page.statuses := BodyStatuses batch; Page.fellBack := fb |}, tr2).

(** The local variables once the non-empty page [batch], whose last
    element is [oldest], has been processed. *)
Definition processed (s : Session.t) (batch : list MastodonStatus)
    (oldest : MastodonStatus) (fb : bool) : Session.t :=
  {| Session.allFilteredStatuses :=
       (Session.allFilteredStatuses s ++ filter not_reblog batch)%list;
     Session.maxId := Some (id oldest);
     Session.reachedThreshold :=
       if Js.num_lt (new_Date env (created_at oldest)) untilDate then true
       else Session.reachedThreshold s;
     Session.hasMore := if len batch <? 40 then false else Session.hasMore s;
     Session.totalFetched := Session.totalFetched s + len batch;
     Session.wasFellBack := if fb then true else Session.wasFellBack s |}.

End Crawl.

End Methods.

End ServiceAlt.

(** ** Assumptions on the remote server *)

(** The [max_id] parameter of a request, as the server reads it. *)
Definition max_id_of (req : Request) : option string :=
  match find (fun p => String.eqb (fst p) "max_id") (searchParams (req_url req)) with
  | Some p => Some (snd p)
  | None => None
  end.

(** The server honours [max_id]: a page served for a request with
    [max_id = c] holds only posts older than [c], in the order [older]
    of ids. *)
Definition respects_max_id (env : Env) (older : string -> string -> Prop) : Prop :=
  forall tr req c r l,
    max_id_of req = Some c ->
    respond env tr req = Responded r ->
    ok r = true ->
    body r = BodyStatuses l ->
    Forall (fun p => older (id p) c) l.

(** Every post the server serves is dated after [untilDate]. *)
Definition all_posts_after (env : Env) (untilDate : Js.number) : Prop :=
  forall tr req r l,
    respond env tr req = Responded r ->
    ok r = true ->
    body r = BodyStatuses l ->
    Forall (fun p => Js.num_lt untilDate (new_Date env (created_at p)) = true) l.

(** ** Sample data and servers *)

Module Sample.

Definition nobody : MastodonAccount :=
  {| account_id := "1"; account_username := "alice";
     account_display_name := "Alice"; account_avatar := "";
     account_header := ""; account_note := ""; account_url := "";
     account_statuses_count := 0; account_followers_count := 0;
     account_following_count := 0 |}.

(** A status with the given id and date; a boost when [boost] is set. *)
Definition post (i date : string) (boost : bool) : MastodonStatus :=
  {| id := i; created_at := date; content := "";
     replies_count := 0; reblogs_count := 0; favourites_count := 0;
     url := ""; account := nobody; media_attachments := [];
     reblog :=
       if boost
       then Some {| id := "0"; created_at := date; content := "";
                    replies_count := 0; reblogs_count := 0;
                    favourites_count := 0; url := ""; account := nobody;
                    media_attachments := []; reblog := None |}
       else None |}.

Definition success (l : list MastodonStatus) : FetchResult :=
  Responded {| status := 200; retry_after := None; body := BodyStatuses l |}.

Definition failure (code : Z) (retryAfter : option string) : FetchResult :=
  Responded {| status := code; retry_after := retryAfter;
               body := BodyObject (Some "refused") |}.

(** Whether the request carries an [Authorization] header. *)
Definition authorized (req : Request) : bool :=
  existsb (fun h => String.eqb (fst h) "Authorization") (req_headers req).

(** A world with a frozen clock, a constant random source and ISO dates. *)
Definition world (server : Trace -> Request -> FetchResult) : Env :=
  {| respond := server;
     clock := fun _ => 0;
     random := fun _ => 0%Q;
     Date_parse := Js.Date_parse_iso |}.

(** A server that plays a script: the n-th request gets the n-th entry. *)
Definition scripted (script : list FetchResult) : Trace -> Request -> FetchResult :=
  fun tr _ => nth (Z.to_nat (fetches tr)) script (NetworkFailure "script exhausted").

(** A server that refuses authorized requests with [code] and serves
    [l] to the others. *)
Definition public_only (code : Z) (l : list MastodonStatus)
  : Trace -> Request -> FetchResult :=
  fun _ req => if authorized req then failure code None else success l.

(** A server with full pages of 40 posts: the first [n] pages are dated
    [recent], the later ones [old]. *)
Definition endless (n : Z) (recent old : string) : Trace -> Request -> FetchResult :=
  fun tr _ =>
    success (repeat (post "7" (if fetches tr <? n then recent else old) false) 40).

(** A server that knows one post, with id 5, and serves it to requests
    whose [max_id] is above 5 or absent. *)
Definition single_post : Trace -> Request -> FetchResult :=
  fun _ req =>
    match max_id_of req with
    | Some c =>
        if Js.num_lt (Some 5) (Js.parseInt c)
        then success [post "5" "2023-03-01T00:00:00.000Z" false]
        else success []
    | None => success [post "5" "2023-03-01T00:00:00.000Z" false]
    end.

(** Ids compared as the numbers they spell. *)
Definition older (a b : string) : Prop :=
  Js.num_lt (Js.parseInt a) (Js.parseInt b) = true.

(** Three 429 answers in a row, the first with [Retry-After: 3]. *)
Definition throttled : Env :=
  world (scripted [failure 429 (Some "3"); failure 429 None; failure 429 None]).

(** A server that answers authorized requests with 401 and serves one
    post to the others. *)
Definition guarded : Env :=
  world (public_only 401 [post "9" "2023-03-01T00:00:00.000Z" false]).

(** A server that answers authorized requests with 403 and has no post
    for the others. *)
Definition guarded_empty : Env := world (public_only 403 []).

(** An account with a single post, of March 2023. *)
Definition newcomer : Env :=
  world (scripted [success [post "9" "2023-03-01T00:00:00.000Z" false]]).

(** Full pages of 40 posts of June 2023; from the 126th page on, the
    posts are of December 2022. *)
Definition prolific : Env :=
  world (endless 125 "2023-06-01T00:00:00.000Z" "2022-12-15T00:00:00.000Z").

(** Two full pages, then a page of two posts, one of them a boost. *)
Definition three_pages : Env :=
  world (scripted
    [success (repeat (post "30" "2023-06-01T00:00:00.000Z" false) 40);
     success (repeat (post "20" "2023-05-01T00:00:00.000Z" true) 40);
     success [post "11" "2023-04-02T00:00:00.000Z" true;
              post "10" "2023-04-01T00:00:00.000Z" false]]).

(** Full pages of 40 posts of December 2022, without end. *)
Definition archive : Env :=
  world (endless 0 "2022-12-15T00:00:00.000Z" "2022-12-15T00:00:00.000Z").

(** The locals of a session of the first copy that has counted 4990
    posts and kept none. *)
Definition near_cap : Service.Session.t :=
  {| Service.Session.allFilteredStatuses := [];
     Service.Session.maxId := Some "7";
     Service.Session.reachedThreshold := false;
     Service.Session.totalFetched := 4990;
     Service.Session.wasFellBack := false |}.

(** The same for the second copy, at 9990 posts. *)
Definition near_cap_alt : ServiceAlt.Session.t :=
  {| ServiceAlt.Session.allFilteredStatuses := [];
     ServiceAlt.Session.maxId := Some "7";
     ServiceAlt.Session.reachedThreshold := false;
     ServiceAlt.Session.hasMore := true;
     ServiceAlt.Session.totalFetched := 9990;
     ServiceAlt.Session.wasFellBack := false |}.

(** An account whose only post has id 5. *)
Definition lonely : Env := world single_post.

(** The locals of a session of the first copy whose cursor is at id 9. *)
Definition at_nine : Service.Session.t :=
  {| Service.Session.allFilteredStatuses := [];
     Service.Session.maxId := Some "9";
     Service.Session.reachedThreshold := false;
     Service.Session.totalFetched := 40;
     Service.Session.wasFellBack := false |}.

Definition anonymous : MastodonService := new_MastodonService "https://mastodon.social/" None.

Definition member : MastodonService := new_MastodonService "mastodon.social" (Some "secret").

End Sample.

(** ** The other methods of the service *)

Section OtherMethods.

Variable env : Env.
Variable this : MastodonService.

(** [lookupAccount], first copy. *)
Definition lookupAccount (username : string) : M Body :=
  Service.fetchApi env this "accounts/lookup" [("acct", username)] true 0.

(** The request [searchStatuses] sends: another API version, no
    [Content-Type] header, and the token whenever there is one. *)
Definition search_request (query username : string) (limit : Z) : Request :=
  {| req_url := {| host := instance this;
                   path := "/api/v2/search";
                   searchParams :=
                     [("q", "from:" ++ username ++ " " ++ query);
                      ("type", "statuses");
                      ("resolve", "true");
                      ("limit", Js.Number_toString limit)] |};
     req_headers :=
       if Js.truthy (token this)
       then [("Authorization", "Bearer " ++ Js.str (token this))]
       else [] |}.

(** [data.statuses] of a parsed body. [Body] does not record that field
    of an object, so it is read through this function. *)
Variable statuses_field : Body -> option (list MastodonStatus).

(** [searchStatuses], the same text in both copies; [limit] defaults to
    20 in the source. *)
Definition searchStatuses (query username : string) (limit : Z)
  : M (option (list MastodonStatus)) :=
  response <- fetch env (search_request query username limit);;
  if negb (ok response) then throw (PlainError "Search failed") else
  match body response with
  | BodyInvalid => throw SyntaxError
  | BodyNull => throw (TypeError "Cannot read properties of null (reading 'statuses')")
  | data => ret (statuses_field data)
  end.

End OtherMethods.

(** ** More of what a trace shows *)

(** The events of a call of [fetchApi] before its last request, when
    the answers so far were [rs]: each request is followed by its
    answer and a sleep. *)
Fixpoint retried (req : Request) (retryCount : nat) (rs : list Response)
    (tr : Trace) : Trace :=
  match rs with
  | r :: rs' =>
      retried req (S retryCount) rs'
        (EvSleep (Service.waitTime (retry_after r) retryCount)
           :: EvFetch req (Responded r) :: tr)
  | [] => tr
  end.

(** The counts passed to the progress callback, the earliest first. *)
Fixpoint reports (tr : Trace) : list Z :=
  match tr with
  | EvProgress c :: tr' => (reports tr' ++ [c])%list
  | _ :: tr' => reports tr'
  | [] => []
  end.

(** The number of requests the server answered with 401 or 403. *)
Fixpoint refusals (tr : Trace) : Z :=
  match tr with
  | EvFetch _ (Responded r) :: tr' =>
      refusals tr' + (if (status r =? 401) || (status r =? 403) then 1 else 0)
  | _ :: tr' => refusals tr'
  | [] => 0
  end.

(** The sleeps, the earliest first. *)
Fixpoint sleeps (tr : Trace) : list Js.number :=
  match tr with
  | EvSleep ms :: tr' => (sleeps tr' ++ [ms])%list
  | _ :: tr' => sleeps tr'
  | [] => []
  end.

(** The number of clock readings. *)
Fixpoint clock_readings (tr : Trace) : Z :=
  match tr with
  | EvNow _ :: tr' => clock_readings tr' + 1
  | _ :: tr' => clock_readings tr'
  | [] => 0
  end.

(** The last post of the pages [fetched], if there is any post. *)
Definition last_post (fetched : list (list MastodonStatus)) : option MastodonStatus :=
  last (map Some (List.concat fetched)) None.

(** The counts of posts kept after each non-empty page of [fetched],
    starting from [kept] posts. *)
Fixpoint running (kept : Z) (fetched : list (list MastodonStatus)) : list Z :=
  match fetched with
  | [] :: rest => running kept rest
  | page :: rest =>
      let kept' := kept + len (filter not_reblog page) in
      kept' :: running kept' rest
  | [] => []
  end.

(** The server honours [limit]: no page holds more than 40 posts. *)
Definition respects_limit (env : Env) : Prop :=
  forall tr req r l,
    respond env tr req = Responded r ->
    ok r = true ->
    body r = BodyStatuses l ->
    len l <= 40.

(** [Math.random()] is in the interval [0, 1). *)
Definition random_in_unit (env : Env) : Prop :=
  forall tr, (0 <= random env tr)%Q /\ (random env tr < 1)%Q.

(** ** More sample data *)

Module Cases.

(** The value a run returned, or [d] when it did not return. *)
Definition returned {A} (d : A) (run : Outcome A * Trace) : A :=
  match fst run with
  | Returned a => a
  | _ => d
  end.

Definition no_result : Result.t :=
  {| Result.statuses := []; Result.lastId := None;
     Result.reachedThreshold := false; Result.fellBack := false |}.

(** The threshold date of the sample calls. *)
Definition new_year : Js.number := Js.Date_parse_iso "2023-01-01".

(** A session on the account of [Sample.three_pages], with and without
    a progress callback. *)
Definition three_pages_run (onProgress : bool) : Outcome Result.t * Trace :=
  Service.getStatusesUntil Sample.three_pages Sample.member "42" new_year
    onProgress 126 None [].

(** A session on the account of [Sample.archive]: its first page ends
    before the threshold. *)
Definition archive_run : Outcome Result.t * Trace :=
  Service.getStatusesUntil Sample.archive Sample.member "42" new_year false 126 None [].

(** A session on the server of [Sample.guarded], which refuses the token. *)
Definition guarded_run : Outcome Result.t * Trace :=
  Service.getStatusesUntil Sample.guarded Sample.member "42" new_year false 126 None [].

End Cases.

(** * The callers in [src/App.tsx]

    The component keeps the statuses in React state.  A handler is
    embedded as the list of the calls it makes, in order, to the state
    setters and to [localStorage]; what React does with them is not
    modelled.  The values a handler reads are those of the render that
    created it, collected in [View]. *)

Module App.

Record AuthState := {
  auth_instance : string;
  auth_token : option string
}.

Inductive Call :=
| setAuth (v : option AuthState)
| setAccount (v : option Body)
| setStatuses (v : list MastodonStatus)
| setStatuses_append (more : list MastodonStatus)
| setLastId (v : option string)
| setIsLoading (v : bool)
| setHasReadStatuses (v : bool)
| setFetchCount (v : Z)
| setError (v : option string)
| setSelectedMonth (v : option string)
| setSelectedDate (v : option string)
| setFilterStartDate (v : string)
| setFilterEndDate (v : string)
| setSearchInputValue (v : string)
| setAppliedSearchQuery (v : string)
| setTestResult_idle
| localStorage_removeItem (key : string).

(** The state [account] is [None] when it is [null]. *)
Record View := {
  auth : option AuthState;
  account : option Body;
  statuses : list MastodonStatus;
  lastId : option string;
  isLoading : bool;
  fetchAllOnStart : bool
}.

(** [useMemo(() => auth ? new MastodonService(auth.instance, auth.token) : null)] *)
Definition mastodonService (v : View) : option MastodonService :=
  match auth v with
  | Some a => Some (new_MastodonService (auth_instance a) (auth_token a))
  | None => None
  end.

(** [`${acc.id}`] for a parsed body that is not [null]: only an account
    has an [id]. *)
Definition id_of (acc : Body) : string :=
  match acc with
  | BodyAccount a => account_id a
  | _ => "undefined"
  end.

(** A parsed body as a React state: [null] is [None]. *)
Definition nullable (acc : Body) : option Body :=
  match acc with
  | BodyNull => None
  | _ => Some acc
  end.

(** The state [account] as the guards test it: [null] is falsy. *)
Definition opt_nullable (account : option Body) : option Body :=
  match account with
  | Some acc => nullable acc
  | None => None
  end.

(** [f(acc.id, ...)]: reading the [id] of [null] throws before the call. *)
Definition with_id {A} (acc : Body) (f : string -> M A) : M A :=
  match acc with
  | BodyNull => throw (TypeError "Cannot read properties of null (reading 'id')")
  | _ => f (id_of acc)
  end.

(** The counts passed to the progress callback between two traces. *)
Definition called (tr tr' : Trace) : list Z :=
  skipn (List.length (reports tr)) (reports tr').

Definition handleLogout : list Call :=
  [setAuth None; setAccount None; setStatuses []; setSelectedMonth None;
   setSelectedDate None; setFilterStartDate ""; setFilterEndDate "";
   setSearchInputValue ""; setAppliedSearchQuery ""; setTestResult_idle;
   setHasReadStatuses true; localStorage_removeItem "mastodon_auth"].

Section Handlers.

Variable env : Env.

(** [d.setFullYear(d.getFullYear() - n)] and [d.setMonth(d.getMonth() - n)]
    on the date of time value [t]: calendar arithmetic in local time,
    left to the environment. *)
Variable years_before : Z -> Z -> Js.number.
Variable months_before : Z -> Z -> Js.number.

(** The message of a [SyntaxError] of [response.json()], which the
    engine words. *)
Variable syntax_message : string.

(** [err.message] *)
Definition message (e : JsError) : string :=
  match e with
  | HttpError m _ => m
  | PlainError m => m
  | TypeError m => m
  | NetworkError reason => reason
  | SyntaxError => syntax_message
  end.

(** The [catch] block of [fetchInitialData]. *)
Definition initial_failure (err : JsError) : list Call :=
  ([setError (Some (if Js.truthy (Some (message err)) then message err
                    else "获取数据失败"))]
   ++ (if status_is err 401 then handleLogout else []))%list.

Definition fetchInitialData (fuel : nat) (v : View) : M (list Call) := fun tr =>
  match mastodonService v with
  | None => (Returned [], tr)
  | Some service =>
      let start := [setIsLoading true; setFetchCount 0; setError None] in
      match Service.verifyCredentials env service tr with
      | (Returned acc, tr1) =>
          let now := clock env tr1 in
          let tr2 := EvNow now :: tr1 in
          let thresholdDate :=
            if fetchAllOnStart v then years_before 20 now else months_before 3 now in
          match with_id acc
                  (fun accountId =>
                     Service.getStatusesUntil env service accountId thresholdDate true fuel
                       None) tr2 with
          | (Returned r, tr3) =>
              (Returned (start ++ [setAccount (nullable acc)]
                         ++ map setFetchCount (called tr2 tr3)
                         ++ [setStatuses (Result.statuses r);
                             setLastId (Result.lastId r);
                             setHasReadStatuses (negb (Result.fellBack r))]
                         ++ [setIsLoading false])%list, tr3)
          | (Thrown err, tr3) =>
              (Returned (start ++ [setAccount (nullable acc)]
                         ++ map setFetchCount (called tr2 tr3)
                         ++ initial_failure err
                         ++ [setIsLoading false])%list, tr3)
          | (OutOfFuel, tr3) => (OutOfFuel, tr3)
          end
      | (Thrown err, tr1) =>
          (Returned (start ++ initial_failure err ++ [setIsLoading false])%list, tr1)
      | (OutOfFuel, tr1) => (OutOfFuel, tr1)
      end
  end.

Definition handleFetchAllHistory (fuel : nat) (v : View) : M (list Call) := fun tr =>
  match mastodonService v, opt_nullable (account v) with
  | Some service, Some acc =>
      if isLoading v then (Returned [], tr) else
      let threshold : Js.number := Some 0 in
      let onProgress count := setFetchCount (len (statuses v) + count) in
      match Service.getStatusesUntil env service (id_of acc) threshold true fuel
              (lastId v) tr with
      | (Returned r, tr') =>
          (Returned ([setIsLoading true]
                     ++ map onProgress (called tr tr')
                     ++ [setStatuses_append (Result.statuses r);
                         setLastId (Result.lastId r)]
                     ++ (if Result.fellBack r then [setHasReadStatuses false] else [])
                     ++ [setIsLoading false])%list, tr')
      | (Thrown _, tr') =>
          (Returned ([setIsLoading true]
                     ++ map onProgress (called tr tr')
                     ++ [setError (Some "获取全部历史失败")]
                     ++ [setIsLoading false])%list, tr')
      | (OutOfFuel, tr') => (OutOfFuel, tr')
      end
  | _, _ => (Returned [], tr)
  end.

End Handlers.

(** ** Values computed from the statuses *)

(** [content.replace(/<[^>]*>?/gm, "")], the text that the search box is
    matched against (before [toLowerCase]): from each [<] up to and
    with the next [>], or up to the end when there is none. [inTag]
    tells that a [<] is open. *)
Fixpoint strip_tags (inTag : bool) (s : string) : string :=
  match s with
  | EmptyString => EmptyString
  | String c s' =>
      if inTag then
        if Ascii.eqb c ">" then strip_tags false s' else strip_tags true s'
      else
        if Ascii.eqb c "<" then strip_tags true s' else String c (strip_tags false s')
  end.

Definition plainContent (s : MastodonStatus) : string :=
  strip_tags false (content s).

Fixpoint occurs (c : ascii) (s : string) : bool :=
  match s with
  | EmptyString => false
  | String d s' => Ascii.eqb d c || occurs c s'
  end.

(** [s.split("T")[0]] *)
Fixpoint before_T (s : string) : string :=
  match s with
  | EmptyString => EmptyString
  | String c s' => if Ascii.eqb c "T" then EmptyString else String c (before_T s')
  end.

(** The names every object inherits from [Object.prototype]: looked up
    in an empty object they give a function, not [undefined]. *)
Definition inherited : list string :=
  ["constructor"; "__defineGetter__"; "__defineSetter__"; "hasOwnProperty";
   "__lookupGetter__"; "__lookupSetter__"; "isPrototypeOf";
   "propertyIsEnumerable"; "toString"; "valueOf"; "__proto__"; "toLocaleString"].

Fixpoint all_digits (s : string) : bool :=
  match s with
  | EmptyString => true
  | String c s' =>
      match Js.digit_value 10 c with Some _ => all_digits s' | None => false end
  end.

(** The keys for which an object behaves as a list of own properties in
    the order of their creation: not inherited, and not an array index
    (those come first in [Object.entries]); every key made of digits
    only is left out, and the empty key with them. *)
Definition plain_key (k : string) : bool :=
  negb (existsb (String.eqb k) inherited) && negb (all_digits k).

(** [counts[k]] and [counts[k] = v] on such an object. *)
Fixpoint lookup (counts : list (string * Z)) (k : string) : option Z :=
  match counts with
  | (k', v) :: rest => if String.eqb k' k then Some v else lookup rest k
  | [] => None
  end.

Fixpoint store (counts : list (string * Z)) (k : string) (v : Z) : list (string * Z) :=
  match counts with
  | (k', v') :: rest =>
      if String.eqb k' k then (k', v) :: rest else (k', v') :: store rest k v
  | [] => [(k, v)]
  end.

(** [x || 0] for a number or [undefined]. *)
Definition or_zero (x : option Z) : Z :=
  match x with
  | Some n => if n =? 0 then 0 else n
  | None => 0
  end.

Record ActivityData := {
  date : string;
  count : Z
}.

(** [activityData]; [None] when a key is met that is not a [plain_key],
    which is not modelled. *)
Definition activityData (statuses : list MastodonStatus) : option (list ActivityData) :=
  let counts :=
    fold_left
      (fun counts s =>
         match counts with
         | None => None
         | Some counts =>
             if negb (Js.truthy (Some (created_at s))) then Some counts else
             let date := before_T (created_at s) in
             if plain_key date
             then Some (store counts date (or_zero (lookup counts date) + 1))
             else None
         end)
      statuses (Some []) in
  match counts with
  | Some counts => Some (map (fun e => {| date := fst e; count := snd e |}) counts)
  | None => None
  end.

(** The statuses of the day [d], and their number. *)
Definition on_day (d : string) (s : MastodonStatus) : bool :=
  Js.truthy (Some (created_at s)) && String.eqb (before_T (created_at s)) d.

Definition tally (d : string) (statuses : list MastodonStatus) : Z :=
  len (filter (on_day d) statuses).

(** What the loop of [activityData] keeps true of its [counts], [seen]
    being the statuses gone through. *)
Definition tallied (counts : list (string * Z)) (seen : list MastodonStatus) : Prop :=
  NoDup (map fst counts) /\
  (forall k, lookup counts k = if tally k seen =? 0 then None else Some (tally k seen)) /\
  fold_right Z.add 0 (map snd counts) =
  len (filter (fun s => Js.truthy (Some (created_at s))) seen).

End App.

(** Renders of the component, for the examples. *)
Module Views.

Definition login : App.AuthState :=
  {| App.auth_instance := "https://mastodon.social/"; App.auth_token := Some "secret" |}.

(** Logged in, the account known, nothing shown yet. *)
Definition fresh : App.View :=
  {| App.auth := Some login;
     App.account := Some (BodyAccount Sample.nobody);
     App.statuses := [];
     App.lastId := None;
     App.isLoading := false;
     App.fetchAllOnStart := false |}.

(** Two statuses shown, the cursor at the older one. *)
Definition browsing : App.View :=
  {| App.auth := Some login;
     App.account := Some (BodyAccount Sample.nobody);
     App.statuses := [Sample.post "41" "2023-07-02T00:00:00.000Z" false;
                      Sample.post "40" "2023-07-01T00:00:00.000Z" false];
     App.lastId := Some "40";
     App.isLoading := false;
     App.fetchAllOnStart := false |}.

(** Stored credentials without a token. *)
Definition tokenless : App.View :=
  {| App.auth := Some {| App.auth_instance := "mastodon.social"; App.auth_token := None |};
     App.account := None;
     App.statuses := [];
     App.lastId := None;
     App.isLoading := false;
     App.fetchAllOnStart := false |}.

(** A server that accepts the credentials and then serves one post. *)
Definition welcoming : Env :=
  Sample.world (Sample.scripted
    [Responded {| status := 200; retry_after := None; body := BodyAccount Sample.nobody |};
     Sample.success [Sample.post "9" "2023-03-01T00:00:00.000Z" false]]).

(** The traces of [fetchInitialData] on that server: after the
    credentials are verified, and at the end. *)
Definition verified : Trace :=
  snd (Service.verifyCredentials welcoming Sample.member []).

Definition shown (threshold : Js.number) : Outcome Result.t * Trace :=
  Service.getStatusesUntil welcoming Sample.member "1" threshold true 126 None
    (EvNow 0 :: verified).

(** A status with the given content. *)
Definition toot (html : string) : MastodonStatus :=
  {| id := "1"; created_at := "2023-03-01T00:00:00.000Z"; content := html;
     replies_count := 0; reblogs_count := 0; favourites_count := 0; url := "";
     account := Sample.nobody; media_attachments := []; reblog := None |}.

(** Calendar arithmetic for the examples: 30 days to a month. *)
Definition back (days : Z) (n t : Z) : Js.number := Some (t - n * days * 86400000).

End Views.

(** ** The cursor of a session, as the trace shows it *)

(** The cursor once the events [new] (the latest first) have followed a
    start at [start]: the id of the last post delivered, if any. *)
Definition cursor_after (start : option string) (new : Trace) : option string :=
  match last_post (pages new) with
  | Some p => Some (id p)
  | None => start
  end.

(** The [max_id] of the request for the page before [cursor]: none when
    the cursor is undefined or empty. *)
Definition sent (cursor : option string) : option string :=
  if Js.truthy cursor then cursor else None.

(** Every request among the events [new] carries the cursor that the
    events before it have left. *)
Fixpoint follows (start : option string) (new : Trace) : Prop :=
  match new with
  | EvFetch req _ :: earlier =>
      max_id_of req = sent (cursor_after start earlier) /\ follows start earlier
  | _ :: earlier => follows start earlier
  | [] => True
  end.

(** The [max_id] of the requests of a trace, the earliest first. *)
Fixpoint cursors_sent (tr : Trace) : list (option string) :=
  match tr with
  | EvFetch req _ :: tr' => (cursors_sent tr' ++ [max_id_of req])%list
  | _ :: tr' => cursors_sent tr'
  | [] => []
  end.

(** A server that ignores [max_id]: it serves a full page of posts of
    id 5, of 1 March 2023, and then one post of id 7, of the day
    after. *)
Module Heedless.

Definition server : Env :=
  Sample.world (Sample.scripted
    [Sample.success (repeat (Sample.post "5" "2023-03-01T00:00:00.000Z" false) 40);
     Sample.success [Sample.post "7" "2023-03-02T00:00:00.000Z" false]]).

Definition run : Outcome Result.t * Trace :=
  Service.getStatusesUntil server Sample.member "42" Cases.new_year false 126 None [].

End Heedless.

(** * Properties *)

Local Open Scope list_scope.

(** ** Numbers in decimal *)






(** ** The request layer *)

Section RequestLayer.

Variable env : Env.
Variable this : MastodonService.
Variable endpoint : string.
Variable params : list (string * string).
Variable useAuth : bool.

Let req := request this endpoint params useAuth.

(** One call of [fetchApi], by what the server answers. *)
Lemma fetchApi_fuel_step fuel retryCount tr :
  Service.fetchApi_fuel env this (S fuel) endpoint params useAuth retryCount tr =
  match respond env tr req with
  | Responded r =>
      if (status r =? 429) && (retryCount <? 2)%nat
      then Service.fetchApi_fuel env this fuel endpoint params useAuth (retryCount + 1)
             (EvSleep (Service.waitTime (retry_after r) retryCount)
                :: EvFetch req (Responded r) :: tr)
      else settle r (EvFetch req (Responded r) :: tr)
  | NetworkFailure reason =>
      (Thrown (NetworkError reason), EvFetch req (NetworkFailure reason) :: tr)
  end.
Proof.
  simpl. unfold bind at 1. unfold fetch. fold req.
  destruct (respond env tr req) as [r | reason]; [| reflexivity].
  destruct ((status r =? 429) && (retryCount <? 2)%nat); reflexivity.
Qed.

(** Fuel beyond the retries that remain changes nothing. *)
Lemma fetchApi_fuel_irrelevant fuel1 : forall fuel2 retryCount tr,
  (2 - retryCount < fuel1)%nat -> (2 - retryCount < fuel2)%nat ->
  Service.fetchApi_fuel env this fuel1 endpoint params useAuth retryCount tr =
  Service.fetchApi_fuel env this fuel2 endpoint params useAuth retryCount tr.
Proof.
  induction fuel1 as [| fuel1 IH]; intros fuel2 retryCount tr H1 H2; [lia |].
  destruct fuel2 as [| fuel2]; [lia |].
  rewrite !fetchApi_fuel_step.
  destruct (respond env tr req) as [r | reason]; [| reflexivity].
  destruct ((status r =? 429) && (retryCount <? 2)%nat) eqn:Hretry; [| reflexivity].
  apply andb_prop in Hretry as [_ Hlt].
  apply Nat.ltb_lt in Hlt. apply IH; lia.
Qed.

Lemma fetchApi_step retryCount tr :
  Service.fetchApi env this endpoint params useAuth retryCount tr =
  match respond env tr req with
  | Responded r =>
      if (status r =? 429) && (retryCount <? 2)%nat
      then Service.fetchApi env this endpoint params useAuth (retryCount + 1)
             (EvSleep (Service.waitTime (retry_after r) retryCount)
                :: EvFetch req (Responded r) :: tr)
      else settle r (EvFetch req (Responded r) :: tr)
  | NetworkFailure reason =>
      (Thrown (NetworkError reason), EvFetch req (NetworkFailure reason) :: tr)
  end.
Proof.
  unfold Service.fetchApi. rewrite fetchApi_fuel_step.
  destruct (respond env tr req) as [r | reason]; [| reflexivity].
  destruct ((status r =? 429) && (retryCount <? 2)%nat) eqn:Hretry; [| reflexivity].
  apply andb_prop in Hretry as [_ Hlt].
  apply Nat.ltb_lt in Hlt. apply fetchApi_fuel_irrelevant; lia.
Qed.

(** [settle] adds no event and never runs out of fuel: it returns the
    body of an [ok] response and throws otherwise; the error carries
    the status unless the body is [null]. *)
Lemma settle_spec r tr :
  (exists b, settle r tr = (Returned b, tr) /\ ok r = true /\ body r = b /\ b <> BodyInvalid) \/
  (exists e, settle r tr = (Thrown e, tr) /\
             (ok r = false /\
              (body r <> BodyNull /\ (exists msg, e = HttpError msg (status r)) \/
               body r = BodyNull /\ exists msg, e = TypeError msg) \/
              ok r = true /\ body r = BodyInvalid /\ e = SyntaxError)).
Proof.
  unfold settle. destruct (ok r) eqn:Hok; simpl.
  - destruct (body r) eqn:Hb.
    + right. eexists. split; [reflexivity |]. right. auto.
    + left. eexists. repeat split; congruence.
    + left. eexists. repeat split; congruence.
    + left. eexists. repeat split; congruence.
    + left. eexists. repeat split; congruence.
  - destruct (body r) eqn:Hb; right; eexists; (split; [reflexivity |]); left;
      (split; [reflexivity |]);
      try (left; split; [discriminate | eexists; reflexivity]).
    right. split; [reflexivity | eexists; reflexivity].
Qed.

(** What a whole call leaves in the trace: it never runs out of fuel,
    it sends between one and [3 - retryCount] requests, and it delivers
    a page exactly when it returns one. *)
Lemma fetchApi_fuel_trace fuel : forall retryCount tr out tr',
  (2 - retryCount < fuel)%nat ->
  Service.fetchApi_fuel env this fuel endpoint params useAuth retryCount tr = (out, tr') ->
  out <> OutOfFuel /\
  fetches tr < fetches tr' <= fetches tr + Z.of_nat (S (2 - retryCount)) /\
  pages tr' = pages tr ++ match out with
                          | Returned (BodyStatuses l) => [l]
                          | _ => []
                          end.
Proof.
  induction fuel as [| fuel IH]; intros retryCount tr out tr' Hfuel H; [lia |].
  rewrite fetchApi_fuel_step in H.
  destruct (respond env tr req) as [r | reason] eqn:Hres.
  - destruct ((status r =? 429) && (retryCount <? 2)%nat) eqn:Hretry.
    + apply andb_prop in Hretry as [H429 Hlt].
      apply Nat.ltb_lt in Hlt. apply Z.eqb_eq in H429.
      apply IH in H; [| lia].
      destruct H as (Hout & Hf & Hp). cbn [fetches pages page_of] in Hf, Hp.
      assert (Hok : ok r = false) by (unfold ok; rewrite H429; reflexivity).
      rewrite Hok in Hp. cbv iota in Hp. rewrite !app_nil_r in Hp.
      repeat split; try assumption; lia.
    + destruct (settle_spec r (EvFetch req (Responded r) :: tr))
        as [(b & Hs & Hok & Hb & Hnb) | (e & Hs & He)];
        rewrite Hs in H; inversion H; subst; simpl.
      * rewrite Hok. repeat split; try discriminate; try lia.
      * repeat split; try discriminate; try lia.
        destruct He as [[Hok _] | (Hok & Hb & _)]; rewrite Hok.
        -- reflexivity.
        -- now rewrite Hb.
  - inversion H; subst; simpl.
    repeat split; try discriminate; lia.
Qed.

Lemma fetchApi_trace retryCount tr out tr' :
  Service.fetchApi env this endpoint params useAuth retryCount tr = (out, tr') ->
  out <> OutOfFuel /\
  fetches tr < fetches tr' <= fetches tr + 3 /\
  pages tr' = pages tr ++ match out with
                          | Returned (BodyStatuses l) => [l]
                          | _ => []
                          end.
Proof.
  intros H. apply fetchApi_fuel_trace in H; [| lia].
  destruct H as (Hout & Hf & Hp). repeat split; try assumption; lia.
Qed.

End RequestLayer.

(** C9. A service configured without a token: [verifyCredentials]
    throws its precondition error at once; the trace is untouched, so no
    HTTP request is sent and nothing is retried. *)
Theorem verifyCredentials_requires_token :
  forall env this tr,
  Js.truthy (token this) = false ->
  Service.verifyCredentials env this tr =
  (Thrown (PlainError "Token required for verifyCredentials"), tr).
Proof.
  intros env this tr H. unfold Service.verifyCredentials.
  rewrite H. reflexivity.
Qed.

Lemma verifyCredentials_requires_token_witness :
  Service.verifyCredentials (Sample.world (Sample.scripted [])) Sample.anonymous [] =
  (Thrown (PlainError "Token required for verifyCredentials"), []).
Proof.
  apply verifyCredentials_requires_token. reflexivity.
Defined.

(** The second copy has the same guard. *)
Lemma verifyCredentials_requires_token_alt env this tr :
  Js.truthy (token this) = false ->
  ServiceAlt.verifyCredentials env this tr =
  (Thrown (PlainError "Token required for verifyCredentials"), tr).
Proof.
  intros H. unfold ServiceAlt.verifyCredentials. rewrite H. reflexivity.
Qed.


(** What [settle] throws for a response that is not [ok]. *)
Lemma settle_not_ok r tr :
  ok r = false ->
  (body r <> BodyNull ->
   exists msg, msg <> ""%string /\ settle r tr = (Thrown (HttpError msg (status r)), tr)) /\
  (body r = BodyNull ->
   exists msg, settle r tr = (Thrown (TypeError msg), tr)).
Proof.
  intros Hok. unfold settle, throw. rewrite Hok. cbn [negb]. split.
  - intros Hbody.
    destruct (body r) as [| err | l | a |] eqn:Hb; try contradiction;
      (eexists; split; [| reflexivity]); cbn [error_field Js.truthy Js.str].
    + discriminate.
    + destruct err as [[| c m] |]; cbn; discriminate.
    + discriminate.
    + discriminate.
  - intros Hbody. rewrite Hbody. eexists. reflexivity.
Qed.




(** The second copy never retries: a 429 is thrown at once. *)
Lemma fetchApi_alt_no_retry env this endpoint params useAuth tr r :
  let req := request this endpoint params useAuth in
  respond env tr req = Responded r ->
  status r = 429 ->
  body r <> BodyNull ->
  exists msg,
    ServiceAlt.fetchApi env this endpoint params useAuth tr =
    (Thrown (HttpError msg 429), EvFetch req (Responded r) :: tr).
Proof.
  intros req Hres H429 Hbody. unfold ServiceAlt.fetchApi, bind, fetch. fold req.
  rewrite Hres.
  assert (Hok : ok r = false) by (unfold ok; rewrite H429; reflexivity).
  destruct (settle_not_ok r (EvFetch req (Responded r) :: tr) Hok) as [Hhttp _].
  destruct (Hhttp Hbody) as (msg & _ & Hs).
  exists msg. rewrite Hs, H429. reflexivity.
Qed.

(** ** The permission fallback *)

(** [getStatusesPage], by what its calls of [fetchApi] give. *)
Lemma getStatusesPage_run env this accountId maxId limit tr :
  Service.getStatusesPage env this accountId maxId limit tr =
  let endpoint := ("accounts/" ++ accountId ++ "/statuses")%string in
  let params := page_params maxId limit in
  match Service.fetchApi env this endpoint params true 0 tr with
  | (Returned statuses, tr1) =>
      (Returned {| Page.statuses := statuses; Page.fellBack := false |}, tr1)
  | (Thrown e, tr1) =>
      if status_is e 403 || status_is e 401 then
        match Service.fetchApi env this endpoint params false 0 tr1 with
        | (Returned statuses, tr2) =>
            (Returned {| Page.statuses := statuses; Page.fellBack := true |}, tr2)
        | (Thrown e', tr2) => (Thrown e', tr2)
        | (OutOfFuel, tr2) => (OutOfFuel, tr2)
        end
      else (Thrown e, tr1)
  | (OutOfFuel, tr1) => (OutOfFuel, tr1)
  end.
Proof.
  unfold Service.getStatusesPage, try_catch, bind, ret, throw. cbv zeta.
  destruct (Service.fetchApi env this _ _ true 0 tr) as [[st | e |] tr1];
    try reflexivity.
  destruct (status_is e 403 || status_is e 401); [| reflexivity].
  destruct (Service.fetchApi env this _ _ false 0 tr1) as [[st | e' |] tr2];
    reflexivity.
Qed.

Lemma status_is_iff e n : status_is e n = true <-> error_status e = Some n.
Proof.
  unfold status_is. destruct (error_status e) as [st |].
  - rewrite Z.eqb_eq. split; congruence.
  - split; discriminate.
Qed.



(** What a page fetch leaves in the trace: it never runs out of fuel,
    it sends between one and six requests, and it delivers a page
    exactly when it returns one. *)
Lemma getStatusesPage_trace env this accountId maxId limit tr out tr' :
  Service.getStatusesPage env this accountId maxId limit tr = (out, tr') ->
  out <> OutOfFuel /\
  fetches tr < fetches tr' <= fetches tr + 6 /\
  pages tr' = pages tr ++ match out with
                          | Returned page =>
                              match Page.statuses page with
                              | BodyStatuses l => [l]
                              | _ => []
                              end
                          | _ => []
                          end.
Proof.
  rewrite getStatusesPage_run. cbv zeta.
  destruct (Service.fetchApi env this _ _ true 0 tr) as [[st | e |] tr1] eqn:E1;
    apply fetchApi_trace in E1; destruct E1 as (Ho1 & Hf1 & Hp1).
  - intros H; inversion H; subst. simpl.
    repeat split; try discriminate; try lia. exact Hp1.
  - destruct (status_is e 403 || status_is e 401).
    + destruct (Service.fetchApi env this _ _ false 0 tr1) as [[st | e' |] tr2] eqn:E2;
        apply fetchApi_trace in E2; destruct E2 as (Ho2 & Hf2 & Hp2);
        intros H; inversion H; subst; simpl;
        rewrite Hp1, app_nil_r in Hp2.
      * repeat split; try discriminate; try lia. exact Hp2.
      * repeat split; try discriminate; try lia. exact Hp2.
      * contradiction.
    + intros H; inversion H; subst. simpl.
      repeat split; try discriminate; try lia. exact Hp1.
  - contradiction.
Qed.

(** ** The crawler *)

Lemma nth_error_last {A} (front : list A) (x : A) :
  nth_error (front ++ [x]) (List.length (front ++ [x]) - 1) = Some x.
Proof.
  rewrite length_app. simpl.
  replace (List.length front + 1 - 1)%nat with (List.length front) by lia.
  rewrite nth_error_app2 by lia. now rewrite Nat.sub_diag.
Qed.

Lemma nonempty_last {A} (l : list A) :
  l <> [] -> exists front x, l = front ++ [x].
Proof.
  intros H. destruct (exists_last H) as (front & x & ->). now exists front, x.
Qed.

Lemma len_app {A} (l1 l2 : list A) : len (l1 ++ l2) = len l1 + len l2.
Proof. unfold len. rewrite length_app. lia. Qed.

(** A body that [fetchApi] returns was served, with an [ok] status, in
    answer to the request of that call. *)
Lemma fetchApi_fuel_provenance env this endpoint params useAuth fuel :
  forall retryCount tr b tr',
  Service.fetchApi_fuel env this fuel endpoint params useAuth retryCount tr = (Returned b, tr') ->
  exists tr0 r,
    respond env tr0 (request this endpoint params useAuth) = Responded r /\
    ok r = true /\ body r = b.
Proof.
  induction fuel as [| fuel IH]; intros retryCount tr b tr' H; [discriminate H |].
  rewrite fetchApi_fuel_step in H.
  destruct (respond env tr (request this endpoint params useAuth)) as [r | reason] eqn:Hres;
    [| discriminate H].
  destruct ((status r =? 429) && (retryCount <? 2)%nat).
  - eapply IH. exact H.
  - destruct (settle_spec r (EvFetch (request this endpoint params useAuth) (Responded r) :: tr))
      as [(b' & Hs & Hok & Hb & _) | (e & Hs & _)]; rewrite Hs in H; [| discriminate H].
    inversion H; subst. now exists tr, r.
Qed.

Lemma getStatusesPage_provenance env this accountId maxId limit tr page tr' :
  Service.getStatusesPage env this accountId maxId limit tr = (Returned page, tr') ->
  exists tr0 useAuth r,
    respond env tr0
      (request this ("accounts/" ++ accountId ++ "/statuses")%string
         (page_params maxId limit) useAuth) = Responded r /\
    ok r = true /\ body r = Page.statuses page.
Proof.
  rewrite getStatusesPage_run. cbv zeta.
  destruct (Service.fetchApi env this _ _ true 0 tr) as [[st | e |] tr1] eqn:E1.
  - intros H; inversion H; subst. simpl.
    apply fetchApi_fuel_provenance in E1 as (tr0 & r & Hr). now exists tr0, true, r.
  - destruct (status_is e 403 || status_is e 401); [| discriminate].
    destruct (Service.fetchApi env this _ _ false 0 tr1) as [[st | e' |] tr2] eqn:E2;
      try discriminate.
    intros H; inversion H; subst. simpl.
    apply fetchApi_fuel_provenance in E2 as (tr0 & r & Hr). now exists tr0, false, r.
  - discriminate.
Qed.

Section Crawler.

Variable env : Env.
Variable this : MastodonService.
Variable accountId : string.
Variable untilDate : Js.number.
Variable onProgress : bool.

Local Abbreviation crawl_body := (Service.crawl_body env this accountId untilDate onProgress).
Local Abbreviation crawl := (Service.crawl env this accountId untilDate onProgress).
Local Abbreviation page_fetched := (Service.page_fetched env this accountId).
Local Abbreviation processed := (Service.processed env untilDate).

(** The body on a run over the time budget: nothing but the clock
    reading happens. *)
Lemma crawl_body_timeout startTime s tr :
  clock env tr - startTime > Service.TIME_BUDGET ->
  crawl_body startTime s tr = (Returned (s, false), EvNow (clock env tr) :: tr).
Proof.
  intros H. unfold Service.crawl_body, bind, Date_now.
  assert (Hb : (clock env tr - startTime >? Service.TIME_BUDGET) = true).
  { rewrite Z.gtb_ltb. apply Z.ltb_lt. lia. }
  rewrite Hb. reflexivity.
Qed.

(** The body on an empty page. *)
Lemma crawl_body_empty startTime s tr fb tr2 :
  page_fetched startTime s tr [] fb tr2 ->
  crawl_body startTime s tr =
  (Returned ({| Service.Session.allFilteredStatuses := Service.Session.allFilteredStatuses s;
                Service.Session.maxId := Service.Session.maxId s;
                Service.Session.reachedThreshold := Service.Session.reachedThreshold s;
                Service.Session.totalFetched := Service.Session.totalFetched s;
                Service.Session.wasFellBack :=
                  if fb then true else Service.Session.wasFellBack s |}, false),
   tr2).
Proof.
  intros [Ht Hp]. unfold Service.crawl_body, bind, Date_now.
  assert (Hb : (clock env tr - startTime >? Service.TIME_BUDGET) = false).
  { rewrite Z.gtb_ltb. apply Z.ltb_ge. exact Ht. }
  rewrite Hb, Hp. reflexivity.
Qed.

(** The body on a non-empty page: the state is [processed], the
    progress callback runs if there is one, and the body leaves by
    [break] when the page is short or the cap is passed; otherwise it
    sleeps and reaches its end. *)
Lemma crawl_body_page startTime s tr front oldest fb tr2 :
  let batch := front ++ [oldest] in
  let s' := processed s batch oldest fb in
  let called :=
    if onProgress
    then [EvProgress (len (Service.Session.allFilteredStatuses s'))]
    else [] in
  page_fetched startTime s tr batch fb tr2 ->
  crawl_body startTime s tr =
  if (len batch <? 40) || (Service.Session.totalFetched s' >? 5000)
  then (Returned (s', false), called ++ tr2)
  else (Returned (s', true),
        EvSleep (Some (Qfloor (random env (called ++ tr2) * inject_Z 300)%Q + 200))
          :: called ++ tr2).
Proof.
  intros batch s' called [Ht Hp]. unfold Service.crawl_body, bind, Date_now.
  assert (Hb : (clock env tr - startTime >? Service.TIME_BUDGET) = false).
  { rewrite Z.gtb_ltb. apply Z.ltb_ge. exact Ht. }
  rewrite Hb, Hp. cbn [Page.statuses Page.fellBack as_array].
  assert (Hlen : (len batch =? 0) = false).
  { apply Z.eqb_neq. unfold batch. rewrite len_app. unfold len. simpl. lia. }
  rewrite Hlen. fold batch. unfold batch at 1 2. rewrite nth_error_last. fold batch.
  fold s'. unfold called.
  destruct onProgress; unfold progress, ret, sleep, Math_random;
    destruct (len batch <? 40); try reflexivity;
    cbn [orb Service.Session.totalFetched processed s' Service.processed];
    destruct (Service.Session.totalFetched s + len batch >? 5000); reflexivity.
Qed.

(** The ways a run of the body can go. *)
Lemma crawl_body_cases startTime s tr out tr' :
  crawl_body startTime s tr = (out, tr') ->
  (exists e, out = Thrown e /\ fetches tr <= fetches tr' <= fetches tr + 6) \/
  (clock env tr - startTime > Service.TIME_BUDGET /\
   out = Returned (s, false) /\ tr' = EvNow (clock env tr) :: tr) \/
  (exists fb, page_fetched startTime s tr [] fb tr') \/
  (exists front oldest fb tr2, page_fetched startTime s tr (front ++ [oldest]) fb tr2).
Proof.
  destruct (Z_gt_le_dec (clock env tr - startTime) Service.TIME_BUDGET) as [Hover | Hin].
  { rewrite crawl_body_timeout by exact Hover.
    intros H; inversion H; subst. right. left. auto. }
  unfold Service.crawl_body, bind, Date_now.
  assert (Hb : (clock env tr - startTime >? Service.TIME_BUDGET) = false).
  { rewrite Z.gtb_ltb. apply Z.ltb_ge. exact Hin. }
  rewrite Hb.
  destruct (Service.getStatusesPage env this accountId (Service.Session.maxId s) 40
              (EvNow (clock env tr) :: tr)) as [[page | e |] tr2] eqn:Hp.
  - destruct page as [st fb]. cbn [Page.statuses Page.fellBack].
    pose proof (getStatusesPage_trace _ _ _ _ _ _ _ _ Hp) as (_ & Hf & _).
    cbn [fetches] in Hf.
    destruct st as [| err | batch | a |]; cbn [as_array];
      try (intros H; inversion H; subst; left; eexists; split; [reflexivity | lia]).
    destruct batch as [| p batch'] eqn:Hbatch.
    + intros H; inversion H; subst. right. right. left.
      exists fb. split; assumption.
    + intros _. right. right. right.
      destruct (@nonempty_last _ (p :: batch') ltac:(discriminate)) as (front & oldest & Heq).
      exists front, oldest, fb, tr2. rewrite <- Heq. split; assumption.
  - pose proof (getStatusesPage_trace _ _ _ _ _ _ _ _ Hp) as (_ & Hf & _).
    cbn [fetches] in Hf.
    intros H; inversion H; subst. left. eexists. split; [reflexivity | lia].
  - apply getStatusesPage_trace in Hp. tauto.
Qed.

Lemma num_lt_asym a b : Js.num_lt a b = true -> Js.num_lt b a = false.
Proof.
  destruct a as [x |], b as [y |]; simpl; try discriminate.
  intros H. apply Z.ltb_lt in H. apply Z.ltb_ge. lia.
Qed.

(** What a page fetch of the body leaves in the trace. *)
Lemma page_fetched_trace startTime s tr batch fb tr2 :
  page_fetched startTime s tr batch fb tr2 ->
  fetches tr < fetches tr2 <= fetches tr + 6 /\ pages tr2 = pages tr ++ [batch].
Proof.
  intros [_ Hp]. apply getStatusesPage_trace in Hp as (_ & Hf & Hpg).
  cbn [fetches pages page_of Page.statuses] in Hf, Hpg.
  rewrite app_nil_r in Hpg. split; [lia | exact Hpg].
Qed.

(** A page that was fetched was served by the server, in answer to a
    request for the posts before the cursor. *)
Lemma page_fetched_provenance startTime s tr batch fb tr2 :
  page_fetched startTime s tr batch fb tr2 ->
  exists tr0 useAuth r,
    respond env tr0
      (request this ("accounts/" ++ accountId ++ "/statuses")%string
         (page_params (Service.Session.maxId s) 40) useAuth) = Responded r /\
    ok r = true /\ body r = BodyStatuses batch.
Proof.
  intros [_ Hp]. apply getStatusesPage_provenance in Hp. exact Hp.
Qed.

(** One run of the body, summed up: it terminates, sends at most six
    requests, appends the non-reblogs of the page it fetched, counts
    the whole page, and reaches its end only after a full page that
    keeps the total within the cap. *)
Lemma crawl_body_summary startTime s tr out tr' :
  crawl_body startTime s tr = (out, tr') ->
  out <> OutOfFuel /\
  fetches tr <= fetches tr' <= fetches tr + 6 /\
  forall s' again, out = Returned (s', again) ->
    (exists fetched,
       pages tr' = pages tr ++ fetched /\
       Service.Session.allFilteredStatuses s' =
         Service.Session.allFilteredStatuses s ++ filter not_reblog (List.concat fetched) /\
       Service.Session.totalFetched s' =
         Service.Session.totalFetched s + len (List.concat fetched)) /\
    (again = true ->
       Service.Session.totalFetched s + 40 <= Service.Session.totalFetched s' <= 5000) /\
    (all_posts_after env untilDate ->
       Service.Session.reachedThreshold s' = Service.Session.reachedThreshold s).
Proof.
  intros H. pose proof H as Hc. apply crawl_body_cases in Hc.
  destruct Hc
    as [(e & -> & Hf) | [(Hover & -> & ->) | [(fb & Hp) | (front & oldest & fb & tr2 & Hp)]]].
  - repeat split; try discriminate; lia.
  - cbn [fetches]. repeat split; try discriminate; try lia;
      inversion H0; subst; try discriminate; try reflexivity.
    exists []. cbn [pages page_of List.concat filter len List.length].
    rewrite !app_nil_r. repeat split. unfold len. simpl. lia.
  - erewrite crawl_body_empty in H by eassumption. inversion H; subst.
    pose proof Hp as Ht. apply page_fetched_trace in Ht as [Hf Hpg].
    repeat split; try discriminate; try lia;
      inversion H0; subst; try discriminate; try reflexivity.
    exists [[]]. cbn [List.concat filter app len List.length Service.Session.allFilteredStatuses
                      Service.Session.totalFetched].
    rewrite app_nil_r. repeat split; [exact Hpg | unfold len; simpl; lia].
  - erewrite crawl_body_page in H by eassumption.
    pose proof Hp as Ht. apply page_fetched_trace in Ht as [Hf Hpg].
    set (batch := front ++ [oldest]) in *.
    set (s1 := processed s batch oldest fb) in *.
    set (called := if onProgress
                   then [EvProgress (len (Service.Session.allFilteredStatuses s1))]
                   else []) in *.
    assert (Hq : fetches (called ++ tr2) = fetches tr2 /\ pages (called ++ tr2) = pages tr2).
    { unfold called. destruct onProgress; simpl; rewrite ?app_nil_r; split; reflexivity. }
    destruct Hq as [Hqf Hqp].
    assert (Hthr : all_posts_after env untilDate ->
                   Service.Session.reachedThreshold s1 = Service.Session.reachedThreshold s).
    { intros Hafter.
      pose proof Hp as Hfrom.
      apply page_fetched_provenance in Hfrom as (tr0 & useAuth & r & Hres & Hok & Hbody).
      pose proof (Hafter _ _ _ _ Hres Hok Hbody) as Hall.
      rewrite Forall_forall in Hall.
      assert (Hin : In oldest batch) by (unfold batch; apply in_or_app; right; left; reflexivity).
      apply Hall, num_lt_asym in Hin.
      unfold s1, Service.processed. cbn [Service.Session.reachedThreshold].
      now rewrite Hin. }
    assert (Hacc : exists fetched,
               pages tr2 = pages tr ++ fetched /\
               Service.Session.allFilteredStatuses s1 =
                 Service.Session.allFilteredStatuses s ++ filter not_reblog (List.concat fetched) /\
               Service.Session.totalFetched s1 =
                 Service.Session.totalFetched s + len (List.concat fetched)).
    { exists [batch]. cbn [List.concat]. rewrite app_nil_r. repeat split. exact Hpg. }
    destruct ((len batch <? 40) || (Service.Session.totalFetched s1 >? 5000)) eqn:Hstop;
      inversion H; subst; cbn [fetches pages page_of]; rewrite ?app_nil_r, ?Hqf, ?Hqp.
    + repeat split; try discriminate; try lia;
        inversion H0; subst; try discriminate; auto.
    + apply orb_false_iff in Hstop as [Hfull Hcap].
      apply Z.ltb_ge in Hfull. rewrite Z.gtb_ltb in Hcap. apply Z.ltb_ge in Hcap.
      repeat split; try discriminate; try lia;
        inversion H0; subst; auto;
        unfold s1, Service.processed in *;
        cbn [Service.Session.totalFetched] in *; lia.
Qed.

(** One test of the loop condition and, when it holds, one run of the
    body. *)
Lemma crawl_step fuel startTime s tr :
  crawl (S fuel) startTime s tr =
  if Service.Session.reachedThreshold s then (Returned s, tr) else
  match crawl_body startTime s tr with
  | (Returned (s', true), tr') => crawl fuel startTime s' tr'
  | (Returned (s', false), tr') => (Returned s', tr')
  | (Thrown e, tr') => (Thrown e, tr')
  | (OutOfFuel, tr') => (OutOfFuel, tr')
  end.
Proof.
  cbn [Service.crawl]. destruct (Service.Session.reachedThreshold s); [reflexivity |].
  unfold bind.
  destruct (crawl_body startTime s tr) as [[[s' [|]] | e |] tr']; reflexivity.
Qed.

(** The loop as a whole: the result holds the non-reblogs of the pages
    fetched, in the order of the fetches, and the counter holds the
    size of all of them. *)
Lemma crawl_summary fuel : forall startTime s tr s' tr',
  crawl fuel startTime s tr = (Returned s', tr') ->
  (exists fetched,
     pages tr' = pages tr ++ fetched /\
     Service.Session.allFilteredStatuses s' =
       Service.Session.allFilteredStatuses s ++ filter not_reblog (List.concat fetched) /\
     Service.Session.totalFetched s' =
       Service.Session.totalFetched s + len (List.concat fetched)) /\
  (all_posts_after env untilDate ->
     Service.Session.reachedThreshold s' = Service.Session.reachedThreshold s).
Proof.
  induction fuel as [| fuel IH]; intros startTime s tr s' tr' H; [discriminate H |].
  rewrite crawl_step in H.
  destruct (Service.Session.reachedThreshold s) eqn:Hreached.
  { inversion H; subst. split; [| auto].
    exists []. rewrite !app_nil_r. repeat split. unfold len. simpl. lia. }
  destruct (crawl_body startTime s tr) as [[[s1 again] | e |] tr1] eqn:Hbody;
    try discriminate H.
  apply crawl_body_summary in Hbody as (_ & _ & Hsum).
  destruct (Hsum s1 again eq_refl) as ((fetched1 & Hp1 & Ha1 & Ht1) & _ & Hr1).
  destruct again.
  - apply IH in H as ((fetched2 & Hp2 & Ha2 & Ht2) & Hr2). split.
    + exists (fetched1 ++ fetched2).
      rewrite concat_app, filter_app, len_app.
      rewrite Hp2, Hp1, Ha2, Ha1, Ht2, Ht1, <- !app_assoc.
      repeat split. lia.
    + intros Hafter. rewrite Hr2, Hr1 by assumption. exact Hreached.
  - inversion H; subst. split.
    + exists fetched1. auto.
    + intros Hafter. rewrite Hr1 by assumption. exact Hreached.
Qed.

(** The loop ends: [fuel] tests of the condition are enough as soon as
    [40 * fuel] exceeds what is left of the cap, more fuel changes
    nothing, and six requests at most are sent per test. *)
Lemma crawl_enough fuel1 : forall fuel2 startTime s tr,
  (1 <= fuel1)%nat -> 5001 - Service.Session.totalFetched s <= 40 * Z.of_nat fuel1 ->
  (1 <= fuel2)%nat -> 5001 - Service.Session.totalFetched s <= 40 * Z.of_nat fuel2 ->
  crawl fuel1 startTime s tr = crawl fuel2 startTime s tr /\
  fst (crawl fuel1 startTime s tr) <> OutOfFuel /\
  fetches tr <= fetches (snd (crawl fuel1 startTime s tr)) /\
  (Service.Session.totalFetched s <= 5000 ->
   40 * (fetches (snd (crawl fuel1 startTime s tr)) - fetches tr)
   <= 6 * (5040 - Service.Session.totalFetched s)).
Proof.
  induction fuel1 as [| fuel1 IH]; intros fuel2 startTime s tr H1 Hf1 H2 Hf2; [lia |].
  destruct fuel2 as [| fuel2]; [lia |].
  rewrite !crawl_step.
  destruct (Service.Session.reachedThreshold s).
  { cbn [fst snd]. repeat split; try discriminate; lia. }
  destruct (crawl_body startTime s tr) as [[[s1 again] | e |] tr1] eqn:Hbody;
    apply crawl_body_summary in Hbody as (Hout & Hfetch & Hsum).
  - destruct (Hsum s1 again eq_refl) as (_ & Hagain & _).
    destruct again.
    + specialize (Hagain eq_refl).
      destruct (IH fuel2 startTime s1 tr1) as (Heq & Hfuel & Hmono & Hbound); try lia.
      repeat split; try assumption; lia.
    + cbn [fst snd]. repeat split; try discriminate; lia.
  - cbn [fst snd]. repeat split; try discriminate; lia.
  - contradiction.
Qed.

(** A non-empty page that is short, or that takes the total past the
    cap, ends the loop: after the page fetch only the progress callback
    runs. *)
Lemma crawl_stops_on_page fuel startTime s tr front oldest fb tr2 :
  let batch := front ++ [oldest] in
  let s' := processed s batch oldest fb in
  Service.Session.reachedThreshold s = false ->
  page_fetched startTime s tr batch fb tr2 ->
  len batch < 40 \/ Service.Session.totalFetched s + len batch > 5000 ->
  crawl (S fuel) startTime s tr =
  (Returned s',
   (if onProgress
    then [EvProgress (len (Service.Session.allFilteredStatuses s'))]
    else []) ++ tr2).
Proof.
  intros batch s' Hreached Hp Hstop. rewrite crawl_step, Hreached.
  erewrite crawl_body_page by eassumption. fold batch s'.
  assert (Hb : (len batch <? 40) || (Service.Session.totalFetched s' >? 5000) = true).
  { apply orb_true_iff. destruct Hstop as [Hshort | Hcap].
    - left. apply Z.ltb_lt. exact Hshort.
    - right. rewrite Z.gtb_ltb. apply Z.ltb_lt.
      unfold s', Service.processed. cbn [Service.Session.totalFetched]. lia. }
  rewrite Hb. reflexivity.
Qed.

(** An empty page ends the loop; only the fallback flag may change. *)
Lemma crawl_stops_on_empty fuel startTime s tr fb tr2 :
  Service.Session.reachedThreshold s = false ->
  page_fetched startTime s tr [] fb tr2 ->
  crawl (S fuel) startTime s tr =
  (Returned {| Service.Session.allFilteredStatuses := Service.Session.allFilteredStatuses s;
               Service.Session.maxId := Service.Session.maxId s;
               Service.Session.reachedThreshold := Service.Session.reachedThreshold s;
               Service.Session.totalFetched := Service.Session.totalFetched s;
               Service.Session.wasFellBack :=
                 if fb then true else Service.Session.wasFellBack s |},
   tr2).
Proof.
  intros Hreached Hp. rewrite crawl_step.
  erewrite crawl_body_empty by eassumption. rewrite Hreached. reflexivity.
Qed.

End Crawler.

(** ** The second copy *)

Section CrawlerAlt.

Variable env : Env.
Variable this : MastodonService.

Lemma fetchApi_alt_step endpoint params useAuth tr :
  let req := request this endpoint params useAuth in
  ServiceAlt.fetchApi env this endpoint params useAuth tr =
  match respond env tr req with
  | Responded r => settle r (EvFetch req (Responded r) :: tr)
  | NetworkFailure reason =>
      (Thrown (NetworkError reason), EvFetch req (NetworkFailure reason) :: tr)
  end.
Proof.
  intros req. unfold ServiceAlt.fetchApi, bind, fetch. fold req.
  destruct (respond env tr req); reflexivity.
Qed.

Lemma fetchApi_alt_trace endpoint params useAuth tr out tr' :
  ServiceAlt.fetchApi env this endpoint params useAuth tr = (out, tr') ->
  out <> OutOfFuel /\
  fetches tr' = fetches tr + 1 /\
  pages tr' = pages tr ++ match out with
                          | Returned (BodyStatuses l) => [l]
                          | _ => []
                          end.
Proof.
  rewrite fetchApi_alt_step. cbv zeta.
  destruct (respond env tr _) as [r | reason] eqn:Hres.
  - match goal with |- settle r ?t = _ -> _ =>
      destruct (settle_spec r t) as [(b & Hs & Hok & Hb & Hnb) | (e & Hs & He)]
    end; rewrite Hs; intros H; inversion H; subst; simpl.
    + rewrite Hok. repeat split; discriminate.
    + repeat split; try discriminate.
      destruct He as [[Hok _] | (Hok & Hb & _)]; rewrite Hok.
      * reflexivity.
      * now rewrite Hb.
  - intros H; inversion H; subst; simpl. repeat split; discriminate.
Qed.

Lemma getStatusesPage_alt_trace accountId maxId limit tr out tr' :
  ServiceAlt.getStatusesPage env this accountId maxId limit tr = (out, tr') ->
  out <> OutOfFuel /\
  fetches tr < fetches tr' <= fetches tr + 2 /\
  pages tr' = pages tr ++ match out with
                          | Returned page =>
                              match Page.statuses page with
                              | BodyStatuses l => [l]
                              | _ => []
                              end
                          | _ => []
                          end.
Proof.
  unfold ServiceAlt.getStatusesPage, try_catch, bind, ret, throw. cbv zeta.
  destruct (ServiceAlt.fetchApi env this _ _ true tr) as [[st | e |] tr1] eqn:E1;
    apply fetchApi_alt_trace in E1; destruct E1 as (Ho1 & Hf1 & Hp1).
  - intros H; inversion H; subst. simpl.
    repeat split; try discriminate; try lia. exact Hp1.
  - destruct (status_is e 403 || status_is e 401).
    + destruct (ServiceAlt.fetchApi env this _ _ false tr1) as [[st | e' |] tr2] eqn:E2;
        apply fetchApi_alt_trace in E2; destruct E2 as (Ho2 & Hf2 & Hp2);
        intros H; inversion H; subst; simpl;
        rewrite Hp1, app_nil_r in Hp2.
      * repeat split; try discriminate; try lia. exact Hp2.
      * repeat split; try discriminate; try lia. exact Hp2.
      * contradiction.
    + intros H; inversion H; subst. simpl.
      repeat split; try discriminate; try lia. exact Hp1.
  - contradiction.
Qed.

Variable accountId : string.
Variable untilDate : Js.number.
Variable onProgress : bool.

Local Abbreviation crawl_body := (ServiceAlt.crawl_body env this accountId untilDate onProgress).
Local Abbreviation crawl := (ServiceAlt.crawl env this accountId untilDate onProgress).
Local Abbreviation page_fetched := (ServiceAlt.page_fetched env this accountId).
Local Abbreviation processed := (ServiceAlt.processed env untilDate).

Lemma page_fetched_alt_trace s tr batch fb tr2 :
  page_fetched s tr batch fb tr2 ->
  fetches tr < fetches tr2 <= fetches tr + 2 /\ pages tr2 = pages tr ++ [batch].
Proof.
  intros Hp. apply getStatusesPage_alt_trace in Hp as (_ & Hf & Hpg).
  split; [lia | exact Hpg].
Qed.

(** The body on an empty page. *)
Lemma crawl_body_alt_empty s tr fb tr2 :
  page_fetched s tr [] fb tr2 ->
  crawl_body s tr =
  (Returned ({| ServiceAlt.Session.allFilteredStatuses := ServiceAlt.Session.allFilteredStatuses s;
                ServiceAlt.Session.maxId := ServiceAlt.Session.maxId s;
                ServiceAlt.Session.reachedThreshold := ServiceAlt.Session.reachedThreshold s;
                ServiceAlt.Session.hasMore := false;
                ServiceAlt.Session.totalFetched := ServiceAlt.Session.totalFetched s;
                ServiceAlt.Session.wasFellBack :=
                  if fb then true else ServiceAlt.Session.wasFellBack s |}, false),
   tr2).
Proof.
  intros Hp. unfold ServiceAlt.crawl_body, bind. rewrite Hp. reflexivity.
Qed.

(** The body on a non-empty page: it leaves by [break] only when the
    cap is passed. *)
Lemma crawl_body_alt_page s tr front oldest fb tr2 :
  let batch := front ++ [oldest] in
  let s' := processed s batch oldest fb in
  page_fetched s tr batch fb tr2 ->
  crawl_body s tr =
  (Returned (s', negb (ServiceAlt.Session.totalFetched s' >? 10000)),
   (if onProgress
    then [EvProgress (len (ServiceAlt.Session.allFilteredStatuses s'))]
    else []) ++ tr2).
Proof.
  intros batch s' Hp. unfold ServiceAlt.crawl_body, bind. rewrite Hp.
  cbn [Page.statuses Page.fellBack as_array].
  assert (Hlen : (len batch =? 0) = false).
  { apply Z.eqb_neq. unfold batch. rewrite len_app. unfold len. simpl. lia. }
  rewrite Hlen. fold batch. unfold batch at 1 2. rewrite nth_error_last. fold batch.
  fold s'.
  destruct onProgress; unfold progress, ret;
    cbn [ServiceAlt.Session.totalFetched s' ServiceAlt.processed];
    destruct (ServiceAlt.Session.totalFetched s + len batch >? 10000); reflexivity.
Qed.

(** The ways a run of the body can go. *)
Lemma crawl_body_alt_cases s tr out tr' :
  crawl_body s tr = (out, tr') ->
  (exists e, out = Thrown e) \/
  (exists fb, page_fetched s tr [] fb tr') \/
  (exists front oldest fb tr2, page_fetched s tr (front ++ [oldest]) fb tr2).
Proof.
  unfold ServiceAlt.crawl_body, bind.
  destruct (ServiceAlt.getStatusesPage env this accountId (ServiceAlt.Session.maxId s) 40 tr)
    as [[page | e |] tr2] eqn:Hp.
  - destruct page as [st fb]. cbn [Page.statuses Page.fellBack].
    destruct st as [| err | batch | a |]; cbn [as_array];
      try (intros H; inversion H; subst; left; eexists; reflexivity).
    destruct batch as [| p batch'] eqn:Hbatch.
    + intros H; inversion H; subst. right. left. exists fb. exact Hp.
    + intros _. right. right.
      destruct (@nonempty_last _ (p :: batch') ltac:(discriminate)) as (front & oldest & Heq).
      exists front, oldest, fb, tr2. rewrite <- Heq. exact Hp.
  - intros H; inversion H; subst. left. eexists. reflexivity.
  - apply getStatusesPage_alt_trace in Hp. tauto.
Qed.

Lemma crawl_alt_step fuel s tr :
  crawl (S fuel) s tr =
  if ServiceAlt.Session.hasMore s && negb (ServiceAlt.Session.reachedThreshold s) then
    match crawl_body s tr with
    | (Returned (s', true), tr') => crawl fuel s' tr'
    | (Returned (s', false), tr') => (Returned s', tr')
    | (Thrown e, tr') => (Thrown e, tr')
    | (OutOfFuel, tr') => (OutOfFuel, tr')
    end
  else (Returned s, tr).
Proof.
  cbn [ServiceAlt.crawl].
  destruct (ServiceAlt.Session.hasMore s && negb (ServiceAlt.Session.reachedThreshold s));
    [| reflexivity].
  unfold bind.
  destruct (crawl_body s tr) as [[[s' [|]] | e |] tr']; reflexivity.
Qed.

(** The loop as a whole: the result holds the non-reblogs of the pages
    fetched, in the order of the fetches, and the counter holds the
    size of all of them. *)
Lemma crawl_alt_summary fuel : forall s tr s' tr',
  crawl fuel s tr = (Returned s', tr') ->
  exists fetched,
    pages tr' = pages tr ++ fetched /\
    ServiceAlt.Session.allFilteredStatuses s' =
      ServiceAlt.Session.allFilteredStatuses s ++ filter not_reblog (List.concat fetched) /\
    ServiceAlt.Session.totalFetched s' =
      ServiceAlt.Session.totalFetched s + len (List.concat fetched).
Proof.
  induction fuel as [| fuel IH]; intros s tr s' tr' H; [discriminate H |].
  rewrite crawl_alt_step in H.
  destruct (ServiceAlt.Session.hasMore s && negb (ServiceAlt.Session.reachedThreshold s)).
  2:{ inversion H; subst. exists []. rewrite !app_nil_r.
      repeat split. unfold len. simpl. lia. }
  destruct (crawl_body s tr) as [[[s1 again] | e |] tr1] eqn:Hbody; try discriminate H.
  assert (Hone : exists fetched,
             pages tr1 = pages tr ++ fetched /\
             ServiceAlt.Session.allFilteredStatuses s1 =
               ServiceAlt.Session.allFilteredStatuses s ++ filter not_reblog (List.concat fetched) /\
             ServiceAlt.Session.totalFetched s1 =
               ServiceAlt.Session.totalFetched s + len (List.concat fetched)).
  { pose proof Hbody as Hc. apply crawl_body_alt_cases in Hc.
    destruct Hc as [(e & He) | [(fb & Hp) | (front & oldest & fb & tr2 & Hp)]].
    - discriminate He.
    - erewrite crawl_body_alt_empty in Hbody by eassumption. inversion Hbody; subst.
      apply page_fetched_alt_trace in Hp as [_ Hpg].
      exists [[]]. cbn [List.concat filter app ServiceAlt.Session.allFilteredStatuses
                        ServiceAlt.Session.totalFetched].
      rewrite app_nil_r. repeat split; [exact Hpg | unfold len; simpl; lia].
    - erewrite crawl_body_alt_page in Hbody by eassumption. inversion Hbody; subst.
      apply page_fetched_alt_trace in Hp as [_ Hpg].
      exists [front ++ [oldest]]. cbn [List.concat]. rewrite app_nil_r.
      repeat split.
      destruct onProgress; cbn [app pages page_of]; rewrite ?app_nil_r; exact Hpg. }
  destruct Hone as (fetched1 & Hp1 & Ha1 & Ht1).
  destruct again.
  - apply IH in H as (fetched2 & Hp2 & Ha2 & Ht2).
    exists (fetched1 ++ fetched2).
    rewrite concat_app, filter_app, len_app.
    rewrite Hp2, Hp1, Ha2, Ha1, Ht2, Ht1, <- !app_assoc.
    repeat split. lia.
  - inversion H; subst. exists fetched1. auto.
Qed.

(** A non-empty page that is short, or that takes the total past the
    cap, ends the loop: after the page fetch only the progress callback
    runs. *)
Lemma crawl_alt_stops_on_page fuel s tr front oldest fb tr2 :
  let batch := front ++ [oldest] in
  let s' := processed s batch oldest fb in
  ServiceAlt.Session.hasMore s = true ->
  ServiceAlt.Session.reachedThreshold s = false ->
  page_fetched s tr batch fb tr2 ->
  len batch < 40 \/ ServiceAlt.Session.totalFetched s + len batch > 10000 ->
  crawl (S (S fuel)) s tr =
  (Returned s',
   (if onProgress
    then [EvProgress (len (ServiceAlt.Session.allFilteredStatuses s'))]
    else []) ++ tr2).
Proof.
  intros batch s' Hmore Hreached Hp Hstop. rewrite crawl_alt_step, Hmore, Hreached.
  cbn [andb negb].
  erewrite crawl_body_alt_page by eassumption. fold batch s'.
  destruct (ServiceAlt.Session.totalFetched s' >? 10000) eqn:Hcap; cbn [negb];
    [reflexivity |].
  rewrite crawl_alt_step.
  assert (Hshort : len batch < 40).
  { destruct Hstop as [Hshort | Hover]; [exact Hshort |].
    rewrite Z.gtb_ltb in Hcap. apply Z.ltb_ge in Hcap.
    unfold s', ServiceAlt.processed in Hcap.
    cbn [ServiceAlt.Session.totalFetched] in Hcap. lia. }
  apply Z.ltb_lt in Hshort.
  unfold s' at 1, ServiceAlt.processed. cbn [ServiceAlt.Session.hasMore].
  rewrite Hshort. reflexivity.
Qed.

End CrawlerAlt.

(** ** The crawl session *)

(** The first iteration of a session: the clock is read twice, then the
    first page is fetched. *)
Lemma getStatusesUntil_session_start env this accountId untilDate onProgress fuel startId tr :
  Service.getStatusesUntil_session env this accountId untilDate onProgress fuel startId tr =
  Service.crawl env this accountId untilDate onProgress fuel (clock env tr)
    (Service.initial startId) (EvNow (clock env tr) :: tr).
Proof. reflexivity. Qed.

Lemma getStatusesUntil_run env this accountId untilDate onProgress fuel startId tr :
  Service.getStatusesUntil env this accountId untilDate onProgress fuel startId tr =
  match Service.getStatusesUntil_session env this accountId untilDate onProgress fuel startId tr with
  | (Returned s, tr') =>
      (Returned {| Result.statuses := Service.Session.allFilteredStatuses s;
                   Result.lastId := Service.Session.maxId s;
                   Result.reachedThreshold := Service.Session.reachedThreshold s;
                   Result.fellBack := Service.Session.wasFellBack s |}, tr')
  | (Thrown e, tr') => (Thrown e, tr')
  | (OutOfFuel, tr') => (OutOfFuel, tr')
  end.
Proof.
  unfold Service.getStatusesUntil, bind, ret.
  destruct (Service.getStatusesUntil_session _ _ _ _ _ _ _ _) as [[s | e |] tr']; reflexivity.
Qed.

(** A session whose first page is empty returns at once, with nothing
    but the fallback flag of that fetch. *)
Lemma getStatusesUntil_empty_first_page_run
    env this accountId untilDate onProgress fuel startId tr fb tr2 :
  Service.page_fetched env this accountId (clock env tr) (Service.initial startId)
    (EvNow (clock env tr) :: tr) [] fb tr2 ->
  Service.getStatusesUntil env this accountId untilDate onProgress (S fuel) startId tr =
  (Returned {| Result.statuses := []; Result.lastId := startId;
               Result.reachedThreshold := false; Result.fellBack := fb |}, tr2).
Proof.
  intros Hp. rewrite getStatusesUntil_run, getStatusesUntil_session_start.
  erewrite crawl_stops_on_empty; [| reflexivity | eassumption].
  cbn. destruct fb; reflexivity.
Qed.

(** A page comes with [fellBack] set exactly when the authorized
    request failed with status 401 or 403. *)
Lemma getStatusesPage_fellBack env this accountId maxId limit tr page tr' :
  Service.getStatusesPage env this accountId maxId limit tr = (Returned page, tr') ->
  Page.fellBack page = true <->
  exists e tr1,
    Service.fetchApi env this ("accounts/" ++ accountId ++ "/statuses")%string
      (page_params maxId limit) true 0 tr = (Thrown e, tr1) /\
    (error_status e = Some 401 \/ error_status e = Some 403).
Proof.
  rewrite getStatusesPage_run. cbv zeta.
  destruct (Service.fetchApi env this _ _ true 0 tr) as [[st | e |] tr1] eqn:E1.
  - intros H; inversion H; subst. simpl. split; [discriminate |].
    intros (e & tr1' & He & _). discriminate He.
  - destruct (status_is e 403 || status_is e 401) eqn:Hst; [| discriminate].
    destruct (Service.fetchApi env this _ _ false 0 tr1) as [[st | e' |] tr2];
      try discriminate.
    intros H; inversion H; subst. simpl. split; [| reflexivity].
    intros _. exists e, tr1. split; [reflexivity |].
    apply orb_true_iff in Hst as [H3 | H1]; apply status_is_iff in H3 || apply status_is_iff in H1;
      auto.
  - discriminate.
Qed.

(** C2, as amended. The first page fetch of a session delivers an empty
    page: the session returns no post and [reachedThreshold = false];
    its [fellBack] is the flag of that page fetch, which is set exactly
    when the authorized request failed with 401 or 403 and the page
    came from the request without authentication. *)
Theorem getStatusesUntil_empty_first_page :
  forall env this accountId untilDate onProgress fuel startId tr fb tr2,
  let tr0 := EvNow (clock env tr) :: tr in
  Service.page_fetched env this accountId (clock env tr) (Service.initial startId)
    tr0 [] fb tr2 ->
  (exists r,
     Service.getStatusesUntil env this accountId untilDate onProgress (S fuel) startId tr =
     (Returned r, tr2) /\
     Result.statuses r = [] /\
     Result.reachedThreshold r = false /\
     Result.fellBack r = fb) /\
  (fb = true <->
   exists e tr1,
     Service.fetchApi env this ("accounts/" ++ accountId ++ "/statuses")%string
       (page_params startId 40) true 0 (EvNow (clock env tr0) :: tr0) = (Thrown e, tr1) /\
     (error_status e = Some 401 \/ error_status e = Some 403)).
Proof.
  intros env this accountId untilDate onProgress fuel startId tr fb tr2 tr0 Hp. split.
  - eexists. split.
    + apply getStatusesUntil_empty_first_page_run. exact Hp.
    + repeat split.
  - destruct Hp as [_ Hp]. apply getStatusesPage_fellBack in Hp. exact Hp.
Qed.

Lemma getStatusesUntil_empty_first_page_witness :
  exists r,
    Service.getStatusesUntil Sample.guarded_empty Sample.member "42"
      (Js.Date_parse_iso "2023-01-01") false 1 (Some "77") [] =
    (Returned r,
     [EvFetch (request Sample.member "accounts/42/statuses"
                 [("limit", "40"); ("max_id", "77")] false)
        (Sample.success []);
      EvFetch (request Sample.member "accounts/42/statuses"
                 [("limit", "40"); ("max_id", "77")] true)
        (Sample.failure 403 None);
      EvNow 0; EvNow 0]) /\
    Result.statuses r = [] /\
    Result.reachedThreshold r = false /\
    Result.fellBack r = true.
Proof.
  apply (getStatusesUntil_empty_first_page Sample.guarded_empty Sample.member "42"
           (Js.Date_parse_iso "2023-01-01") false 0 (Some "77") [] true).
  split.
  - vm_compute. discriminate.
  - reflexivity.
Defined.

(** The claim of C2 fails when the empty first page comes from the
    fallback: the server refuses the authorized request with 403 and
    serves an empty page to the public one; [fellBack] is true. *)
Lemma empty_first_page_reports_fallback :
  Service.page_fetched Sample.guarded_empty Sample.member "42" 0 (Service.initial None)
    [EvNow 0] [] true
    [EvFetch (request Sample.member "accounts/42/statuses" [("limit", "40")] false)
       (Sample.success []);
     EvFetch (request Sample.member "accounts/42/statuses" [("limit", "40")] true)
       (Sample.failure 403 None);
     EvNow 0; EvNow 0] /\
  fst (Service.getStatusesUntil Sample.guarded_empty Sample.member "42"
         (Js.Date_parse_iso "2023-01-01") false 1 None []) =
  Returned {| Result.statuses := []; Result.lastId := None;
              Result.reachedThreshold := false; Result.fellBack := true |}.
Proof.
  split; [split |].
  - vm_compute. discriminate.
  - reflexivity.
  - reflexivity.
Qed.

(** C10. The first page fetch of a session delivers an empty page: the
    returned [lastId] is the [startId] that was passed in ([None] when
    there was none). *)
Theorem getStatusesUntil_empty_first_page_keeps_cursor :
  forall env this accountId untilDate onProgress fuel startId tr fb tr2,
  Service.page_fetched env this accountId (clock env tr) (Service.initial startId)
    (EvNow (clock env tr) :: tr) [] fb tr2 ->
  exists r,
    Service.getStatusesUntil env this accountId untilDate onProgress (S fuel) startId tr =
    (Returned r, tr2) /\
    Result.lastId r = startId.
Proof.
  intros env this accountId untilDate onProgress fuel startId tr fb tr2 Hp.
  eexists. split.
  - apply getStatusesUntil_empty_first_page_run. exact Hp.
  - reflexivity.
Qed.

Lemma getStatusesUntil_empty_first_page_keeps_cursor_witness :
  (exists r,
     Service.getStatusesUntil Sample.guarded_empty Sample.member "42"
       (Js.Date_parse_iso "2023-01-01") true 1 (Some "77")  [] =
     (Returned r,
      [EvFetch (request Sample.member "accounts/42/statuses"
                  [("limit", "40"); ("max_id", "77")] false)
         (Sample.success []);
       EvFetch (request Sample.member "accounts/42/statuses"
                  [("limit", "40"); ("max_id", "77")] true)
         (Sample.failure 403 None);
       EvNow 0; EvNow 0]) /\
     Result.lastId r = Some "77") /\
  (exists r,
     Service.getStatusesUntil Sample.guarded_empty Sample.anonymous "42"
       (Js.Date_parse_iso "2023-01-01") true 1 None [] =
     (Returned r,
      [EvFetch (request Sample.anonymous "accounts/42/statuses" [("limit", "40")] true)
         (Sample.success []);
       EvNow 0; EvNow 0]) /\
     Result.lastId r = None).
Proof.
  split.
  - apply (getStatusesUntil_empty_first_page_keeps_cursor Sample.guarded_empty Sample.member
             "42" (Js.Date_parse_iso "2023-01-01") true 0 (Some "77") [] true).
    split.
    + vm_compute. discriminate.
    + reflexivity.
  - apply (getStatusesUntil_empty_first_page_keeps_cursor Sample.guarded_empty Sample.anonymous
             "42" (Js.Date_parse_iso "2023-01-01") true 0 None [] false).
    split.
    + vm_compute. discriminate.
    + reflexivity.
Defined.

(** C1, as amended. A page is processed that takes the total past the
    cap (5000 in the first copy, 10000 in the second): the loop ends
    there, with no event after the page fetch but the progress
    callback, and the returned [reachedThreshold] tells whether the
    oldest post of that very page is dated before [untilDate]. *)
Theorem crawl_cap_exceeded :
  forall env this accountId untilDate onProgress,
  (forall fuel startTime s tr front oldest fb tr2,
     Service.Session.reachedThreshold s = false ->
     Service.page_fetched env this accountId startTime s tr (front ++ [oldest]) fb tr2 ->
     Service.Session.totalFetched s + len (front ++ [oldest]) > 5000 ->
     exists s',
       Service.crawl env this accountId untilDate onProgress (S fuel) startTime s tr =
       (Returned s',
        (if onProgress
         then [EvProgress (len (Service.Session.allFilteredStatuses s'))]
         else []) ++ tr2) /\
       Service.Session.totalFetched s' =
         Service.Session.totalFetched s + len (front ++ [oldest]) /\
       Service.Session.reachedThreshold s' =
         Js.num_lt (new_Date env (created_at oldest)) untilDate) /\
  (forall fuel s tr front oldest fb tr2,
     ServiceAlt.Session.hasMore s = true ->
     ServiceAlt.Session.reachedThreshold s = false ->
     ServiceAlt.page_fetched env this accountId s tr (front ++ [oldest]) fb tr2 ->
     ServiceAlt.Session.totalFetched s + len (front ++ [oldest]) > 10000 ->
     exists s',
       ServiceAlt.crawl env this accountId untilDate onProgress (S (S fuel)) s tr =
       (Returned s',
        (if onProgress
         then [EvProgress (len (ServiceAlt.Session.allFilteredStatuses s'))]
         else []) ++ tr2) /\
       ServiceAlt.Session.totalFetched s' =
         ServiceAlt.Session.totalFetched s + len (front ++ [oldest]) /\
       ServiceAlt.Session.reachedThreshold s' =
         Js.num_lt (new_Date env (created_at oldest)) untilDate).
Proof.
  intros env this accountId untilDate onProgress. split.
  - intros fuel startTime s tr front oldest fb tr2 Hreached Hp Hcap.
    eexists. split; [| split].
    + apply crawl_stops_on_page; [exact Hreached | exact Hp | right; exact Hcap].
    + reflexivity.
    + cbn [Service.processed Service.Session.reachedThreshold]. rewrite Hreached.
      destruct (Js.num_lt _ _); reflexivity.
  - intros fuel s tr front oldest fb tr2 Hmore Hreached Hp Hcap.
    eexists. split; [| split].
    + apply crawl_alt_stops_on_page;
        [exact Hmore | exact Hreached | exact Hp | right; exact Hcap].
    + reflexivity.
    + cbn [ServiceAlt.processed ServiceAlt.Session.reachedThreshold]. rewrite Hreached.
      destruct (Js.num_lt _ _); reflexivity.
Qed.

(** The claim of C1 fails on an account with full pages where the 126th
    page, the one that takes the total from 5000 to 5040, ends with a
    post of December 2022 and [untilDate] is 2023-01-01: the loop ends
    after 126 requests, past the cap, and [reachedThreshold] is true. *)
Lemma cap_exceeded_with_threshold_reached :
  match Service.getStatusesUntil_session Sample.prolific Sample.member "42"
          (Js.Date_parse_iso "2023-01-01") false 126 None [] with
  | (Returned s, tr) =>
      (fetches tr =? 126) && (Service.Session.totalFetched s =? 5040)
      && (Service.Session.totalFetched s >? 5000)
      && Service.Session.reachedThreshold s
  | _ => false
  end = true /\
  match Service.getStatusesUntil Sample.prolific Sample.member "42"
          (Js.Date_parse_iso "2023-01-01") false 126 None [] with
  | (Returned r, _) => Result.reachedThreshold r
  | _ => false
  end = true.
Proof.
  split; vm_compute; reflexivity.
Qed.

(** C8. A page shorter than 40 posts ends the loop as soon as it is
    processed: after the page fetch nothing happens but the progress
    callback, whatever the dates in the page. This holds from any state
    of the loop, so also after any number of full pages. *)
Theorem crawl_stops_after_short_page :
  forall env this accountId untilDate onProgress,
  (forall fuel startTime s tr batch fb tr2,
     Service.Session.reachedThreshold s = false ->
     Service.page_fetched env this accountId startTime s tr batch fb tr2 ->
     len batch < 40 ->
     exists s' tr',
       Service.crawl env this accountId untilDate onProgress (S fuel) startTime s tr =
       (Returned s', tr') /\
       (tr' = tr2 \/ exists n, tr' = EvProgress n :: tr2)) /\
  (forall fuel s tr batch fb tr2,
     ServiceAlt.Session.hasMore s = true ->
     ServiceAlt.Session.reachedThreshold s = false ->
     ServiceAlt.page_fetched env this accountId s tr batch fb tr2 ->
     len batch < 40 ->
     exists s' tr',
       ServiceAlt.crawl env this accountId untilDate onProgress (S (S fuel)) s tr =
       (Returned s', tr') /\
       (tr' = tr2 \/ exists n, tr' = EvProgress n :: tr2)).
Proof.
  intros env this accountId untilDate onProgress. split.
  - intros fuel startTime s tr batch fb tr2 Hreached Hp Hshort.
    destruct batch as [| p batch'] eqn:Hbatch.
    + eexists. eexists. split.
      * apply crawl_stops_on_empty; [exact Hreached | exact Hp].
      * left. reflexivity.
    + destruct (@nonempty_last _ (p :: batch') ltac:(discriminate)) as (front & oldest & Heq).
      rewrite Heq in *.
      eexists. eexists. split.
      * apply crawl_stops_on_page; [exact Hreached | exact Hp | left; exact Hshort].
      * destruct onProgress; [right; eexists; reflexivity | left; reflexivity].
  - intros fuel s tr batch fb tr2 Hmore Hreached Hp Hshort.
    destruct batch as [| p batch'] eqn:Hbatch.
    + eexists. eexists. split.
      * rewrite crawl_alt_step, Hmore, Hreached. cbn [andb negb].
        erewrite crawl_body_alt_empty by eassumption. reflexivity.
      * left. reflexivity.
    + destruct (@nonempty_last _ (p :: batch') ltac:(discriminate)) as (front & oldest & Heq).
      rewrite Heq in *.
      eexists. eexists. split.
      * apply crawl_alt_stops_on_page;
          [exact Hmore | exact Hreached | exact Hp | left; exact Hshort].
      * destruct onProgress; [right; eexists; reflexivity | left; reflexivity].
Qed.

Lemma crawl_cap_exceeded_witness :
  let old := Sample.post "7" "2022-12-15T00:00:00.000Z" false in
  let threshold := Js.Date_parse_iso "2023-01-01" in
  let req := request Sample.member "accounts/42/statuses" [("limit", "40"); ("max_id", "7")] true in
  (exists s',
     Service.crawl Sample.archive Sample.member "42" threshold false 1 0 Sample.near_cap [] =
     (Returned s', [EvFetch req (Sample.success (repeat old 40)); EvNow 0]) /\
     Service.Session.totalFetched s' = 5030 /\
     Service.Session.reachedThreshold s' = true) /\
  (exists s',
     ServiceAlt.crawl Sample.archive Sample.member "42" threshold false 2 Sample.near_cap_alt [] =
     (Returned s', [EvFetch req (Sample.success (repeat old 40))]) /\
     ServiceAlt.Session.totalFetched s' = 10030 /\
     ServiceAlt.Session.reachedThreshold s' = true).
Proof.
  intros old threshold req. split.
  - apply (proj1 (crawl_cap_exceeded Sample.archive Sample.member "42" threshold false)
             0%nat 0 Sample.near_cap [] (repeat old 39) old false
             [EvFetch req (Sample.success (repeat old 40)); EvNow 0]).
    + reflexivity.
    + split; [vm_compute; discriminate | reflexivity].
    + vm_compute. reflexivity.
  - apply (proj2 (crawl_cap_exceeded Sample.archive Sample.member "42" threshold false)
             0%nat Sample.near_cap_alt [] (repeat old 39) old false
             [EvFetch req (Sample.success (repeat old 40))]).
    + reflexivity.
    + reflexivity.
    + reflexivity.
    + vm_compute. reflexivity.
Defined.

Lemma crawl_stops_after_short_page_witness :
  let only := Sample.post "9" "2023-03-01T00:00:00.000Z" false in
  let threshold := Js.Date_parse_iso "2023-01-01" in
  let req := request Sample.member "accounts/42/statuses" [("limit", "40")] true in
  (exists s' tr',
     Service.crawl Sample.newcomer Sample.member "42" threshold true 1 0 (Service.initial None) [] =
     (Returned s', tr') /\
     (tr' = [EvFetch req (Sample.success [only]); EvNow 0] \/
      exists n, tr' = EvProgress n :: [EvFetch req (Sample.success [only]); EvNow 0])) /\
  (exists s' tr',
     ServiceAlt.crawl Sample.newcomer Sample.member "42" threshold true 2 (ServiceAlt.initial None) [] =
     (Returned s', tr') /\
     (tr' = [EvFetch req (Sample.success [only])] \/
      exists n, tr' = EvProgress n :: [EvFetch req (Sample.success [only])])).
Proof.
  intros only threshold req. split.
  - apply (proj1 (crawl_stops_after_short_page Sample.newcomer Sample.member "42" threshold true)
             0%nat 0 (Service.initial None) [] [only] false).
    + reflexivity.
    + split; [vm_compute; discriminate | reflexivity].
    + vm_compute. reflexivity.
  - apply (proj2 (crawl_stops_after_short_page Sample.newcomer Sample.member "42" threshold true)
             0%nat (ServiceAlt.initial None) [] [only] false).
    + reflexivity.
    + reflexivity.
    + reflexivity.
    + vm_compute. reflexivity.
Defined.

(** Two full pages, then a page of two posts: three requests are sent
    and no more, though [untilDate] was not reached. The script of the
    server ends there, so a fourth request would have made the call
    throw. *)
Example three_pages_three_requests :
  match Service.getStatusesUntil Sample.three_pages Sample.member "42"
          (Js.Date_parse_iso "2023-01-01") false 126 None [] with
  | (Returned r, tr) =>
      (fetches tr =? 3) && negb (Result.reachedThreshold r)
      && (len (Result.statuses r) =? 41)
  | _ => false
  end = true.
Proof. vm_compute. reflexivity. Qed.

Lemma getStatusesUntil_alt_run env this accountId untilDate onProgress fuel startId tr :
  ServiceAlt.getStatusesUntil env this accountId untilDate onProgress fuel startId tr =
  match ServiceAlt.getStatusesUntil_session env this accountId untilDate onProgress fuel startId tr with
  | (Returned s, tr') =>
      (Returned {| Result.statuses := ServiceAlt.Session.allFilteredStatuses s;
                   Result.lastId := ServiceAlt.Session.maxId s;
                   Result.reachedThreshold := ServiceAlt.Session.reachedThreshold s;
                   Result.fellBack := ServiceAlt.Session.wasFellBack s |}, tr')
  | (Thrown e, tr') => (Thrown e, tr')
  | (OutOfFuel, tr') => (OutOfFuel, tr')
  end.
Proof.
  unfold ServiceAlt.getStatusesUntil, bind, ret.
  destruct (ServiceAlt.getStatusesUntil_session _ _ _ _ _ _ _ _) as [[s | e |] tr']; reflexivity.
Qed.

Lemma filter_not_reblog (l : list MastodonStatus) :
  Forall (fun p => reblog p = None) (filter not_reblog l) /\
  forall p, In p (filter not_reblog l) <-> In p l /\ reblog p = None.
Proof.
  assert (Hnot : forall p, not_reblog p = true <-> reblog p = None).
  { intros p. unfold not_reblog. destruct (reblog p); split; congruence. }
  split.
  - apply Forall_forall. intros p Hin. apply filter_In in Hin as [_ Hp]. now apply Hnot.
  - intros p. rewrite filter_In, Hnot. reflexivity.
Qed.

(** C6. A session that returns: with [fetched] the pages the server
    delivered during the session, in the order of their delivery, the
    posts returned are the non-reblogs of those pages in that same
    order; the total-fetched counter is the number of all posts of
    those pages, reblogs included; and no reblog is among the posts
    returned. Both copies. *)
Theorem getStatusesUntil_filters_reblogs :
  forall env this accountId untilDate onProgress fuel startId tr r tr',
  (Service.getStatusesUntil env this accountId untilDate onProgress fuel startId tr =
   (Returned r, tr') ->
   exists s fetched,
     Service.getStatusesUntil_session env this accountId untilDate onProgress fuel startId tr =
     (Returned s, tr') /\
     pages tr' = pages tr ++ fetched /\
     Result.statuses r = filter not_reblog (List.concat fetched) /\
     Service.Session.totalFetched s = len (List.concat fetched) /\
     Forall (fun p => reblog p = None) (Result.statuses r) /\
     (forall p, In p (Result.statuses r) <-> In p (List.concat fetched) /\ reblog p = None)) /\
  (ServiceAlt.getStatusesUntil env this accountId untilDate onProgress fuel startId tr =
   (Returned r, tr') ->
   exists s fetched,
     ServiceAlt.getStatusesUntil_session env this accountId untilDate onProgress fuel startId tr =
     (Returned s, tr') /\
     pages tr' = pages tr ++ fetched /\
     Result.statuses r = filter not_reblog (List.concat fetched) /\
     ServiceAlt.Session.totalFetched s = len (List.concat fetched) /\
     Forall (fun p => reblog p = None) (Result.statuses r) /\
     (forall p, In p (Result.statuses r) <-> In p (List.concat fetched) /\ reblog p = None)).
Proof.
  intros env this accountId untilDate onProgress fuel startId tr r tr'. split.
  - rewrite getStatusesUntil_run.
    destruct (Service.getStatusesUntil_session _ _ _ _ _ _ _ _) as [[s | e |] tr1] eqn:Hs;
      try discriminate.
    intros H; inversion H; subst. clear H.
    rewrite getStatusesUntil_session_start in Hs.
    apply crawl_summary in Hs as ((fetched & Hp & Ha & Ht) & _).
    cbn [Service.initial Service.Session.allFilteredStatuses Service.Session.totalFetched
         pages page_of app] in Hp, Ha, Ht.
    rewrite app_nil_r in Hp.
    exists s, fetched. cbn [Result.statuses]. rewrite Ha.
    split; [reflexivity |]. split; [assumption |]. split; [reflexivity |].
    split; [lia |]. apply filter_not_reblog.
  - rewrite getStatusesUntil_alt_run.
    destruct (ServiceAlt.getStatusesUntil_session _ _ _ _ _ _ _ _) as [[s | e |] tr1] eqn:Hs;
      try discriminate.
    intros H; inversion H; subst. clear H.
    unfold ServiceAlt.getStatusesUntil_session in Hs.
    apply crawl_alt_summary in Hs as (fetched & Hp & Ha & Ht).
    cbn [ServiceAlt.initial ServiceAlt.Session.allFilteredStatuses
         ServiceAlt.Session.totalFetched app] in Ha, Ht.
    exists s, fetched. cbn [Result.statuses]. rewrite Ha.
    split; [reflexivity |]. split; [assumption |]. split; [reflexivity |].
    split; [lia |]. apply filter_not_reblog.
Qed.

Lemma getStatusesUntil_filters_reblogs_witness :
  let threshold := Js.Date_parse_iso "2023-01-01" in
  let kept := repeat (Sample.post "30" "2023-06-01T00:00:00.000Z" false) 40
              ++ [Sample.post "10" "2023-04-01T00:00:00.000Z" false] in
  let run := Service.getStatusesUntil_session Sample.three_pages Sample.member "42" threshold
               false 126 None [] in
  let run_alt := ServiceAlt.getStatusesUntil_session Sample.three_pages Sample.member "42"
                   threshold false 126 None [] in
  (exists s fetched,
     run = (Returned s, snd run) /\
     pages (snd run) = pages [] ++ fetched /\
     kept = filter not_reblog (List.concat fetched) /\
     Service.Session.totalFetched s = len (List.concat fetched) /\
     Forall (fun p => reblog p = None) kept) /\
  (exists s fetched,
     run_alt = (Returned s, snd run_alt) /\
     pages (snd run_alt) = pages [] ++ fetched /\
     kept = filter not_reblog (List.concat fetched) /\
     ServiceAlt.Session.totalFetched s = len (List.concat fetched) /\
     Forall (fun p => reblog p = None) kept).
Proof.
  intros threshold kept run run_alt.
  pose (r := {| Result.statuses := kept; Result.lastId := Some "10"%string;
                Result.reachedThreshold := false; Result.fellBack := false |}).
  split.
  - destruct (proj1 (getStatusesUntil_filters_reblogs Sample.three_pages Sample.member "42"
                       threshold false 126 None [] r (snd run))
                     ltac:(vm_compute; reflexivity))
      as (s & fetched & Hs & Hp & Hr & Ht & Hall & _).
    exists s, fetched. auto.
  - destruct (proj2 (getStatusesUntil_filters_reblogs Sample.three_pages Sample.member "42"
                       threshold false 126 None [] r (snd run_alt))
                     ltac:(vm_compute; reflexivity))
      as (s & fetched & Hs & Hp & Hr & Ht & Hall & _).
    exists s, fetched. auto.
Defined.

(** C5, as amended. Every post the server serves for the account is
    dated after [untilDate]: with fuel for 126 tests of the loop
    condition the call ends (more fuel changes nothing), so at most 126
    pages are fetched, with at most 756 requests; and when the call
    returns, [reachedThreshold] is false. *)
Theorem getStatusesUntil_before_first_post :
  forall env this accountId untilDate onProgress fuel startId tr,
  all_posts_after env untilDate ->
  (126 <= fuel)%nat ->
  let run := Service.getStatusesUntil env this accountId untilDate onProgress fuel startId tr in
  fst run <> OutOfFuel /\
  run = Service.getStatusesUntil env this accountId untilDate onProgress 126 startId tr /\
  fetches tr <= fetches (snd run) <= fetches tr + 756 /\
  forall r, fst run = Returned r -> Result.reachedThreshold r = false.
Proof.
  intros env this accountId untilDate onProgress fuel startId tr Hafter Hfuel run.
  unfold run. rewrite !getStatusesUntil_run, !getStatusesUntil_session_start.
  destruct (crawl_enough env this accountId untilDate onProgress fuel 126 (clock env tr)
              (Service.initial startId) (EvNow (clock env tr) :: tr))
    as (Heq & Hout & Hmono & Hbound);
    cbn [Service.initial Service.Session.totalFetched]; try lia.
  rewrite <- Heq.
  cbn [Service.initial Service.Session.totalFetched fetches] in Hbound, Hmono.
  specialize (Hbound ltac:(lia)).
  destruct (Service.crawl env this accountId untilDate onProgress fuel (clock env tr)
              (Service.initial startId) (EvNow (clock env tr) :: tr))
    as [[s | e |] tr1] eqn:Hcrawl; cbn [fst snd] in *.
  - repeat split; try discriminate; try lia.
    intros r Hr. inversion Hr; subst. cbn [Result.reachedThreshold].
    apply crawl_summary in Hcrawl as (_ & Hthr). rewrite Hthr by exact Hafter.
    reflexivity.
  - repeat split; try discriminate; lia.
  - contradiction.
Qed.

Lemma newcomer_posts_after :
  all_posts_after Sample.newcomer (Js.Date_parse_iso "2023-01-01").
Proof.
  intros tr req r l Hres Hok Hbody.
  cbn [respond Sample.newcomer Sample.world] in Hres. unfold Sample.scripted in Hres.
  destruct (Z.to_nat (fetches tr)) as [| [| n]]; cbn [nth] in Hres; try discriminate Hres.
  inversion Hres; subst. cbn [body] in Hbody. inversion Hbody; subst.
  constructor; [| constructor]. vm_compute. reflexivity.
Qed.

Lemma getStatusesUntil_before_first_post_witness :
  let run := Service.getStatusesUntil Sample.newcomer Sample.member "42"
               (Js.Date_parse_iso "2023-01-01") false 200 None [] in
  fst run <> OutOfFuel /\
  run = Service.getStatusesUntil Sample.newcomer Sample.member "42"
          (Js.Date_parse_iso "2023-01-01") false 126 None [] /\
  fetches [] <= fetches (snd run) <= fetches [] + 756 /\
  forall r, fst run = Returned r -> Result.reachedThreshold r = false.
Proof.
  apply (getStatusesUntil_before_first_post Sample.newcomer Sample.member "42"
           (Js.Date_parse_iso "2023-01-01") false 200 None []).
  - intros tr req r l Hres Hok Hbody.
    cbn [respond Sample.newcomer Sample.world] in Hres. unfold Sample.scripted in Hres.
    destruct (Z.to_nat (fetches tr)) as [| [| n]]; cbn [nth] in Hres; try discriminate Hres.
    inversion Hres; subst. cbn [body] in Hbody. inversion Hbody; subst.
    constructor; [| constructor]. vm_compute. reflexivity.
  - lia.
Defined.

(** The claim of C5 fails on an account whose only post is of March
    2023, with [untilDate] 2023-01-01: every post is dated after
    [untilDate], the call ends after one request, and
    [reachedThreshold] is false, not true. *)
Lemma before_first_post_threshold_not_reached :
  all_posts_after Sample.newcomer (Js.Date_parse_iso "2023-01-01") /\
  Service.getStatusesUntil Sample.newcomer Sample.member "42"
    (Js.Date_parse_iso "2023-01-01") false 126 None [] =
  (Returned {| Result.statuses := [Sample.post "9" "2023-03-01T00:00:00.000Z" false];
               Result.lastId := Some "9";
               Result.reachedThreshold := false;
               Result.fellBack := false |},
   [EvFetch (request Sample.member "accounts/42/statuses" [("limit", "40")] true)
      (Sample.success [Sample.post "9" "2023-03-01T00:00:00.000Z" false]);
    EvNow 0; EvNow 0]).
Proof.
  split; [exact newcomer_posts_after | reflexivity].
Qed.

(** The request for the page before a non-empty cursor carries it as
    [max_id]. *)
Lemma max_id_of_page_request this endpoint c limit useAuth :
  c <> ""%string ->
  max_id_of (request this endpoint (page_params (Some c) limit) useAuth) = Some c.
Proof.
  intros Hc. destruct c as [| a c]; [contradiction |]. reflexivity.
Qed.

(** *** When the server honours [max_id]

    The code never compares a cursor with the one before. That the
    cursor moves toward older posts is a property of the server, which
    the next two lemmas assume. *)

Section Cursor.

Variable env : Env.
Variable this : MastodonService.
Variable accountId : string.
Variable untilDate : Js.number.
Variable onProgress : bool.
Variable older : string -> string -> Prop.

Hypothesis server_respects_max_id : respects_max_id env older.

(** Every post of a page fetched before the cursor [c] is older than [c]. *)
Lemma page_fetched_older startTime s tr batch fb tr2 c :
  Service.page_fetched env this accountId startTime s tr batch fb tr2 ->
  Service.Session.maxId s = Some c -> c <> ""%string ->
  Forall (fun p => older (id p) c) batch.
Proof.
  intros Hp Hc Hne.
  apply page_fetched_provenance in Hp as (tr0 & useAuth & r & Hres & Hok & Hbody).
  rewrite Hc in Hres.
  eapply server_respects_max_id; try eassumption.
  apply max_id_of_page_request. exact Hne.
Qed.

Hypothesis older_trans : forall a b c, older a b -> older b c -> older a c.
Hypothesis older_nonempty : forall c, ~ older "" c.

(** Through the whole loop the cursor stays where it is or moves to
    an older id. *)
Lemma crawl_cursor_older fuel : forall startTime s tr s' tr' c,
  Service.crawl env this accountId untilDate onProgress fuel startTime s tr = (Returned s', tr') ->
  Service.Session.maxId s = Some c -> c <> ""%string ->
  Service.Session.maxId s' = Some c \/
  exists c', Service.Session.maxId s' = Some c' /\ older c' c.
Proof.
  induction fuel as [| fuel IH]; intros startTime s tr s' tr' c H Hc Hne; [discriminate H |].
  rewrite crawl_step in H.
  destruct (Service.Session.reachedThreshold s).
  { inversion H; subst. left. exact Hc. }
  destruct (Service.crawl_body env this accountId untilDate onProgress startTime s tr)
    as [[[s1 again] | e |] tr1] eqn:Hbody; try discriminate H.
  assert (Hone : Service.Session.maxId s1 = Some c \/
                 exists c1, Service.Session.maxId s1 = Some c1 /\ c1 <> ""%string /\ older c1 c).
  { pose proof Hbody as Hc'. apply crawl_body_cases in Hc'.
    destruct Hc' as [(e & He & _) | [(_ & He & _) | [(fb & Hp) | (front & oldest & fb & tr2 & Hp)]]].
    - discriminate He.
    - inversion He; subst. left. exact Hc.
    - erewrite crawl_body_empty in Hbody by eassumption. inversion Hbody; subst.
      left. exact Hc.
    - pose proof (page_fetched_older _ _ _ _ _ _ _ Hp Hc Hne) as Hall.
      rewrite Forall_forall in Hall.
      assert (Hold : older (id oldest) c).
      { apply Hall. apply in_or_app. right. left. reflexivity. }
      erewrite crawl_body_page in Hbody by eassumption.
      right. exists (id oldest).
      assert (Hid : id oldest <> ""%string).
      { intros Hempty. rewrite Hempty in Hold. exact (older_nonempty _ Hold). }
      destruct (_ || _); inversion Hbody; subst; auto. }
  assert (Hrest : forall c1, Service.Session.maxId s1 = Some c1 -> c1 <> ""%string ->
                  Service.Session.maxId s' = Some c1 \/
                  exists c', Service.Session.maxId s' = Some c' /\ older c' c1).
  { intros c1 Hc1 Hne1. destruct again.
    - eapply IH; eassumption.
    - inversion H; subst. left. exact Hc1. }
  destruct Hone as [Hsame | (c1 & Hc1 & Hne1 & Hold1)].
  - apply Hrest; assumption.
  - destruct (Hrest c1 Hc1 Hne1) as [Hs' | (c' & Hs' & Hold')].
    + right. exists c1. auto.
    + right. exists c'. split; [exact Hs' |]. eapply older_trans; eassumption.
Qed.

End Cursor.

(** * More properties *)

(** ** The exchanges of one call of [fetchApi] *)

(** [settle] leaves the trace as it is, and its outcome does not depend
    on the trace. *)
Lemma settle_run r tr tr0 : settle r tr = (fst (settle r tr0), tr).
Proof.
  unfold settle, throw, ret. destruct (negb (ok r)); destruct (body r); reflexivity.
Qed.

Lemma fetchApi_exchanges_from env this endpoint params useAuth (k : nat) :
  forall retryCount tr out tr',
  (retryCount + k = 2)%nat ->
  let req := request this endpoint params useAuth in
  Service.fetchApi env this endpoint params useAuth retryCount tr = (out, tr') ->
  exists rs final,
    (List.length rs <= k)%nat /\
    Forall (fun r => status r = 429) rs /\
    respond env (retried req retryCount rs tr) req = final /\
    tr' = EvFetch req final :: retried req retryCount rs tr /\
    out = match final with
          | Responded r => fst (settle r tr')
          | NetworkFailure reason => Thrown (NetworkError reason)
          end /\
    (forall r, final = Responded r -> status r = 429 -> List.length rs = k).
Proof.
  induction k as [| k IH]; intros retryCount tr out tr' Hk req H;
    rewrite fetchApi_step in H; fold req in H.
  - destruct (respond env tr req) as [r | reason] eqn:Hres.
    + replace (retryCount <? 2)%nat with false in H by (symmetry; apply Nat.ltb_ge; lia).
      rewrite andb_false_r in H.
      rewrite (settle_run r _ tr') in H. inversion H; subst.
      exists [], (Responded r). cbn [retried List.length].
      split; [lia |]. split; [constructor |]. split; [assumption |].
      split; [reflexivity |]. split; [reflexivity |]. reflexivity.
    + inversion H; subst. exists [], (NetworkFailure reason). cbn [retried List.length].
      split; [lia |]. split; [constructor |]. split; [assumption |].
      split; [reflexivity |]. split; [reflexivity |]. discriminate.
  - destruct (respond env tr req) as [r | reason] eqn:Hres.
    + destruct ((status r =? 429) && (retryCount <? 2)%nat) eqn:Hretry.
      * apply andb_prop in Hretry as [H429 _]. apply Z.eqb_eq in H429.
        replace (retryCount + 1)%nat with (S retryCount) in H by lia.
        apply IH in H; [| lia].
        destruct H as (rs & final & Hlen & Hall & Hfinal & Htr & Hout & Hlast).
        exists (r :: rs), final. cbn [retried List.length].
        split; [lia |]. split; [constructor; assumption |]. split; [assumption |].
        split; [assumption |]. split; [assumption |].
        intros r' Hr' H429'. rewrite (Hlast r' Hr' H429'). reflexivity.
      * assert (Hnot : status r <> 429).
        { intros H429. rewrite H429, Z.eqb_refl in Hretry. cbn [andb] in Hretry.
          apply Nat.ltb_ge in Hretry. lia. }
        rewrite (settle_run r _ tr') in H. inversion H; subst.
        exists [], (Responded r). cbn [retried List.length].
        split; [lia |]. split; [constructor |]. split; [assumption |].
        split; [reflexivity |]. split; [reflexivity |].
        intros r' Hr' H429'. inversion Hr'; subst. contradiction.
    + inversion H; subst. exists [], (NetworkFailure reason). cbn [retried List.length].
      split; [lia |]. split; [constructor |]. split; [assumption |].
      split; [reflexivity |]. split; [reflexivity |]. discriminate.
Qed.

(** X1. One call of [fetchApi]: the trace grows by a run of exchanges
    of one and the same request, each answered 429 and followed by its
    sleep, two at most, and then by a last exchange, which alone
    decides the outcome; a 429 is the last answer only after two
    retries. *)
Theorem fetchApi_exchanges :
  forall env this endpoint params useAuth tr out tr',
  let req := request this endpoint params useAuth in
  Service.fetchApi env this endpoint params useAuth 0 tr = (out, tr') ->
  exists rs final,
    (List.length rs <= 2)%nat /\
    Forall (fun r => status r = 429) rs /\
    respond env (retried req 0 rs tr) req = final /\
    tr' = EvFetch req final :: retried req 0 rs tr /\
    out = match final with
          | Responded r => fst (settle r tr')
          | NetworkFailure reason => Thrown (NetworkError reason)
          end /\
    (forall r, final = Responded r -> status r = 429 -> List.length rs = 2%nat).
Proof.
  intros env this endpoint params useAuth tr out tr' req H.
  eapply fetchApi_exchanges_from; [| exact H]. reflexivity.
Qed.

Lemma fetchApi_exchanges_witness :
  let req := request Sample.member "accounts/42/statuses" [("limit", "40")] true in
  exists rs final,
    (List.length rs <= 2)%nat /\
    Forall (fun r => status r = 429) rs /\
    respond Sample.throttled (retried req 0 rs []) req = final /\
    snd (Service.fetchApi Sample.throttled Sample.member "accounts/42/statuses"
           [("limit", "40")] true 0 []) = EvFetch req final :: retried req 0 rs [] /\
    Thrown (HttpError "refused" 429) =
      match final with
      | Responded r =>
          fst (settle r (snd (Service.fetchApi Sample.throttled Sample.member
                                "accounts/42/statuses" [("limit", "40")] true 0 [])))
      | NetworkFailure reason => Thrown (NetworkError reason)
      end /\
    (forall r, final = Responded r -> status r = 429 -> List.length rs = 2%nat).
Proof.
  intros req.
  apply (fetchApi_exchanges Sample.throttled Sample.member "accounts/42/statuses"
           [("limit", "40")] true [] (Thrown (HttpError "refused" 429))).
  reflexivity.
Defined.

(** ** What a session leaves behind *)

Lemma last_app_nonempty {A} (l1 l2 : list A) (d : A) :
  l2 <> [] -> last (l1 ++ l2) d = last l2 d.
Proof.
  intros Hne. induction l1 as [| a l1 IH]; [reflexivity |].
  cbn [app]. destruct (l1 ++ l2) as [| b l] eqn:E.
  - apply app_eq_nil in E as [_ E]. contradiction.
  - cbn [last]. rewrite <- IH. reflexivity.
Qed.

Lemma last_post_app f1 f2 :
  last_post (f1 ++ f2) =
  match last_post f2 with
  | Some p => Some p
  | None => last_post f1
  end.
Proof.
  unfold last_post. rewrite concat_app, map_app.
  destruct (List.concat f2) as [| p l] eqn:E.
  - cbn [map]. now rewrite app_nil_r.
  - assert (Hne : map Some (p :: l) <> []) by discriminate.
    rewrite last_app_nonempty by exact Hne.
    destruct (exists_last Hne) as (l' & x & Hx). rewrite Hx, last_last.
    assert (Hin : In x (map Some (p :: l))).
    { rewrite Hx. apply in_or_app. right. left. reflexivity. }
    apply in_map_iff in Hin as (q & <- & _). reflexivity.
Qed.

Lemma last_post_page front oldest : last_post [front ++ [oldest]] = Some oldest.
Proof.
  unfold last_post. cbn [List.concat]. rewrite app_nil_r, map_app. cbn [map].
  apply last_last.
Qed.

Lemma running_app f1 : forall kept f2,
  running kept (f1 ++ f2) =
  running kept f1 ++ running (kept + len (filter not_reblog (List.concat f1))) f2.
Proof.
  induction f1 as [| page f1 IH]; intros kept f2.
  - cbn [app running List.concat filter]. f_equal. unfold len. simpl. lia.
  - destruct page as [| p page].
    + cbn [app running List.concat]. exact (IH kept f2).
    + change ((((p :: page) :: f1) ++ f2)) with ((p :: page) :: (f1 ++ f2)).
      cbn [running]. rewrite IH. cbn [app]. f_equal. f_equal. f_equal.
      change (List.concat ((p :: page) :: f1)) with ((p :: page) ++ List.concat f1).
      rewrite filter_app, len_app. lia.
Qed.

Lemma running_page kept front oldest :
  running kept [front ++ [oldest]] =
  [kept + len (filter not_reblog (front ++ [oldest]))].
Proof.
  destruct front; reflexivity.
Qed.

Lemma retried_refusals req rs : forall retryCount tr,
  Forall (fun r => status r = 429) rs ->
  refusals (retried req retryCount rs tr) = refusals tr.
Proof.
  induction rs as [| r rs IH]; intros retryCount tr Hall; [reflexivity |].
  inversion Hall as [| r' rs' H429 Hrest]; subst.
  cbn [retried]. rewrite IH by exact Hrest. cbn [refusals]. rewrite H429.
  cbn. lia.
Qed.

(** An outcome of [settle] that is an error of status 401 or 403 comes
    from a response of that status, and a body that is returned comes
    from a response of another status. *)
Lemma settle_refusal r tr :
  match fst (settle r tr) with
  | Thrown e =>
      status_is e 403 || status_is e 401 = true ->
      (status r =? 401) || (status r =? 403) = true
  | Returned _ => (status r =? 401) || (status r =? 403) = false
  | OutOfFuel => True
  end.
Proof.
  unfold settle, ok. destruct ((200 <=? status r) && (status r <=? 299)) eqn:Hok.
  - apply andb_prop in Hok as [Hlo Hhi]. apply Z.leb_le in Hlo, Hhi.
    replace (status r =? 401) with false by (symmetry; apply Z.eqb_neq; lia).
    replace (status r =? 403) with false by (symmetry; apply Z.eqb_neq; lia).
    cbn [negb]. destruct (body r); cbn; try reflexivity; discriminate.
  - cbn [negb]. destruct (body r); cbn [throw fst]; unfold status_is; cbn [error_status];
      try (intros H; rewrite orb_comm; exact H); discriminate.
Qed.

Lemma fetchApi_refusals env this endpoint params useAuth tr out tr' :
  Service.fetchApi env this endpoint params useAuth 0 tr = (out, tr') ->
  match out with
  | Thrown e => status_is e 403 || status_is e 401 = true -> refusals tr' = refusals tr + 1
  | Returned _ => refusals tr' = refusals tr
  | OutOfFuel => True
  end.
Proof.
  intros H. apply (fetchApi_exchanges_from _ _ _ _ _ 2) in H; [| reflexivity].
  destruct H as (rs & final & _ & Hall & _ & -> & -> & _).
  cbn [refusals]. destruct final as [r | reason].
  - rewrite retried_refusals by exact Hall.
    match goal with |- context [settle r ?t] => pose proof (settle_refusal r t) as Hs end.
    destruct (fst (settle r _)) as [b | e |]; [| | exact I].
    + rewrite Hs. lia.
    + intros He. rewrite (Hs He). reflexivity.
  - rewrite retried_refusals by exact Hall. cbn. discriminate.
Qed.

(** A page comes with [fellBack] exactly when its fetch met a refusal. *)
Lemma getStatusesPage_refusals env this accountId maxId limit tr page tr' :
  Service.getStatusesPage env this accountId maxId limit tr = (Returned page, tr') ->
  refusals tr' = refusals tr + (if Page.fellBack page then 1 else 0).
Proof.
  rewrite getStatusesPage_run. cbv zeta.
  destruct (Service.fetchApi env this _ _ true 0 tr) as [[st | e |] tr1] eqn:E1;
    apply fetchApi_refusals in E1.
  - intros H; inversion H; subst. cbn [Page.fellBack]. lia.
  - destruct (status_is e 403 || status_is e 401) eqn:Hst; [| discriminate].
    destruct (Service.fetchApi env this _ _ false 0 tr1) as [[st | e' |] tr2] eqn:E2;
      try discriminate.
    apply fetchApi_refusals in E2.
    intros H; inversion H; subst. cbn [Page.fellBack]. specialize (E1 eq_refl). lia.
  - discriminate.
Qed.

Lemma retried_reports req rs : forall retryCount tr,
  reports (retried req retryCount rs tr) = reports tr.
Proof.
  induction rs as [| r rs IH]; intros retryCount tr; [reflexivity |].
  cbn [retried]. rewrite IH. reflexivity.
Qed.

(** The request layer never calls the progress callback. *)
Lemma fetchApi_reports env this endpoint params useAuth tr out tr' :
  Service.fetchApi env this endpoint params useAuth 0 tr = (out, tr') ->
  reports tr' = reports tr.
Proof.
  intros H. apply (fetchApi_exchanges_from _ _ _ _ _ 2) in H; [| reflexivity].
  destruct H as (rs & final & _ & _ & _ & -> & _).
  cbn [reports]. apply retried_reports.
Qed.

Lemma getStatusesPage_reports env this accountId maxId limit tr out tr' :
  Service.getStatusesPage env this accountId maxId limit tr = (out, tr') ->
  reports tr' = reports tr.
Proof.
  rewrite getStatusesPage_run. cbv zeta.
  destruct (Service.fetchApi env this _ _ true 0 tr) as [[st | e |] tr1] eqn:E1;
    apply fetchApi_reports in E1.
  - intros H; inversion H; subst. exact E1.
  - destruct (status_is e 403 || status_is e 401).
    + destruct (Service.fetchApi env this _ _ false 0 tr1) as [[st | e' |] tr2] eqn:E2;
        apply fetchApi_reports in E2; intros H; inversion H; subst; congruence.
    + intros H; inversion H; subst. exact E1.
  - intros H; inversion H; subst. exact E1.
Qed.

Section Session.

Variable env : Env.
Variable this : MastodonService.
Variable accountId : string.
Variable untilDate : Js.number.
Variable onProgress : bool.

Local Abbreviation crawl_body := (Service.crawl_body env this accountId untilDate onProgress).
Local Abbreviation crawl := (Service.crawl env this accountId untilDate onProgress).
Local Abbreviation page_fetched := (Service.page_fetched env this accountId).
Local Abbreviation before p := (Js.num_lt (new_Date env (created_at p)) untilDate).

Lemma page_fetched_refusals startTime s tr batch fb tr2 :
  page_fetched startTime s tr batch fb tr2 ->
  refusals tr2 = refusals tr + (if fb then 1 else 0).
Proof.
  intros [_ Hp]. apply getStatusesPage_refusals in Hp. exact Hp.
Qed.

(** All that one run of the body does to the local variables and to
    the trace, in terms of the page it fetched. *)
Lemma crawl_body_effects startTime s tr s1 again tr1 :
  crawl_body startTime s tr = (Returned (s1, again), tr1) ->
  exists fetched,
    pages tr1 = pages tr ++ fetched /\
    Service.Session.allFilteredStatuses s1 =
      Service.Session.allFilteredStatuses s ++ filter not_reblog (List.concat fetched) /\
    Service.Session.totalFetched s1 =
      Service.Session.totalFetched s + len (List.concat fetched) /\
    Service.Session.maxId s1 =
      match last_post fetched with
      | Some p => Some (id p)
      | None => Service.Session.maxId s
      end /\
    Service.Session.reachedThreshold s1 =
      match last_post fetched with
      | Some p => if before p then true else Service.Session.reachedThreshold s
      | None => Service.Session.reachedThreshold s
      end /\
    refusals tr <= refusals tr1 /\
    (Service.Session.wasFellBack s1 = true <->
     Service.Session.wasFellBack s = true \/ refusals tr < refusals tr1) /\
    reports tr1 =
      reports tr ++
      (if onProgress
       then running (len (Service.Session.allFilteredStatuses s)) fetched
       else []) /\
    (respects_limit env -> len (List.concat fetched) <= 40) /\
    (again = true -> Service.Session.totalFetched s1 <= 5000).
Proof.
  intros H. pose proof H as Hc. apply crawl_body_cases in Hc.
  destruct Hc
    as [(e & He & _) | [(Hover & He & ->) | [(fb & Hp) | (front & oldest & fb & tr2 & Hp)]]].
  - discriminate He.
  - inversion He; subst. exists [].
    cbn [pages page_of reports refusals List.concat filter running].
    unfold last_post. cbn [List.concat map last].
    rewrite !app_nil_r. destruct onProgress; rewrite ?app_nil_r.
    all: repeat split; try reflexivity; try (unfold len; simpl; lia); try tauto;
      try discriminate; try (intros [? | ?]; [assumption | lia]).
  - erewrite crawl_body_empty in H by eassumption. inversion H; subst. clear H.
    pose proof Hp as Ht. apply page_fetched_trace in Ht as [_ Hpg].
    pose proof Hp as Hr. apply page_fetched_refusals in Hr.
    assert (Hrep : reports tr1 = reports tr).
    { destruct Hp as [_ Hp]. apply getStatusesPage_reports in Hp. exact Hp. }
    exists [[]].
    cbn [List.concat filter running app Service.Session.allFilteredStatuses
         Service.Session.totalFetched Service.Session.maxId
         Service.Session.reachedThreshold Service.Session.wasFellBack].
    unfold last_post. cbn [List.concat map last app].
    rewrite Hrep, !app_nil_r.
    split; [exact Hpg |]. split; [reflexivity |]. split; [unfold len; simpl; lia |].
    split; [reflexivity |]. split; [reflexivity |]. split; [destruct fb; lia |].
    split; [| split; [| split]].
    + destruct fb; split; try tauto; try (intros _; right; lia).
      intros [Hw | Hlt]; [exact Hw | lia].
    + destruct onProgress; cbn [running]; rewrite app_nil_r; reflexivity.
    + intros _. unfold len. simpl. lia.
    + discriminate.
  - erewrite crawl_body_page in H by eassumption.
    pose proof Hp as Ht. apply page_fetched_trace in Ht as [_ Hpg].
    pose proof Hp as Hr. apply page_fetched_refusals in Hr.
    assert (Hrep : reports tr2 = reports tr).
    { destruct Hp as [_ Hp']. apply getStatusesPage_reports in Hp'. exact Hp'. }
    assert (Hlim : respects_limit env -> len (front ++ [oldest]) <= 40).
    { intros Hserver. pose proof Hp as Hfrom.
      apply page_fetched_provenance in Hfrom as (tr0 & useAuth & r & Hres & Hok & Hbody).
      eapply Hserver; eassumption. }
    set (batch := front ++ [oldest]) in *.
    set (s2 := Service.processed env untilDate s batch oldest fb) in *.
    set (called := if onProgress
                   then [EvProgress (len (Service.Session.allFilteredStatuses s2))]
                   else []) in *.
    assert (Hcalled : pages (called ++ tr2) = pages tr2 /\
                      refusals (called ++ tr2) = refusals tr2 /\
                      reports (called ++ tr2) =
                        reports tr2 ++
                        (if onProgress
                         then running (len (Service.Session.allFilteredStatuses s)) [batch]
                         else [])).
    { unfold called, batch. rewrite running_page. destruct onProgress.
      - cbn [app pages page_of refusals reports]. rewrite app_nil_r.
        repeat split. unfold s2, Service.processed.
        cbn [Service.Session.allFilteredStatuses]. rewrite len_app. reflexivity.
      - cbn [app]. rewrite app_nil_r. repeat split. }
    destruct Hcalled as (Hcp & Hcr & Hcrep).
    assert (Hstate : Service.Session.allFilteredStatuses s2 =
                       Service.Session.allFilteredStatuses s ++ filter not_reblog batch /\
                     Service.Session.totalFetched s2 =
                       Service.Session.totalFetched s + len batch /\
                     Service.Session.maxId s2 = Some (id oldest) /\
                     Service.Session.reachedThreshold s2 =
                       (if before oldest then true else Service.Session.reachedThreshold s) /\
                     Service.Session.wasFellBack s2 =
                       (if fb then true else Service.Session.wasFellBack s)).
    { repeat split. }
    destruct Hstate as (Ha & Htot & Hid & Hthr & Hfb).
    assert (Hs1 : s1 = s2 /\
                  pages tr1 = pages tr2 /\ refusals tr1 = refusals tr2 /\
                  reports tr1 = reports (called ++ tr2) /\
                  (again = true -> Service.Session.totalFetched s2 <= 5000)).
    { destruct ((len batch <? 40) || (Service.Session.totalFetched s2 >? 5000)) eqn:Hstop;
        inversion H; subst; cbn [pages page_of refusals reports];
        rewrite ?app_nil_r, ?Hcp, ?Hcr; repeat split; try discriminate.
      intros _. apply orb_false_iff in Hstop as [_ Hcap].
      rewrite Z.gtb_ltb in Hcap. apply Z.ltb_ge in Hcap. exact Hcap. }
    destruct Hs1 as (-> & Hp1 & Hr1 & Hrep1 & Hagain).
    exists [batch]. cbn [List.concat]. rewrite app_nil_r.
    unfold batch at 4 5. rewrite last_post_page. fold batch.
    rewrite Hp1, Hr1, Hrep1, Hcrep, Hrep, Ha, Htot, Hid, Hthr, Hfb.
    split; [exact Hpg |]. split; [reflexivity |]. split; [reflexivity |].
    split; [reflexivity |]. split; [reflexivity |]. split; [destruct fb; lia |].
    split; [| split; [| split]].
    + destruct fb; split; try tauto; try (intros _; right; lia).
      intros [Hw | Hlt]; [exact Hw | lia].
    + reflexivity.
    + exact Hlim.
    + rewrite <- Htot. exact Hagain.
Qed.

(** All that the loop does, in terms of the pages it fetched. *)
Lemma crawl_effects fuel : forall startTime s tr s' tr',
  crawl fuel startTime s tr = (Returned s', tr') ->
  exists fetched,
    pages tr' = pages tr ++ fetched /\
    Service.Session.allFilteredStatuses s' =
      Service.Session.allFilteredStatuses s ++ filter not_reblog (List.concat fetched) /\
    Service.Session.totalFetched s' =
      Service.Session.totalFetched s + len (List.concat fetched) /\
    Service.Session.maxId s' =
      match last_post fetched with
      | Some p => Some (id p)
      | None => Service.Session.maxId s
      end /\
    Service.Session.reachedThreshold s' =
      match last_post fetched with
      | Some p => before p
      | None => Service.Session.reachedThreshold s
      end /\
    refusals tr <= refusals tr' /\
    (Service.Session.wasFellBack s' = true <->
     Service.Session.wasFellBack s = true \/ refusals tr < refusals tr') /\
    reports tr' =
      reports tr ++
      (if onProgress
       then running (len (Service.Session.allFilteredStatuses s)) fetched
       else []) /\
    (respects_limit env ->
     Service.Session.totalFetched s' <= Z.max (Service.Session.totalFetched s) 5000 + 40).
Proof.
  induction fuel as [| fuel IH]; intros startTime s tr s' tr' H; [discriminate H |].
  rewrite crawl_step in H.
  destruct (Service.Session.reachedThreshold s) eqn:Hreached.
  { inversion H; subst. exists []. unfold last_post.
    cbn [List.concat map last filter running]. rewrite !app_nil_r.
    split; [reflexivity |]. split; [reflexivity |]. split; [unfold len; simpl; lia |].
    split; [reflexivity |]. split; [exact Hreached |]. split; [lia |].
    split; [split; [tauto | intros [Hw | Hlt]; [exact Hw | lia]] |].
    split; [destruct onProgress; rewrite ?app_nil_r; reflexivity | lia]. }
  destruct (crawl_body startTime s tr) as [[[s1 again] | e |] tr1] eqn:Hbody;
    try discriminate H.
  apply crawl_body_effects in Hbody
    as (f1 & Hp1 & Ha1 & Ht1 & Hid1 & Hthr1 & Hle1 & Hfb1 & Hrep1 & Hlim1 & Hagain).
  rewrite Hreached in Hthr1.
  destruct again.
  - apply IH in H
      as (f2 & Hp2 & Ha2 & Ht2 & Hid2 & Hthr2 & Hle2 & Hfb2 & Hrep2 & Hlim2).
    exists (f1 ++ f2).
    rewrite last_post_app, concat_app, filter_app, len_app, running_app.
    split; [rewrite Hp2, Hp1; symmetry; apply app_assoc |].
    split; [rewrite Ha2, Ha1; symmetry; apply app_assoc |].
    split; [lia |].
    split; [destruct (last_post f2); [exact Hid2 | rewrite Hid2; exact Hid1] |].
    split.
    { destruct (last_post f2); [exact Hthr2 |]. rewrite Hthr2, Hthr1.
      destruct (last_post f1) as [p |]; [| reflexivity].
      destruct (before p); reflexivity. }
    split; [lia |].
    split.
    { rewrite Hfb2, Hfb1. split.
      - intros [[Hw | Hlt] | Hlt]; [left; exact Hw | right; lia | right; lia].
      - intros [Hw | Hlt]; [left; left; exact Hw |].
        destruct (Z_lt_le_dec (refusals tr) (refusals tr1)) as [Hfirst | Hlater];
          [left; right; exact Hfirst | right; lia]. }
    split.
    { rewrite Hrep2, Hrep1, Ha1, len_app. destruct onProgress.
      - symmetry; apply app_assoc.
      - rewrite !app_nil_r. reflexivity. }
    intros Hserver. specialize (Hlim1 Hserver). specialize (Hlim2 Hserver).
    specialize (Hagain eq_refl). lia.
  - inversion H; subst. exists f1.
    split; [exact Hp1 |]. split; [exact Ha1 |]. split; [exact Ht1 |].
    split; [exact Hid1 |].
    split.
    { rewrite Hthr1. destruct (last_post f1) as [p |]; [| reflexivity].
      destruct (before p); reflexivity. }
    split; [exact Hle1 |]. split; [exact Hfb1 |]. split; [exact Hrep1 |].
    intros Hserver. specialize (Hlim1 Hserver). lia.
Qed.

End Session.

Lemma running_last f : forall kept d,
  running kept f <> [] ->
  last (running kept f) d = kept + len (filter not_reblog (List.concat f)).
Proof.
  induction f as [| page f IH]; intros kept d Hne; [contradiction |].
  destruct page as [| p page].
  - cbn [running List.concat app] in *. apply IH. exact Hne.
  - cbn [running] in *.
    change (List.concat ((p :: page) :: f)) with ((p :: page) ++ List.concat f).
    rewrite filter_app, len_app.
    destruct (running (kept + len (filter not_reblog (p :: page))) f) as [| c cs] eqn:E.
    + cbn [last].
      assert (Hnone : filter not_reblog (List.concat f) = []).
      { clear -E. revert E. generalize (kept + len (filter not_reblog (p :: page))).
        induction f as [| q f IHf]; intros k E; [reflexivity |].
        destruct q as [| x q]; [| discriminate E].
        cbn [running List.concat app] in *. eapply IHf. exact E. }
      rewrite Hnone. change (len (@nil MastodonStatus)) with 0. lia.
    + change (last (?a :: c :: cs) d) with (last (c :: cs) d).
      rewrite <- E. rewrite IH by (rewrite E; discriminate). lia.
Qed.

(** The whole call, in terms of the pages it fetched. *)
Lemma getStatusesUntil_effects env this accountId untilDate onProgress fuel startId tr r tr' :
  Service.getStatusesUntil env this accountId untilDate onProgress fuel startId tr =
  (Returned r, tr') ->
  exists fetched,
    pages tr' = pages tr ++ fetched /\
    Result.statuses r = filter not_reblog (List.concat fetched) /\
    Result.lastId r =
      match last_post fetched with
      | Some p => Some (id p)
      | None => startId
      end /\
    Result.reachedThreshold r =
      match last_post fetched with
      | Some p => Js.num_lt (new_Date env (created_at p)) untilDate
      | None => false
      end /\
    refusals tr <= refusals tr' /\
    (Result.fellBack r = true <-> refusals tr < refusals tr') /\
    reports tr' = reports tr ++ (if onProgress then running 0 fetched else []) /\
    (respects_limit env -> len (List.concat fetched) <= 5040).
Proof.
  rewrite getStatusesUntil_run.
  destruct (Service.getStatusesUntil_session _ _ _ _ _ _ _ _) as [[s | e |] tr1] eqn:Hs;
    try discriminate.
  intros H; inversion H; subst. clear H.
  rewrite getStatusesUntil_session_start in Hs.
  apply crawl_effects in Hs
    as (fetched & Hp & Ha & Ht & Hid & Hthr & Hle & Hfb & Hrep & Hlim).
  cbn [Service.initial Service.Session.allFilteredStatuses Service.Session.totalFetched
       Service.Session.maxId Service.Session.reachedThreshold Service.Session.wasFellBack
       pages page_of refusals reports app] in *.
  rewrite app_nil_r in Hp.
  exists fetched. cbn [Result.statuses Result.lastId Result.reachedThreshold Result.fellBack].
  split; [exact Hp |]. split; [exact Ha |]. split; [exact Hid |]. split; [exact Hthr |].
  split; [exact Hle |].
  split; [rewrite Hfb; split; [intros [Hw | Hlt]; [discriminate Hw | exact Hlt] | auto] |].
  split; [exact Hrep |].
  intros Hserver. specialize (Hlim Hserver). lia.
Qed.

(** X2. A call that returns: the returned [lastId] is the id of the
    last post the server delivered during the call, reblog or not, and
    the [startId] passed in when no post was delivered. *)
Theorem getStatusesUntil_lastId :
  forall env this accountId untilDate onProgress fuel startId tr r tr',
  Service.getStatusesUntil env this accountId untilDate onProgress fuel startId tr =
  (Returned r, tr') ->
  exists fetched,
    pages tr' = pages tr ++ fetched /\
    Result.lastId r =
      match last_post fetched with
      | Some p => Some (id p)
      | None => startId
      end.
Proof.
  intros env this accountId untilDate onProgress fuel startId tr r tr' H.
  apply getStatusesUntil_effects in H as (fetched & Hp & _ & Hid & _).
  exists fetched. split; assumption.
Qed.

(** X3. A call that returns: [reachedThreshold] tells whether the last
    post delivered during the call is dated before [untilDate]; it is
    false when no post was delivered. *)
Theorem getStatusesUntil_reachedThreshold :
  forall env this accountId untilDate onProgress fuel startId tr r tr',
  Service.getStatusesUntil env this accountId untilDate onProgress fuel startId tr =
  (Returned r, tr') ->
  exists fetched,
    pages tr' = pages tr ++ fetched /\
    Result.reachedThreshold r =
      match last_post fetched with
      | Some p => Js.num_lt (new_Date env (created_at p)) untilDate
      | None => false
      end.
Proof.
  intros env this accountId untilDate onProgress fuel startId tr r tr' H.
  apply getStatusesUntil_effects in H as (fetched & Hp & _ & _ & Hthr & _).
  exists fetched. split; assumption.
Qed.

(** X4. A call that returns: [fellBack] is true exactly when the server
    answered 401 or 403 to a request of the call. *)
Theorem getStatusesUntil_fellBack :
  forall env this accountId untilDate onProgress fuel startId tr r tr',
  Service.getStatusesUntil env this accountId untilDate onProgress fuel startId tr =
  (Returned r, tr') ->
  refusals tr <= refusals tr' /\
  (Result.fellBack r = true <-> refusals tr < refusals tr').
Proof.
  intros env this accountId untilDate onProgress fuel startId tr r tr' H.
  apply getStatusesUntil_effects in H as (fetched & _ & _ & _ & _ & Hle & Hfb & _).
  split; assumption.
Qed.

(** X5. A call that returns, with a progress callback: the callback is
    called once after each non-empty page, with the number of posts
    kept so far; so its last count is the number of posts returned. *)
Theorem getStatusesUntil_reports :
  forall env this accountId untilDate fuel startId tr r tr',
  Service.getStatusesUntil env this accountId untilDate true fuel startId tr =
  (Returned r, tr') ->
  exists fetched,
    pages tr' = pages tr ++ fetched /\
    reports tr' = reports tr ++ running 0 fetched /\
    (running 0 fetched <> [] ->
     last (running 0 fetched) 0 = len (Result.statuses r)).
Proof.
  intros env this accountId untilDate fuel startId tr r tr' H.
  apply getStatusesUntil_effects in H as (fetched & Hp & Ha & _ & _ & _ & _ & Hrep & _).
  exists fetched. split; [exact Hp |]. split; [exact Hrep |].
  intros Hne. rewrite running_last by exact Hne. rewrite Ha. lia.
Qed.

(** X6. A call that returns, from a server that serves no page of more
    than 40 posts: the pages delivered during the call hold at most
    5040 posts, and the posts returned are no more than the posts
    delivered, so at most 5040. *)
Theorem getStatusesUntil_size :
  forall env this accountId untilDate onProgress fuel startId tr r tr',
  respects_limit env ->
  Service.getStatusesUntil env this accountId untilDate onProgress fuel startId tr =
  (Returned r, tr') ->
  exists fetched,
    pages tr' = pages tr ++ fetched /\
    len (List.concat fetched) <= 5040 /\
    len (Result.statuses r) <= len (List.concat fetched) /\
    len (Result.statuses r) <= 5040.
Proof.
  intros env this accountId untilDate onProgress fuel startId tr r tr' Hserver H.
  apply getStatusesUntil_effects in H as (fetched & Hp & Ha & _ & _ & _ & _ & _ & Hlim).
  specialize (Hlim Hserver). exists fetched. rewrite Ha.
  assert (Hle : len (filter not_reblog (List.concat fetched)) <= len (List.concat fetched)).
  { unfold len. apply Nat2Z.inj_le. apply filter_length_le. }
  split; [exact Hp |]. split; [exact Hlim |]. split; [exact Hle | lia].
Qed.

Lemma getStatusesUntil_lastId_witness :
  exists fetched,
    pages (snd (Cases.three_pages_run false)) = pages [] ++ fetched /\
    Some "10"%string =
      match last_post fetched with
      | Some p => Some (id p)
      | None => None
      end.
Proof.
  apply (getStatusesUntil_lastId Sample.three_pages Sample.member "42" Cases.new_year
           false 126 None [] (Cases.returned Cases.no_result (Cases.three_pages_run false))).
  vm_compute. reflexivity.
Defined.

Lemma getStatusesUntil_reachedThreshold_witness :
  exists fetched,
    pages (snd Cases.archive_run) = pages [] ++ fetched /\
    true =
      match last_post fetched with
      | Some p => Js.num_lt (new_Date Sample.archive (created_at p)) Cases.new_year
      | None => false
      end.
Proof.
  apply (getStatusesUntil_reachedThreshold Sample.archive Sample.member "42" Cases.new_year
           false 126 None [] (Cases.returned Cases.no_result Cases.archive_run)).
  vm_compute. reflexivity.
Defined.

Lemma getStatusesUntil_fellBack_witness :
  refusals [] <= refusals (snd Cases.guarded_run) /\
  (true = true <-> refusals [] < refusals (snd Cases.guarded_run)).
Proof.
  apply (getStatusesUntil_fellBack Sample.guarded Sample.member "42" Cases.new_year
           false 126 None [] (Cases.returned Cases.no_result Cases.guarded_run)).
  vm_compute. reflexivity.
Defined.

Lemma getStatusesUntil_reports_witness :
  exists fetched,
    pages (snd (Cases.three_pages_run true)) = pages [] ++ fetched /\
    reports (snd (Cases.three_pages_run true)) = reports [] ++ running 0 fetched /\
    (running 0 fetched <> [] -> last (running 0 fetched) 0 = 41).
Proof.
  apply (getStatusesUntil_reports Sample.three_pages Sample.member "42" Cases.new_year
           126 None [] (Cases.returned Cases.no_result (Cases.three_pages_run true))).
  vm_compute. reflexivity.
Defined.

Lemma getStatusesUntil_size_witness :
  exists fetched,
    pages (snd (Cases.three_pages_run false)) = pages [] ++ fetched /\
    len (List.concat fetched) <= 5040 /\
    len (Result.statuses (Cases.returned Cases.no_result (Cases.three_pages_run false)))
    <= len (List.concat fetched) /\
    len (Result.statuses (Cases.returned Cases.no_result (Cases.three_pages_run false)))
    <= 5040.
Proof.
  apply (getStatusesUntil_size Sample.three_pages Sample.member "42" Cases.new_year
           false 126 None [] (Cases.returned Cases.no_result (Cases.three_pages_run false))
           (snd (Cases.three_pages_run false))).
  - intros tr req r l Hres Hok Hbody.
    cbn [respond Sample.three_pages Sample.world] in Hres. unfold Sample.scripted in Hres.
    destruct (Z.to_nat (fetches tr)) as [| [| [| n]]]; cbn [nth] in Hres;
      try (destruct n; discriminate Hres);
      inversion Hres; subst; cbn [body] in Hbody; inversion Hbody; subst;
      unfold len; rewrite ?repeat_length; cbn [List.length]; lia.
  - vm_compute. reflexivity.
Defined.

(** ** Pauses, budget and failures of the loop *)

Lemma jitter_range (r : Q) :
  (0 <= r)%Q -> (r < 1)%Q -> 200 <= Qfloor (r * inject_Z 300)%Q + 200 <= 499.
Proof.
  intros Hlo Hhi.
  assert (H0 : 0 <= Qfloor (r * inject_Z 300)%Q).
  { change 0 with (Qfloor (inject_Z 0)). apply Qfloor_resp_le.
    change (inject_Z 0) with (0 * inject_Z 300)%Q.
    apply Qmult_le_compat_r; [exact Hlo | discriminate]. }
  assert (H300 : Qfloor (r * inject_Z 300)%Q < 300).
  { rewrite Zlt_Qlt. eapply Qle_lt_trans; [apply Qfloor_le |].
    change (inject_Z 300) with (1 * inject_Z 300)%Q at 2.
    apply Qmult_lt_compat_r; [reflexivity | exact Hhi]. }
  lia.
Qed.

(** X7. A run of the loop body that reaches its end, so that another
    page will be fetched, has slept last, for 200 to 499 ms (given that
    [Math.random()] is in [0, 1)); a run that leaves by [break] adds no
    sleep after its page fetch. *)
Theorem crawl_body_jitter :
  forall env this accountId untilDate onProgress startTime s tr s' again tr',
  random_in_unit env ->
  Service.crawl_body env this accountId untilDate onProgress startTime s tr =
  (Returned (s', again), tr') ->
  (again = true ->
   exists d tr1, tr' = EvSleep (Some d) :: tr1 /\ 200 <= d <= 499) /\
  (again = false ->
   tr' = EvNow (clock env tr) :: tr \/
   exists batch fb tr2,
     Service.page_fetched env this accountId startTime s tr batch fb tr2 /\
     (tr' = tr2 \/ exists n, tr' = EvProgress n :: tr2)).
Proof.
  intros env this accountId untilDate onProgress startTime s tr s' again tr' Hrandom H.
  pose proof H as Hc. apply crawl_body_cases in Hc.
  destruct Hc
    as [(e & He & _) | [(Hover & He & ->) | [(fb & Hp) | (front & oldest & fb & tr2 & Hp)]]].
  - discriminate He.
  - inversion He; subst. split; [discriminate |]. intros _. left. reflexivity.
  - erewrite crawl_body_empty in H by eassumption. inversion H; subst.
    split; [discriminate |]. intros _. right. exists [], fb, tr'. auto.
  - erewrite crawl_body_page in H by eassumption.
    destruct (_ || _); inversion H; subst; (split; [| try discriminate]).
    + discriminate.
    + intros _. right. exists (front ++ [oldest]), fb, tr2. split; [exact Hp |].
      destruct onProgress; [right; eexists; reflexivity | left; reflexivity].
    + intros _. eexists. eexists. split; [reflexivity |].
      apply jitter_range; apply Hrandom.
Qed.

Lemma crawl_body_jitter_witness :
  (true = true ->
   exists d tr1,
     snd (Service.crawl_body Sample.three_pages Sample.member "42" Cases.new_year false 0
            (Service.initial None) []) = EvSleep (Some d) :: tr1 /\
     200 <= d <= 499) /\
  (true = false ->
   snd (Service.crawl_body Sample.three_pages Sample.member "42" Cases.new_year false 0
          (Service.initial None) []) = EvNow (clock Sample.three_pages []) :: [] \/
   exists batch fb tr2,
     Service.page_fetched Sample.three_pages Sample.member "42" 0 (Service.initial None) []
       batch fb tr2 /\
     (snd (Service.crawl_body Sample.three_pages Sample.member "42" Cases.new_year false 0
             (Service.initial None) []) = tr2 \/
      exists n,
        snd (Service.crawl_body Sample.three_pages Sample.member "42" Cases.new_year false 0
               (Service.initial None) []) = EvProgress n :: tr2)).
Proof.
  apply (crawl_body_jitter Sample.three_pages Sample.member "42" Cases.new_year false 0
           (Service.initial None) []
           (fst (Cases.returned (Service.initial None, false)
                   (Service.crawl_body Sample.three_pages Sample.member "42" Cases.new_year
                      false 0 (Service.initial None) [])))).
  - intros tr. split; vm_compute; [discriminate | reflexivity].
  - vm_compute. reflexivity.
Defined.

(** X8. The time budget: when the loop, about to run its body, reads a
    clock more than 10000 ms past the start, it returns the local
    variables as they are; nothing is fetched any more. *)
Theorem crawl_time_budget :
  forall env this accountId untilDate onProgress fuel startTime s tr,
  Service.Session.reachedThreshold s = false ->
  clock env tr - startTime > Service.TIME_BUDGET ->
  Service.crawl env this accountId untilDate onProgress (S fuel) startTime s tr =
  (Returned s, EvNow (clock env tr) :: tr).
Proof.
  intros env this accountId untilDate onProgress fuel startTime s tr Hreached Hover.
  rewrite crawl_step, Hreached, crawl_body_timeout by exact Hover. reflexivity.
Qed.

Lemma crawl_time_budget_witness :
  Service.crawl Sample.three_pages Sample.member "42" Cases.new_year false 1 (-10001)
    (Service.initial None) [] =
  (Returned (Service.initial None), [EvNow 0]).
Proof.
  apply (crawl_time_budget Sample.three_pages Sample.member "42" Cases.new_year false 0
           (-10001) (Service.initial None) []).
  - reflexivity.
  - vm_compute. reflexivity.
Defined.

(** X9. A page fetch that throws aborts the whole loop with the same
    error: the posts gathered so far are not returned. *)
Theorem crawl_aborts_on_error :
  forall env this accountId untilDate onProgress fuel startTime s tr e tr2,
  Service.Session.reachedThreshold s = false ->
  clock env tr - startTime <= Service.TIME_BUDGET ->
  Service.getStatusesPage env this accountId (Service.Session.maxId s) 40
    (EvNow (clock env tr) :: tr) = (Thrown e, tr2) ->
  Service.crawl env this accountId untilDate onProgress (S fuel) startTime s tr =
  (Thrown e, tr2).
Proof.
  intros env this accountId untilDate onProgress fuel startTime s tr e tr2 Hreached Hin Hp.
  rewrite crawl_step, Hreached.
  unfold Service.crawl_body, bind, Date_now.
  replace (clock env tr - startTime >? Service.TIME_BUDGET) with false
    by (symmetry; rewrite Z.gtb_ltb; apply Z.ltb_ge; exact Hin).
  rewrite Hp. reflexivity.
Qed.

Lemma crawl_aborts_on_error_witness :
  exists e tr2,
    Service.crawl Sample.throttled Sample.member "42" Cases.new_year true 1 0
      Sample.at_nine [] = (Thrown e, tr2).
Proof.
  eexists. eexists.
  apply (crawl_aborts_on_error Sample.throttled Sample.member "42" Cases.new_year true 0 0
           Sample.at_nine []).
  - reflexivity.
  - vm_compute. discriminate.
  - vm_compute. reflexivity.
Defined.

(** ** The second copy is silent between pages *)

Lemma fetchApi_alt_quiet env this endpoint params useAuth tr :
  exists ev,
    snd (ServiceAlt.fetchApi env this endpoint params useAuth tr) = EvFetch (fst ev) (snd ev) :: tr.
Proof.
  rewrite fetchApi_alt_step. cbv zeta.
  destruct (respond env tr _) as [r | reason] eqn:E.
  - rewrite (settle_run r _ []). eexists (_, _). reflexivity.
  - eexists (_, _). reflexivity.
Qed.

Lemma getStatusesPage_alt_quiet env this accountId maxId limit tr :
  sleeps (snd (ServiceAlt.getStatusesPage env this accountId maxId limit tr)) = sleeps tr /\
  clock_readings (snd (ServiceAlt.getStatusesPage env this accountId maxId limit tr)) =
  clock_readings tr.
Proof.
  unfold ServiceAlt.getStatusesPage, try_catch, bind, ret, throw.
  destruct (fetchApi_alt_quiet env this ("accounts/" ++ accountId ++ "/statuses")%string
              (page_params maxId limit) true tr) as [ev1 H1].
  destruct (ServiceAlt.fetchApi env this _ _ true tr) as [[b | e |] tr1]; cbn [snd] in H1;
    subst tr1; cbn [snd fst]; try (split; reflexivity).
  destruct (status_is e 403 || status_is e 401); [| split; reflexivity].
  match goal with |- context [ServiceAlt.fetchApi env this ?ep ?ps false ?t] =>
    destruct (fetchApi_alt_quiet env this ep ps false t) as [ev2 H2];
    destruct (ServiceAlt.fetchApi env this ep ps false t) as [[b | e' |] tr2]
  end; cbn [snd] in H2; subst tr2; split; reflexivity.
Qed.

Lemma crawl_body_alt_quiet env this accountId untilDate onProgress s tr :
  sleeps (snd (ServiceAlt.crawl_body env this accountId untilDate onProgress s tr)) = sleeps tr /\
  clock_readings (snd (ServiceAlt.crawl_body env this accountId untilDate onProgress s tr)) =
  clock_readings tr.
Proof.
  unfold ServiceAlt.crawl_body, bind, ret, throw, progress.
  pose proof (getStatusesPage_alt_quiet env this accountId (ServiceAlt.Session.maxId s) 40 tr)
    as Hq.
  destruct (ServiceAlt.getStatusesPage env this accountId _ 40 tr) as [[page | e |] tr1];
    cbn [snd] in Hq; try exact Hq.
  destruct (as_array (Page.statuses page)) as [batch |]; [| exact Hq].
  destruct (len batch =? 0); [exact Hq |].
  destruct (nth_error batch _); [| exact Hq].
  destruct onProgress; cbn [snd]; destruct (_ >? 10000); exact Hq.
Qed.

Lemma crawl_alt_quiet env this accountId untilDate onProgress fuel : forall s tr,
  sleeps (snd (ServiceAlt.crawl env this accountId untilDate onProgress fuel s tr)) = sleeps tr /\
  clock_readings (snd (ServiceAlt.crawl env this accountId untilDate onProgress fuel s tr)) =
  clock_readings tr.
Proof.
  induction fuel as [| fuel IH]; intros s tr; [split; reflexivity |].
  cbn [ServiceAlt.crawl].
  destruct (_ && _); [| split; reflexivity].
  unfold bind.
  pose proof (crawl_body_alt_quiet env this accountId untilDate onProgress s tr) as Hq.
  destruct (ServiceAlt.crawl_body env this accountId untilDate onProgress s tr)
    as [[[s1 again] | e |] tr1]; cbn [snd fst] in *; try exact Hq.
  destruct again; [| exact Hq].
  destruct (IH s1 tr1) as [Hs Hc]. rewrite Hs, Hc. exact Hq.
Qed.

(** X10. The second copy of [getStatusesUntil] never sleeps and never
    reads the clock, whatever the server answers and however the call
    ends: its page requests follow one another without a pause, and no
    time budget ends it. *)
Theorem getStatusesUntil_alt_no_pause :
  forall env this accountId untilDate onProgress fuel startId tr,
  let run := ServiceAlt.getStatusesUntil env this accountId untilDate onProgress fuel startId tr in
  sleeps (snd run) = sleeps tr /\ clock_readings (snd run) = clock_readings tr.
Proof.
  intros env this accountId untilDate onProgress fuel startId tr run. subst run.
  unfold ServiceAlt.getStatusesUntil, ServiceAlt.getStatusesUntil_session, bind, ret.
  pose proof (crawl_alt_quiet env this accountId untilDate onProgress fuel
                (ServiceAlt.initial startId) tr) as Hq.
  destruct (ServiceAlt.crawl env this accountId untilDate onProgress fuel _ tr)
    as [[s | e |] tr1]; exact Hq.
Qed.

(** ** The other methods *)

(** X11. [searchStatuses] sends its request exactly once, whatever the
    answer: it neither sleeps nor sends a second request, so a 429 is
    not retried and a 401 or 403 is not tried again without the token.
    Any answer that is not ok gives the error "Search failed", and no
    error it throws has a [status]. *)
Theorem searchStatuses_single_request :
  forall env this statuses_field query username limit tr,
  let req := search_request this query username limit in
  let run := searchStatuses env this statuses_field query username limit tr in
  snd run = EvFetch req (respond env tr req) :: tr /\
  (forall r, respond env tr req = Responded r -> ok r = false ->
             fst run = Thrown (PlainError "Search failed")) /\
  (forall e, fst run = Thrown e -> error_status e = None) /\
  fst run <> OutOfFuel.
Proof.
  intros env this statuses_field query username limit tr req run. subst run.
  unfold searchStatuses, bind, fetch, throw, ret. fold req.
  destruct (respond env tr req) as [r | reason] eqn:Hres; cbn [fst snd].
  - destruct (ok r) eqn:Hok; cbn [negb fst snd].
    + destruct (body r); cbn [fst snd];
        (split; [reflexivity |]); (split; [intros r' Hr' Hok'; inversion Hr'; subst; congruence |]);
        (split; [| discriminate]); intros e He; inversion He; reflexivity.
    + split; [reflexivity |]. split; [reflexivity |].
      split; [| discriminate]. intros e He; inversion He; reflexivity.
  - split; [reflexivity |]. split; [intros r Hr; discriminate Hr |].
    split; [| discriminate]. intros e He; inversion He; reflexivity.
Qed.

Lemma substring_all (s : string) : substring 0 (String.length s) s = s.
Proof. induction s as [| c s IH]; [reflexivity |]. cbn. now rewrite IH. Qed.

Lemma strip_trailing_slash_app (s : string) :
  Js.strip_trailing_slash (s ++ "/") = s.
Proof.
  induction s as [| c s IH]; [reflexivity |].
  cbn [append]. cbn [Js.strip_trailing_slash]. rewrite IH.
  destruct s; reflexivity.
Qed.

Lemma strip_trailing_slash_keeps (s : string) (c : ascii) :
  c <> "/"%char -> Js.strip_trailing_slash (s ++ String c "") = (s ++ String c "")%string.
Proof.
  intros Hc. induction s as [| d s IH].
  - cbn. destruct (Ascii.eqb_spec c "/"); [contradiction | reflexivity].
  - cbn [append]. cbn [Js.strip_trailing_slash]. rewrite IH.
    destruct (s ++ String c "")%string eqn:E; [| reflexivity].
    destruct s; discriminate E.
Qed.

Lemma strip_scheme_https (h : string) : Js.strip_scheme ("https://" ++ h) = h.
Proof.
  unfold Js.strip_scheme. cbn.
  replace (prefix "" h) with true by (destruct h; reflexivity).
  rewrite Nat.sub_0_r. apply substring_all.
Qed.

Lemma strip_scheme_http (h : string) : Js.strip_scheme ("http://" ++ h) = h.
Proof.
  unfold Js.strip_scheme. cbn.
  replace (prefix "" h) with true by (destruct h; reflexivity).
  rewrite Nat.sub_0_r. apply substring_all.
Qed.

(** X12. The constructor reduces an address to its host: with or
    without one slash at the end, [https://h] and [http://h] give [h],
    whatever [h] is, and the token is kept as it is. *)
Theorem new_MastodonService_host :
  forall h token c,
  c <> "/"%char ->
  new_MastodonService ("https://" ++ h ++ "/") token = {| instance := h; token := token |} /\
  new_MastodonService ("http://" ++ h ++ "/") token = {| instance := h; token := token |} /\
  new_MastodonService ("https://" ++ h ++ String c "") token =
  {| instance := (h ++ String c "")%string; token := token |} /\
  new_MastodonService ("http://" ++ h ++ String c "") token =
  {| instance := (h ++ String c "")%string; token := token |} /\
  new_MastodonService (h ++ "/") token =
  {| instance := Js.strip_scheme h; token := token |}.
Proof.
  intros h token c Hc. unfold new_MastodonService.
  split; [| split; [| split; [| split]]].
  - change ("https://" ++ h ++ "/")%string with (("https://" ++ h) ++ "/")%string.
    rewrite strip_trailing_slash_app, strip_scheme_https. reflexivity.
  - change ("http://" ++ h ++ "/")%string with (("http://" ++ h) ++ "/")%string.
    rewrite strip_trailing_slash_app, strip_scheme_http. reflexivity.
  - change ("https://" ++ h ++ String c "")%string
      with (("https://" ++ h) ++ String c "")%string.
    rewrite strip_trailing_slash_keeps by exact Hc.
    change (("https://" ++ h) ++ String c "")%string
      with ("https://" ++ (h ++ String c ""))%string.
    rewrite strip_scheme_https. reflexivity.
  - change ("http://" ++ h ++ String c "")%string
      with (("http://" ++ h) ++ String c "")%string.
    rewrite strip_trailing_slash_keeps by exact Hc.
    change (("http://" ++ h) ++ String c "")%string
      with ("http://" ++ (h ++ String c ""))%string.
    rewrite strip_scheme_http. reflexivity.
  - rewrite strip_trailing_slash_app. reflexivity.
Qed.

Lemma new_MastodonService_host_witness :
  new_MastodonService ("https://" ++ "example.socia" ++ "/") (Some "secret") =
  {| instance := "example.socia"; token := Some "secret" |} /\
  new_MastodonService ("http://" ++ "example.socia" ++ "/") (Some "secret") =
  {| instance := "example.socia"; token := Some "secret" |} /\
  new_MastodonService ("https://" ++ "example.socia" ++ "l") (Some "secret") =
  {| instance := ("example.socia" ++ "l")%string; token := Some "secret" |} /\
  new_MastodonService ("http://" ++ "example.socia" ++ "l") (Some "secret") =
  {| instance := ("example.socia" ++ "l")%string; token := Some "secret" |} /\
  new_MastodonService ("example.socia" ++ "/") (Some "secret") =
  {| instance := Js.strip_scheme "example.socia"; token := Some "secret" |}.
Proof.
  apply (new_MastodonService_host "example.socia" (Some "secret") "l"%char).
  discriminate.
Defined.

Lemma searchStatuses_single_request_witness :
  fst (searchStatuses Sample.throttled Sample.member (fun _ => None) "tea" "alice" 20 []) =
  Thrown (PlainError "Search failed").
Proof.
  apply (proj1 (proj2 (searchStatuses_single_request
                         Sample.throttled Sample.member (fun _ => None) "tea" "alice" 20 []))
           {| status := 429; retry_after := Some "3"; body := BodyObject (Some "refused") |});
    reflexivity.
Defined.

(** X13. [verifyCredentials] (with a token) and [lookupAccount] do not
    fall back: an answer of 401 or 403 ends the call at once, after
    this one request, with an error that carries the status; when the
    body of the answer is [null] the error is a [TypeError], without
    status. *)
Theorem refusal_surfaces :
  forall env this username tr,
  (forall r,
     Js.truthy (token this) = true ->
     respond env tr (request this "accounts/verify_credentials" [] true) = Responded r ->
     status r = 401 \/ status r = 403 ->
     exists e,
       Service.verifyCredentials env this tr =
       (Thrown e,
        EvFetch (request this "accounts/verify_credentials" [] true) (Responded r) :: tr) /\
       (body r <> BodyNull -> exists msg, e = HttpError msg (status r)) /\
       (body r = BodyNull -> exists msg, e = TypeError msg)) /\
  (forall r,
     respond env tr (request this "accounts/lookup" [("acct", username)] true) = Responded r ->
     status r = 401 \/ status r = 403 ->
     exists e,
       lookupAccount env this username tr =
       (Thrown e,
        EvFetch (request this "accounts/lookup" [("acct", username)] true) (Responded r) :: tr) /\
       (body r <> BodyNull -> exists msg, e = HttpError msg (status r)) /\
       (body r = BodyNull -> exists msg, e = TypeError msg)).
Proof.
  intros env this username tr.
  assert (Hrefused : forall endpoint params r,
    respond env tr (request this endpoint params true) = Responded r ->
    status r = 401 \/ status r = 403 ->
    exists e,
      Service.fetchApi env this endpoint params true 0 tr =
      (Thrown e, EvFetch (request this endpoint params true) (Responded r) :: tr) /\
      (body r <> BodyNull -> exists msg, e = HttpError msg (status r)) /\
      (body r = BodyNull -> exists msg, e = TypeError msg)).
  { intros endpoint params r Hr Hs.
    rewrite fetchApi_step, Hr.
    replace (status r =? 429) with false by (symmetry; apply Z.eqb_neq; lia).
    cbn [andb].
    assert (Hok : ok r = false) by (unfold ok; destruct Hs as [-> | ->]; reflexivity).
    destruct (settle_not_ok r (EvFetch (request this endpoint params true) (Responded r) :: tr)
                Hok) as [Hhttp Hnull].
    destruct (body r) as [| err | l | a |] eqn:Hb.
    1-4: destruct Hhttp as (msg & _ & Hrun); [discriminate |];
      exists (HttpError msg (status r)); rewrite Hrun;
      (split; [reflexivity |]); (split; [eauto | discriminate]).
    destruct (Hnull eq_refl) as (msg & Hrun). exists (TypeError msg). rewrite Hrun.
    split; [reflexivity |]. split; [intros Hc; contradiction | eauto]. }
  split.
  - intros r Htoken Hres Hs. unfold Service.verifyCredentials. rewrite Htoken. cbn [negb].
    apply Hrefused; assumption.
  - intros r Hres Hs. unfold lookupAccount. apply Hrefused; assumption.
Qed.

Lemma refusal_surfaces_witness :
  (exists e,
     Service.verifyCredentials Sample.guarded Sample.member [] =
     (Thrown e,
      EvFetch (request Sample.member "accounts/verify_credentials" [] true)
        (Responded {| status := 401; retry_after := None;
                      body := BodyObject (Some "refused") |}) :: []) /\
     exists msg, e = HttpError msg 401) /\
  (exists e,
     lookupAccount Sample.guarded Sample.member "alice" [] =
     (Thrown e,
      EvFetch (request Sample.member "accounts/lookup" [("acct", "alice")] true)
        (Responded {| status := 401; retry_after := None;
                      body := BodyObject (Some "refused") |}) :: []) /\
     exists msg, e = HttpError msg 401).
Proof.
  destruct (refusal_surfaces Sample.guarded Sample.member "alice" []) as [Hverify Hlookup].
  split.
  - destruct (Hverify {| status := 401; retry_after := None;
                         body := BodyObject (Some "refused") |}
                eq_refl eq_refl (or_introl eq_refl)) as (e & Hrun & Hhttp & _).
    exists e. split; [exact Hrun |]. apply Hhttp. discriminate.
  - destruct (Hlookup {| status := 401; retry_after := None;
                         body := BodyObject (Some "refused") |}
                eq_refl (or_introl eq_refl)) as (e & Hrun & Hhttp & _).
    exists e. split; [exact Hrun |]. apply Hhttp. discriminate.
Defined.

(** ** The handlers of [src/App.tsx] *)

Lemma getStatusesUntil_terminates env this accountId untilDate onProgress fuel startId tr :
  (126 <= fuel)%nat ->
  fst (Service.getStatusesUntil env this accountId untilDate onProgress fuel startId tr)
  <> OutOfFuel.
Proof.
  intros Hfuel. rewrite getStatusesUntil_run, getStatusesUntil_session_start.
  destruct (crawl_enough env this accountId untilDate onProgress fuel 126 (clock env tr)
              (Service.initial startId) (EvNow (clock env tr) :: tr))
    as (_ & Hout & _);
    cbn [Service.initial Service.Session.totalFetched]; try lia.
  destruct (Service.crawl env this accountId untilDate onProgress fuel (clock env tr)
              (Service.initial startId) (EvNow (clock env tr) :: tr))
    as [[s | e |] tr1]; cbn [fst] in *; [discriminate | discriminate | contradiction].
Qed.

Lemma called_app tr tr' l : reports tr' = reports tr ++ l -> App.called tr tr' = l.
Proof.
  intros H. unfold App.called. rewrite H.
  rewrite skipn_app, skipn_all, Nat.sub_diag. reflexivity.
Qed.

Lemma nullable_some acc : acc <> BodyNull -> App.nullable acc = Some acc.
Proof. intros H. destruct acc; try reflexivity. contradiction. Qed.

(** X14. [handleFetchAllHistory], once past its guard (a service, an
    account that is not [null], no loading under way), always comes to
    an end, and whatever happened its first call is [setIsLoading(true)]
    and its last [setIsLoading(false)].  When the fetch failed, all it
    does in between is to show counts and then the error message: the
    statuses and the cursor are left as they were, and there is no
    logout, whatever the status of the error. *)
Theorem handleFetchAllHistory_settles :
  forall env fuel v service acc tr,
  (126 <= fuel)%nat ->
  App.mastodonService v = Some service ->
  App.account v = Some acc ->
  acc <> BodyNull ->
  App.isLoading v = false ->
  let fetch := Service.getStatusesUntil env service (App.id_of acc) (Some 0) true fuel
                 (App.lastId v) tr in
  exists middle,
    App.handleFetchAllHistory env fuel v tr =
    (Returned ([App.setIsLoading true] ++ middle ++ [App.setIsLoading false]), snd fetch) /\
    (forall e, fst fetch = Thrown e ->
       exists counts,
         middle = map App.setFetchCount counts ++ [App.setError (Some "获取全部历史失败")]).
Proof.
  intros env fuel v service acc tr Hfuel Hservice Hacc Hnotnull Hidle fetch.
  pose proof (getStatusesUntil_terminates env service (App.id_of acc) (Some 0) true fuel
                (App.lastId v) tr Hfuel) as Hend.
  unfold App.handleFetchAllHistory, App.opt_nullable.
  rewrite Hservice, Hacc, (nullable_some acc Hnotnull), Hidle.
  fold fetch in Hend |- *.
  destruct fetch as [[r | e |] tr'] eqn:Hfetch; cbn [fst snd] in *.
  - exists (map (fun count => App.setFetchCount (len (App.statuses v) + count))
              (App.called tr tr')
            ++ [App.setStatuses_append (Result.statuses r); App.setLastId (Result.lastId r)]
            ++ (if Result.fellBack r then [App.setHasReadStatuses false] else [])).
    split; [rewrite <- !app_assoc; reflexivity |]. intros e He. discriminate He.
  - exists (map (fun count => App.setFetchCount (len (App.statuses v) + count))
              (App.called tr tr')
            ++ [App.setError (Some "获取全部历史失败")]).
    split; [rewrite <- !app_assoc; reflexivity |].
    intros e' _. exists (map (fun count => len (App.statuses v) + count) (App.called tr tr')).
    rewrite map_map. reflexivity.
  - contradiction.
Qed.

Lemma handleFetchAllHistory_settles_witness :
  exists middle,
    App.handleFetchAllHistory Sample.throttled 126 Views.fresh [] =
    (Returned ([App.setIsLoading true] ++ middle ++ [App.setIsLoading false]),
     snd (Service.getStatusesUntil Sample.throttled Sample.member
            (App.id_of (BodyAccount Sample.nobody)) (Some 0) true 126
            (App.lastId Views.fresh) [])) /\
    (forall e,
       fst (Service.getStatusesUntil Sample.throttled Sample.member
              (App.id_of (BodyAccount Sample.nobody)) (Some 0) true 126
              (App.lastId Views.fresh) []) = Thrown e ->
       exists counts,
         middle = map App.setFetchCount counts ++ [App.setError (Some "获取全部历史失败")]).
Proof.
  apply (handleFetchAllHistory_settles Sample.throttled 126 Views.fresh Sample.member
           (BodyAccount Sample.nobody) []).
  - lia.
  - reflexivity.
  - reflexivity.
  - discriminate.
  - reflexivity.
Defined.

(** X15. [handleFetchAllHistory] when the fetch returns: the posts
    appended are the non-reblogs of the pages delivered, in their
    order; after each non-empty page the count shown is the number of
    statuses of the render plus the number kept so far, so that the last
    count shown is the length of the list after the append; the
    reading flag is lowered exactly when the server answered 401 or
    403 to a request. *)
Theorem handleFetchAllHistory_appends :
  forall env fuel v service acc tr r tr',
  App.mastodonService v = Some service ->
  App.account v = Some acc ->
  acc <> BodyNull ->
  App.isLoading v = false ->
  Service.getStatusesUntil env service (App.id_of acc) (Some 0) true fuel (App.lastId v) tr =
  (Returned r, tr') ->
  exists fetched,
    pages tr' = pages tr ++ fetched /\
    App.handleFetchAllHistory env fuel v tr =
    (Returned ([App.setIsLoading true]
               ++ map (fun kept => App.setFetchCount (len (App.statuses v) + kept))
                    (running 0 fetched)
               ++ [App.setStatuses_append (filter not_reblog (List.concat fetched));
                   App.setLastId (Result.lastId r)]
               ++ (if refusals tr <? refusals tr' then [App.setHasReadStatuses false] else [])
               ++ [App.setIsLoading false]), tr') /\
    (running 0 fetched <> [] ->
     len (App.statuses v) + last (running 0 fetched) 0 =
     len (App.statuses v ++ filter not_reblog (List.concat fetched))).
Proof.
  intros env fuel v service acc tr r tr' Hservice Hacc Hnotnull Hidle Hfetch.
  pose proof Hfetch as He. apply getStatusesUntil_effects in He
    as (fetched & Hp & Hst & _ & _ & _ & Hfb & Hrep & _).
  exists fetched. split; [exact Hp |]. split.
  - unfold App.handleFetchAllHistory, App.opt_nullable.
    rewrite Hservice, Hacc, (nullable_some acc Hnotnull), Hidle, Hfetch.
    rewrite (called_app _ _ _ Hrep), Hst.
    replace (refusals tr <? refusals tr') with (Result.fellBack r); [reflexivity |].
    destruct (Result.fellBack r) eqn:Hr.
    + symmetry. apply Z.ltb_lt. apply Hfb. reflexivity.
    + symmetry. apply Z.ltb_ge. destruct (Z_lt_le_dec (refusals tr) (refusals tr')) as [Hlt | Hle];
        [apply Hfb in Hlt; discriminate Hlt | exact Hle].
  - intros Hne. rewrite running_last by exact Hne. rewrite len_app. lia.
Qed.

Lemma handleFetchAllHistory_appends_witness :
  exists fetched,
    pages (snd (Service.getStatusesUntil Sample.three_pages Sample.member "1" (Some 0) true 126
                  (Some "40") [])) = pages [] ++ fetched /\
    App.handleFetchAllHistory Sample.three_pages 126 Views.browsing [] =
    (Returned ([App.setIsLoading true]
               ++ map (fun kept => App.setFetchCount (len (App.statuses Views.browsing) + kept))
                    (running 0 fetched)
               ++ [App.setStatuses_append (filter not_reblog (List.concat fetched));
                   App.setLastId
                     (Result.lastId
                        (Cases.returned Cases.no_result
                           (Service.getStatusesUntil Sample.three_pages Sample.member "1"
                              (Some 0) true 126 (Some "40") [])))]
               ++ (if refusals [] <?
                      refusals (snd (Service.getStatusesUntil Sample.three_pages Sample.member
                                       "1" (Some 0) true 126 (Some "40") []))
                   then [App.setHasReadStatuses false] else [])
               ++ [App.setIsLoading false]),
     snd (Service.getStatusesUntil Sample.three_pages Sample.member "1" (Some 0) true 126
            (Some "40") [])) /\
    (running 0 fetched <> [] ->
     len (App.statuses Views.browsing) + last (running 0 fetched) 0 =
     len (App.statuses Views.browsing ++ filter not_reblog (List.concat fetched))).
Proof.
  apply (handleFetchAllHistory_appends Sample.three_pages 126 Views.browsing Sample.member
           (BodyAccount Sample.nobody) []).
  - reflexivity.
  - reflexivity.
  - discriminate.
  - reflexivity.
  - vm_compute. reflexivity.
Defined.

(** X16. [fetchInitialData] when the server answers 401 or 403 to
    [verify_credentials]: this one request is all that is sent; the
    message of the error is shown; a 401 logs out and a 403 does not.
    When the body of the answer is [null] the error is a [TypeError]
    without status: its message is shown and there is no logout, not
    even on a 401. *)
Theorem fetchInitialData_rejected :
  forall env years_before months_before syntax_message fuel v a tr r,
  App.auth v = Some a ->
  Js.truthy (App.auth_token a) = true ->
  let service := new_MastodonService (App.auth_instance a) (App.auth_token a) in
  let req := request service "accounts/verify_credentials" [] true in
  respond env tr req = Responded r ->
  status r = 401 \/ status r = 403 ->
  exists msg,
    msg <> ""%string /\
    App.fetchInitialData env years_before months_before syntax_message fuel v tr =
    (Returned ([App.setIsLoading true; App.setFetchCount 0; App.setError None;
                App.setError (Some msg)]
               ++ match body r with
                  | BodyNull => []
                  | _ => if status r =? 401 then App.handleLogout else []
                  end
               ++ [App.setIsLoading false]),
     EvFetch req (Responded r) :: tr).
Proof.
  intros env years_before months_before syntax_message fuel v a tr r Hauth Htoken
         service req Hres Hstatus.
  assert (Hok : ok r = false) by (unfold ok; destruct Hstatus as [-> | ->]; reflexivity).
  destruct (settle_not_ok r (EvFetch req (Responded r) :: tr) Hok) as [Hhttp Hnull].
  assert (Hrun : forall e,
            settle r (EvFetch req (Responded r) :: tr) =
            (Thrown e, EvFetch req (Responded r) :: tr) ->
            App.fetchInitialData env years_before months_before syntax_message fuel v tr =
            (Returned ([App.setIsLoading true; App.setFetchCount 0; App.setError None]
                       ++ App.initial_failure syntax_message e
                       ++ [App.setIsLoading false]),
             EvFetch req (Responded r) :: tr)).
  { intros e Hsettle.
    unfold App.fetchInitialData, App.mastodonService. rewrite Hauth. fold service.
    unfold Service.verifyCredentials. cbn [token new_MastodonService service].
    rewrite Htoken. cbn [negb].
    rewrite fetchApi_step. fold service. fold req. rewrite Hres.
    replace (status r =? 429) with false by (symmetry; apply Z.eqb_neq; lia).
    cbn [andb]. rewrite Hsettle. reflexivity. }
  destruct (body r) as [| err | l | acc |] eqn:Hb.
  1-4: destruct Hhttp as (msg & Hmsg & Hsettle); [discriminate |];
    exists msg; (split; [exact Hmsg |]); rewrite (Hrun _ Hsettle);
    unfold App.initial_failure, status_is; cbn [App.message error_status];
    destruct msg as [| c msg']; [contradiction |]; cbn [Js.truthy]; reflexivity.
  destruct (Hnull eq_refl) as (msg & Hsettle).
  pose proof Hsettle as Hmsg. unfold settle, throw in Hmsg. rewrite Hok, Hb in Hmsg.
  cbn [negb] in Hmsg. inversion Hmsg; subst msg.
  eexists. split; [| rewrite (Hrun _ Hsettle); reflexivity]. discriminate.
Qed.

Lemma fetchInitialData_rejected_witness :
  exists msg,
    msg <> ""%string /\
    App.fetchInitialData Sample.guarded (Views.back 360) (Views.back 30) "Unexpected token"
      126 Views.fresh [] =
    (Returned ([App.setIsLoading true; App.setFetchCount 0; App.setError None;
                App.setError (Some msg)]
               ++ match body {| status := 401; retry_after := None;
                                body := BodyObject (Some "refused") |} with
                  | BodyNull => []
                  | _ => if status {| status := 401; retry_after := None;
                                      body := BodyObject (Some "refused") |} =? 401
                         then App.handleLogout else []
                  end
               ++ [App.setIsLoading false]),
     EvFetch (request (new_MastodonService (App.auth_instance Views.login)
                         (App.auth_token Views.login))
                "accounts/verify_credentials" [] true)
       (Responded {| status := 401; retry_after := None;
                     body := BodyObject (Some "refused") |}) :: []).
Proof.
  apply (fetchInitialData_rejected Sample.guarded (Views.back 360) (Views.back 30)
           "Unexpected token" 126 Views.fresh Views.login []).
  - reflexivity.
  - reflexivity.
  - reflexivity.
  - left. reflexivity.
Defined.

(** X17. [fetchInitialData] with stored credentials that hold no token:
    no request is sent; the message of [verifyCredentials] is shown and
    the credentials are kept, as the error has no status. *)
Theorem fetchInitialData_without_token :
  forall env years_before months_before syntax_message fuel v a tr,
  App.auth v = Some a ->
  Js.truthy (App.auth_token a) = false ->
  App.fetchInitialData env years_before months_before syntax_message fuel v tr =
  (Returned [App.setIsLoading true; App.setFetchCount 0; App.setError None;
             App.setError (Some "Token required for verifyCredentials");
             App.setIsLoading false],
   tr).
Proof.
  intros env years_before months_before syntax_message fuel v a tr Hauth Htoken.
  unfold App.fetchInitialData, App.mastodonService. rewrite Hauth.
  unfold Service.verifyCredentials. cbn [token new_MastodonService].
  rewrite Htoken. reflexivity.
Qed.

Lemma fetchInitialData_without_token_witness :
  App.fetchInitialData Sample.guarded (Views.back 360) (Views.back 30) "Unexpected token"
    126 Views.tokenless [] =
  (Returned [App.setIsLoading true; App.setFetchCount 0; App.setError None;
             App.setError (Some "Token required for verifyCredentials");
             App.setIsLoading false],
   []).
Proof.
  apply (fetchInitialData_without_token Sample.guarded (Views.back 360) (Views.back 30)
           "Unexpected token" 126 Views.tokenless
           {| App.auth_instance := "mastodon.social"; App.auth_token := None |} []).
  - reflexivity.
  - reflexivity.
Defined.

Lemma with_id_some {A} acc (f : string -> M A) :
  acc <> BodyNull -> App.with_id acc f = f (App.id_of acc).
Proof. intros H. destruct acc; try reflexivity. contradiction. Qed.

(** X18. [fetchInitialData] when the credentials are accepted, with an
    account that is not [null], and the fetch returns: the statuses are replaced by the non-reblogs of the
    pages delivered, in their order; the count shown after each
    non-empty page is the number kept so far, the last one being the
    number of statuses shown; the reading flag stays up exactly when
    no request of the fetch was answered 401 or 403. *)
Theorem fetchInitialData_shows :
  forall env years_before months_before syntax_message fuel v a tr acc tr1 r tr3,
  App.auth v = Some a ->
  let service := new_MastodonService (App.auth_instance a) (App.auth_token a) in
  Service.verifyCredentials env service tr = (Returned acc, tr1) ->
  acc <> BodyNull ->
  let now := clock env tr1 in
  let thresholdDate :=
    if App.fetchAllOnStart v then years_before 20 now else months_before 3 now in
  Service.getStatusesUntil env service (App.id_of acc) thresholdDate true fuel None
    (EvNow now :: tr1) = (Returned r, tr3) ->
  exists fetched,
    pages tr3 = pages tr1 ++ fetched /\
    App.fetchInitialData env years_before months_before syntax_message fuel v tr =
    (Returned ([App.setIsLoading true; App.setFetchCount 0; App.setError None;
                App.setAccount (Some acc)]
               ++ map App.setFetchCount (running 0 fetched)
               ++ [App.setStatuses (filter not_reblog (List.concat fetched));
                   App.setLastId (Result.lastId r);
                   App.setHasReadStatuses (refusals tr1 =? refusals tr3)]
               ++ [App.setIsLoading false]), tr3) /\
    (running 0 fetched <> [] ->
     last (running 0 fetched) 0 = len (filter not_reblog (List.concat fetched))).
Proof.
  intros env years_before months_before syntax_message fuel v a tr acc tr1 r tr3 Hauth
         service Hverify Hnotnull now thresholdDate Hfetch.
  pose proof Hfetch as He. apply getStatusesUntil_effects in He
    as (fetched & Hp & Hst & _ & _ & Hle & Hfb & Hrep & _).
  cbn [pages page_of refusals] in Hp, Hle, Hfb. rewrite app_nil_r in Hp.
  exists fetched. split; [exact Hp |]. split.
  - unfold App.fetchInitialData, App.mastodonService. rewrite Hauth. fold service.
    rewrite Hverify. fold now. fold thresholdDate.
    rewrite (with_id_some acc _ Hnotnull), Hfetch, (nullable_some acc Hnotnull).
    rewrite (called_app _ _ _ Hrep), Hst.
    replace (refusals tr1 =? refusals tr3) with (negb (Result.fellBack r)); [reflexivity |].
    destruct (Result.fellBack r) eqn:Hr; cbn [negb]; symmetry.
    + apply Z.eqb_neq. assert (refusals tr1 < refusals tr3) by (apply Hfb; reflexivity). lia.
    + apply Z.eqb_eq.
      destruct (Z_lt_le_dec (refusals tr1) (refusals tr3)) as [Hlt | Hge];
        [apply Hfb in Hlt; discriminate Hlt | lia].
  - intros Hne. rewrite running_last by exact Hne. lia.
Qed.

Lemma fetchInitialData_shows_witness :
  exists fetched,
    pages (snd (Views.shown (Views.back 30 3 0))) = pages Views.verified ++ fetched /\
    App.fetchInitialData Views.welcoming (Views.back 360) (Views.back 30) "Unexpected token"
      126 Views.fresh [] =
    (Returned ([App.setIsLoading true; App.setFetchCount 0; App.setError None;
                App.setAccount (Some (BodyAccount Sample.nobody))]
               ++ map App.setFetchCount (running 0 fetched)
               ++ [App.setStatuses (filter not_reblog (List.concat fetched));
                   App.setLastId
                     (Result.lastId
                        (Cases.returned Cases.no_result (Views.shown (Views.back 30 3 0))));
                   App.setHasReadStatuses
                     (refusals Views.verified =?
                      refusals (snd (Views.shown (Views.back 30 3 0))))]
               ++ [App.setIsLoading false]),
     snd (Views.shown (Views.back 30 3 0))) /\
    (running 0 fetched <> [] ->
     last (running 0 fetched) 0 = len (filter not_reblog (List.concat fetched))).
Proof.
  apply (fetchInitialData_shows Views.welcoming (Views.back 360) (Views.back 30)
           "Unexpected token" 126 Views.fresh Views.login []
           (BodyAccount Sample.nobody) Views.verified
           (Cases.returned Cases.no_result (Views.shown (Views.back 30 3 0)))
           (snd (Views.shown (Views.back 30 3 0)))).
  - reflexivity.
  - vm_compute. reflexivity.
  - discriminate.
  - vm_compute. reflexivity.
Defined.

(** ** Values computed from the statuses *)

Lemma strip_tags_clean b s : App.occurs "<" (App.strip_tags b s) = false.
Proof.
  revert b. induction s as [| c s IH]; intros b; [destruct b; reflexivity |].
  cbn [App.strip_tags]. destruct b.
  - destruct (Ascii.eqb c ">"); apply IH.
  - destruct (Ascii.eqb c "<") eqn:E; [apply IH |].
    cbn [App.occurs]. rewrite E. apply IH.
Qed.

Lemma strip_tags_text s : App.occurs "<" s = false -> App.strip_tags false s = s.
Proof.
  induction s as [| c s IH]; [reflexivity |]. cbn [App.occurs App.strip_tags].
  intros H. apply orb_false_iff in H as [Hc Hs]. rewrite Hc, IH by exact Hs. reflexivity.
Qed.

Lemma strip_tags_app a s :
  App.occurs "<" a = false -> App.strip_tags false (a ++ s) = (a ++ App.strip_tags false s)%string.
Proof.
  induction a as [| c a IH]; [reflexivity |]. cbn [App.occurs append App.strip_tags].
  intros H. apply orb_false_iff in H as [Hc Ha]. rewrite Hc, IH by exact Ha. reflexivity.
Qed.

Lemma strip_tags_inside t s :
  App.occurs ">" t = false ->
  App.strip_tags true (t ++ String ">" s) = App.strip_tags false s /\
  App.strip_tags true t = ""%string.
Proof.
  induction t as [| c t IH]; [split; reflexivity |]. cbn [App.occurs append App.strip_tags].
  intros H. apply orb_false_iff in H as [Hc Ht]. rewrite Hc. apply IH. exact Ht.
Qed.

(** X19. The text the search box is matched against,
    [content.replace(/<[^>]*>?/gm, "")]: no [<] is left in it; a content
    without [<] is kept as it is; a tag is removed with all that is
    between its [<] and the next [>], and a [<] that is never closed
    takes the rest of the content with it. *)
Theorem plainContent_strips :
  forall s text tag rest,
  App.occurs "<" text = false ->
  App.occurs ">" tag = false ->
  App.occurs "<" (App.plainContent s) = false /\
  (content s = text -> App.plainContent s = text) /\
  (content s = (text ++ "<" ++ tag ++ ">" ++ rest)%string ->
   App.plainContent s = (text ++ App.strip_tags false rest)%string) /\
  (content s = (text ++ "<" ++ tag)%string -> App.plainContent s = text).
Proof.
  intros s text tag rest Htext Htag. unfold App.plainContent.
  split; [apply strip_tags_clean |].
  split; [intros ->; apply strip_tags_text; exact Htext |].
  split; intros ->; rewrite strip_tags_app by exact Htext; cbn [append App.strip_tags Ascii.eqb];
    cbn.
  - destruct (strip_tags_inside tag rest Htag) as [H _].
    cbn [append] in H. rewrite H. reflexivity.
  - destruct (strip_tags_inside tag "" Htag) as [_ H]. rewrite H.
    clear. induction text as [| c t IH]; [reflexivity |]. cbn. now rewrite IH.
Qed.

Lemma plainContent_strips_witness :
  App.occurs "<" (App.plainContent (Views.toot "tea <b>time</b> now")) = false /\
  (content (Views.toot "tea <b>time</b> now") = "tea "%string ->
   App.plainContent (Views.toot "tea <b>time</b> now") = "tea "%string) /\
  (content (Views.toot "tea <b>time</b> now") = ("tea " ++ "<" ++ "b" ++ ">" ++ "time</b> now")%string ->
   App.plainContent (Views.toot "tea <b>time</b> now") =
   ("tea " ++ App.strip_tags false "time</b> now")%string) /\
  (content (Views.toot "tea <b>time</b> now") = ("tea " ++ "<" ++ "b")%string ->
   App.plainContent (Views.toot "tea <b>time</b> now") = "tea "%string).
Proof.
  apply (plainContent_strips (Views.toot "tea <b>time</b> now") "tea " "b" "time</b> now").
  - reflexivity.
  - reflexivity.
Defined.

(** *** The counts per day *)

Lemma lookup_store c k v k' :
  App.lookup (App.store c k v) k' = if String.eqb k k' then Some v else App.lookup c k'.
Proof.
  induction c as [| [k0 v0] c IH]; cbn [App.store App.lookup].
  - destruct (String.eqb k k'); reflexivity.
  - destruct (String.eqb_spec k0 k) as [-> | Hne]; cbn [App.lookup].
    + destruct (String.eqb k k'); reflexivity.
    + rewrite IH. destruct (String.eqb_spec k0 k') as [-> | Hne'].
      * destruct (String.eqb_spec k k'); [congruence | reflexivity].
      * reflexivity.
Qed.

Lemma lookup_absent c k : App.lookup c k = None -> ~ In k (map fst c).
Proof.
  induction c as [| [k0 v0] c IH]; cbn [App.lookup map fst In]; [tauto |].
  destruct (String.eqb_spec k0 k) as [-> | Hne]; [discriminate |].
  intros H [Heq | Hin]; [contradiction | apply (IH H Hin)].
Qed.

Lemma lookup_present c k v : In (k, v) c -> NoDup (map fst c) -> App.lookup c k = Some v.
Proof.
  induction c as [| [k0 v0] c IH]; cbn [App.lookup map fst In]; [tauto |].
  intros [Heq | Hin] Hnd; inversion Hnd; subst.
  - inversion Heq; subst. now rewrite String.eqb_refl.
  - destruct (String.eqb_spec k0 k) as [-> | Hne]; [| apply IH; assumption].
    exfalso. apply H1. change k with (fst (k, v)). apply in_map. exact Hin.
Qed.

Lemma lookup_found c k v : App.lookup c k = Some v -> In (k, v) c.
Proof.
  induction c as [| [k0 v0] c IH]; cbn [App.lookup In]; [discriminate |].
  destruct (String.eqb_spec k0 k) as [-> | Hne].
  - intros H; inversion H; subst. left. reflexivity.
  - intros H. right. apply IH. exact H.
Qed.

Lemma store_keys c k v :
  map fst (App.store c k v) =
  match App.lookup c k with
  | Some _ => map fst c
  | None => map fst c ++ [k]
  end.
Proof.
  induction c as [| [k0 v0] c IH]; cbn [App.store App.lookup map fst app]; [reflexivity |].
  destruct (String.eqb_spec k0 k) as [-> | Hne]; cbn [map fst]; [reflexivity |].
  rewrite IH. destruct (App.lookup c k); reflexivity.
Qed.

Lemma store_NoDup c k v : NoDup (map fst c) -> NoDup (map fst (App.store c k v)).
Proof.
  intros Hnd. rewrite store_keys. destruct (App.lookup c k) eqn:E; [exact Hnd |].
  apply lookup_absent in E.
  apply NoDup_app; [exact Hnd | repeat constructor; intros [] | ].
  intros x Hx [<- | []]. contradiction.
Qed.

Lemma store_total c k :
  fold_right Z.add 0 (map snd (App.store c k (App.or_zero (App.lookup c k) + 1))) =
  fold_right Z.add 0 (map snd c) + 1.
Proof.
  induction c as [| [k0 v0] c IH]; cbn [App.store App.lookup map snd fold_right App.or_zero];
    [reflexivity |].
  destruct (String.eqb_spec k0 k) as [-> | Hne]; cbn [map snd fold_right App.or_zero].
  - destruct (Z.eqb_spec v0 0); lia.
  - rewrite IH. lia.
Qed.

Lemma tally_snoc d l s :
  App.tally d (l ++ [s]) = App.tally d l + (if App.on_day d s then 1 else 0).
Proof.
  unfold App.tally. rewrite filter_app, len_app. cbn [filter].
  destruct (App.on_day d s); unfold len; cbn [List.length]; lia.
Qed.

Lemma tally_nonneg d l : 0 <= App.tally d l.
Proof. unfold App.tally, len. lia. Qed.

Lemma tallied_step counts seen s :
  App.tallied counts seen ->
  Js.truthy (Some (created_at s)) = true ->
  App.tallied (App.store counts (App.before_T (created_at s))
             (App.or_zero (App.lookup counts (App.before_T (created_at s))) + 1))
          (seen ++ [s]).
Proof.
  intros (Hnd & Hlook & Hsum) Hdated. split; [apply store_NoDup; exact Hnd |]. split.
  - intros k. rewrite lookup_store, !tally_snoc.
    assert (Hon : App.on_day k s = String.eqb (App.before_T (created_at s)) k)
      by (unfold App.on_day; rewrite Hdated; reflexivity).
    rewrite !Hon. pose proof (tally_nonneg k seen) as Hk.
    destruct (String.eqb_spec (App.before_T (created_at s)) k) as [-> | Hne].
    + rewrite Hlook.
      destruct (Z.eqb_spec (App.tally k seen + 1) 0) as [E1 | E1]; [lia |].
      destruct (Z.eqb_spec (App.tally k seen) 0) as [E | E]; cbn [App.or_zero].
      * rewrite E. reflexivity.
      * destruct (Z.eqb_spec (App.tally k seen) 0); [contradiction | reflexivity].
    + rewrite !Z.add_0_r. apply Hlook.
  - rewrite store_total, Hsum, filter_app, len_app. cbn [filter]. rewrite Hdated.
    unfold len. cbn [List.length]. lia.
Qed.

Lemma tallied_skip counts seen s :
  App.tallied counts seen ->
  Js.truthy (Some (created_at s)) = false ->
  App.tallied counts (seen ++ [s]).
Proof.
  intros (Hnd & Hlook & Hsum) Hdated. split; [exact Hnd |]. split.
  - intros k. rewrite !tally_snoc.
    assert (Hon : App.on_day k s = false) by (unfold App.on_day; rewrite Hdated; reflexivity).
    rewrite !Hon, !Z.add_0_r. apply Hlook.
  - rewrite Hsum, filter_app, len_app. cbn [filter]. rewrite Hdated.
    unfold len. cbn [List.length]. lia.
Qed.

Lemma activityData_loop statuses : forall counts seen result,
  App.tallied counts seen ->
  fold_left
    (fun counts s =>
       match counts with
       | None => None
       | Some counts =>
           if negb (Js.truthy (Some (created_at s))) then Some counts else
           let date := App.before_T (created_at s) in
           if App.plain_key date
           then Some (App.store counts date (App.or_zero (App.lookup counts date) + 1))
           else None
       end)
    statuses (Some counts) = Some result ->
  App.tallied result (seen ++ statuses).
Proof.
  induction statuses as [| s statuses IH]; intros counts seen result Hinv.
  - cbn [fold_left]. intros H; inversion H; subst. rewrite app_nil_r. exact Hinv.
  - cbn [fold_left].
    change (seen ++ s :: statuses) with (seen ++ [s] ++ statuses). rewrite app_assoc.
    destruct (Js.truthy (Some (created_at s))) eqn:Hdated; cbn [negb].
    + cbv zeta. destruct (App.plain_key (App.before_T (created_at s))).
      * apply IH. apply tallied_step; assumption.
      * intros H. exfalso. clear -H.
        induction statuses as [| s' l IHl]; cbn [fold_left] in H; [discriminate | auto].
    + apply IH. apply tallied_skip; assumption.
Qed.

(** X20. [activityData], whenever every day met is a plain key: each
    day is listed once; the count listed for a day is the number of
    statuses of that day, and is not zero; every status with a date has
    its day listed; the counts add up to the number of statuses with a
    date. *)
Theorem activityData_counts :
  forall statuses data,
  App.activityData statuses = Some data ->
  NoDup (map App.date data) /\
  (forall e, In e data ->
     App.count e = App.tally (App.date e) statuses /\ 0 < App.count e) /\
  (forall s, In s statuses -> Js.truthy (Some (created_at s)) = true ->
     In (App.before_T (created_at s)) (map App.date data)) /\
  fold_right Z.add 0 (map App.count data) =
  len (filter (fun s => Js.truthy (Some (created_at s))) statuses).
Proof.
  intros statuses data. unfold App.activityData.
  match goal with |- match ?f with _ => _ end = _ -> _ => destruct f as [counts |] eqn:Hloop end;
    [| discriminate].
  intros H; inversion H; subst. clear H.
  apply (activityData_loop statuses [] []) in Hloop.
  2:{ split; [constructor |]. split; [intros k; reflexivity | reflexivity]. }
  cbn [app] in Hloop. destruct Hloop as (Hnd & Hlook & Hsum).
  rewrite !map_map. cbn [App.date App.count].
  assert (Hentry : forall k v, In (k, v) counts -> v = App.tally k statuses /\ 0 < v).
  { intros k v Hin. apply lookup_present in Hin; [| exact Hnd].
    rewrite Hlook in Hin. pose proof (tally_nonneg k statuses).
    destruct (Z.eqb_spec (App.tally k statuses) 0); inversion Hin; subst. split; [reflexivity | lia]. }
  split; [exact Hnd |]. split; [| split; [| exact Hsum]].
  - intros e Hin. apply in_map_iff in Hin as ([k v] & <- & Hin). cbn [App.date App.count fst snd].
    apply Hentry. exact Hin.
  - intros s Hin Hdated.
    assert (Hpos : 0 < App.tally (App.before_T (created_at s)) statuses).
    { apply in_split in Hin as (l1 & l2 & ->). unfold App.tally.
      rewrite filter_app, len_app. cbn [filter]. unfold App.on_day at 2.
      rewrite Hdated, String.eqb_refl. cbn [andb]. unfold len. cbn [List.length]. lia. }
    specialize (Hlook (App.before_T (created_at s))).
    destruct (Z.eqb_spec (App.tally (App.before_T (created_at s)) statuses) 0); [lia |].
    apply lookup_found in Hlook. change (App.before_T (created_at s))
      with (fst (App.before_T (created_at s), App.tally (App.before_T (created_at s)) statuses)).
    apply in_map. exact Hlook.
Qed.

Lemma activityData_counts_witness :
  NoDup (map App.date [{| App.date := "2023-03-02"; App.count := 1 |};
                       {| App.date := "2023-03-01"; App.count := 2 |}]) /\
  (forall e, In e [{| App.date := "2023-03-02"; App.count := 1 |};
                   {| App.date := "2023-03-01"; App.count := 2 |}] ->
     App.count e =
     App.tally (App.date e)
       [Sample.post "3" "2023-03-02T08:00:00.000Z" false;
        Sample.post "2" "2023-03-01T21:30:00.000Z" false;
        Sample.post "1" "2023-03-01T07:00:00.000Z" false] /\
     0 < App.count e) /\
  (forall s, In s [Sample.post "3" "2023-03-02T08:00:00.000Z" false;
                   Sample.post "2" "2023-03-01T21:30:00.000Z" false;
                   Sample.post "1" "2023-03-01T07:00:00.000Z" false] ->
     Js.truthy (Some (created_at s)) = true ->
     In (App.before_T (created_at s))
        (map App.date [{| App.date := "2023-03-02"; App.count := 1 |};
                       {| App.date := "2023-03-01"; App.count := 2 |}])) /\
  fold_right Z.add 0 (map App.count [{| App.date := "2023-03-02"; App.count := 1 |};
                                     {| App.date := "2023-03-01"; App.count := 2 |}]) =
  len (filter (fun s => Js.truthy (Some (created_at s)))
         [Sample.post "3" "2023-03-02T08:00:00.000Z" false;
          Sample.post "2" "2023-03-01T21:30:00.000Z" false;
          Sample.post "1" "2023-03-01T07:00:00.000Z" false]).
Proof.
  apply (activityData_counts
           [Sample.post "3" "2023-03-02T08:00:00.000Z" false;
            Sample.post "2" "2023-03-01T21:30:00.000Z" false;
            Sample.post "1" "2023-03-01T07:00:00.000Z" false]).
  vm_compute. reflexivity.
Defined.

(** ** What a session of the second copy leaves behind *)

Lemma fetchApi_alt_effects env this endpoint params useAuth tr out tr' :
  ServiceAlt.fetchApi env this endpoint params useAuth tr = (out, tr') ->
  match out with
  | Thrown e => status_is e 403 || status_is e 401 = true -> refusals tr' = refusals tr + 1
  | Returned _ => refusals tr' = refusals tr
  | OutOfFuel => True
  end /\
  reports tr' = reports tr /\
  (forall b, out = Returned b ->
     exists r, respond env tr (request this endpoint params useAuth) = Responded r /\
               ok r = true /\ body r = b).
Proof.
  rewrite fetchApi_alt_step. cbv zeta.
  destruct (respond env tr _) as [r | reason] eqn:Hres.
  - rewrite (settle_run r _ tr). intros H; inversion H; subst. clear H.
    cbn [refusals reports]. split; [| split; [reflexivity |]].
    + pose proof (settle_refusal r tr) as Hs.
      destruct (fst (settle r tr)) as [b | e |]; [| | exact I].
      * rewrite Hs. lia.
      * intros He. rewrite (Hs He). reflexivity.
    + intros b Hb. exists r. split; [reflexivity |].
      destruct (settle_spec r tr) as [(b' & Hs & Hok & Hbody & _) | (e & Hs & _)];
        rewrite Hs in Hb; cbn [fst] in Hb; inversion Hb; subst.
      split; [exact Hok | reflexivity].
  - intros H; inversion H; subst. cbn.
    split; [discriminate |]. split; [reflexivity |]. discriminate.
Qed.

Lemma getStatusesPage_alt_effects env this accountId maxId limit tr page tr' :
  ServiceAlt.getStatusesPage env this accountId maxId limit tr = (Returned page, tr') ->
  refusals tr' = refusals tr + (if Page.fellBack page then 1 else 0) /\
  reports tr' = reports tr /\
  exists tr0 useAuth r,
    respond env tr0
      (request this ("accounts/" ++ accountId ++ "/statuses")%string
         (page_params maxId limit) useAuth) = Responded r /\
    ok r = true /\ body r = Page.statuses page.
Proof.
  unfold ServiceAlt.getStatusesPage, try_catch, bind, ret, throw. cbv zeta.
  destruct (ServiceAlt.fetchApi env this _ _ true tr) as [[st | e |] tr1] eqn:E1;
    apply fetchApi_alt_effects in E1 as (Hr1 & Hrep1 & Hfrom1).
  - intros H; inversion H; subst. cbn [Page.fellBack Page.statuses].
    split; [lia |]. split; [exact Hrep1 |].
    destruct (Hfrom1 st eq_refl) as (r & Hr). exists tr, true, r. exact Hr.
  - destruct (status_is e 403 || status_is e 401) eqn:Hst; [| discriminate].
    destruct (ServiceAlt.fetchApi env this _ _ false tr1) as [[st | e' |] tr2] eqn:E2;
      try discriminate.
    apply fetchApi_alt_effects in E2 as (Hr2 & Hrep2 & Hfrom2).
    intros H; inversion H; subst. cbn [Page.fellBack Page.statuses].
    specialize (Hr1 eq_refl).
    split; [lia |]. split; [congruence |].
    destruct (Hfrom2 st eq_refl) as (r & Hr). exists tr1, false, r. exact Hr.
  - discriminate.
Qed.

Section SessionAlt.

Variable env : Env.
Variable this : MastodonService.
Variable accountId : string.
Variable untilDate : Js.number.
Variable onProgress : bool.

Local Abbreviation crawl_body := (ServiceAlt.crawl_body env this accountId untilDate onProgress).
Local Abbreviation crawl := (ServiceAlt.crawl env this accountId untilDate onProgress).
Local Abbreviation page_fetched := (ServiceAlt.page_fetched env this accountId).
Local Abbreviation before p := (Js.num_lt (new_Date env (created_at p)) untilDate).

Lemma crawl_body_alt_effects s tr s1 again tr1 :
  crawl_body s tr = (Returned (s1, again), tr1) ->
  exists fetched,
    pages tr1 = pages tr ++ fetched /\
    ServiceAlt.Session.allFilteredStatuses s1 =
      ServiceAlt.Session.allFilteredStatuses s ++ filter not_reblog (List.concat fetched) /\
    ServiceAlt.Session.totalFetched s1 =
      ServiceAlt.Session.totalFetched s + len (List.concat fetched) /\
    ServiceAlt.Session.maxId s1 =
      match last_post fetched with
      | Some p => Some (id p)
      | None => ServiceAlt.Session.maxId s
      end /\
    ServiceAlt.Session.reachedThreshold s1 =
      match last_post fetched with
      | Some p => if before p then true else ServiceAlt.Session.reachedThreshold s
      | None => ServiceAlt.Session.reachedThreshold s
      end /\
    refusals tr <= refusals tr1 /\
    (ServiceAlt.Session.wasFellBack s1 = true <->
     ServiceAlt.Session.wasFellBack s = true \/ refusals tr < refusals tr1) /\
    reports tr1 =
      reports tr ++
      (if onProgress
       then running (len (ServiceAlt.Session.allFilteredStatuses s)) fetched
       else []) /\
    (respects_limit env -> len (List.concat fetched) <= 40) /\
    (again = true -> ServiceAlt.Session.totalFetched s1 <= 10000).
Proof.
  intros H. pose proof H as Hc. apply crawl_body_alt_cases in Hc.
  destruct Hc as [(e & He) | [(fb & Hp) | (front & oldest & fb & tr2 & Hp)]].
  - discriminate He.
  - erewrite crawl_body_alt_empty in H by eassumption. inversion H; subst. clear H.
    pose proof Hp as Ht. apply page_fetched_alt_trace in Ht as [_ Hpg].
    apply getStatusesPage_alt_effects in Hp as (Hr & Hrep & _).
    cbn [Page.fellBack] in Hr.
    exists [[]].
    cbn [List.concat filter running app ServiceAlt.Session.allFilteredStatuses
         ServiceAlt.Session.totalFetched ServiceAlt.Session.maxId
         ServiceAlt.Session.reachedThreshold ServiceAlt.Session.wasFellBack].
    unfold last_post. cbn [List.concat map last app].
    rewrite Hrep, !app_nil_r.
    split; [exact Hpg |]. split; [reflexivity |]. split; [unfold len; simpl; lia |].
    split; [reflexivity |]. split; [reflexivity |]. split; [destruct fb; lia |].
    split; [| split; [| split]].
    + destruct fb; split; try tauto; try (intros _; right; lia).
      intros [Hw | Hlt]; [exact Hw | lia].
    + destruct onProgress; cbn [running]; rewrite app_nil_r; reflexivity.
    + intros _. unfold len. simpl. lia.
    + discriminate.
  - erewrite crawl_body_alt_page in H by eassumption.
    pose proof Hp as Ht. apply page_fetched_alt_trace in Ht as [_ Hpg].
    apply getStatusesPage_alt_effects in Hp as (Hr & Hrep & tr0 & useAuth & r & Hres & Hok & Hbody).
    cbn [Page.fellBack Page.statuses] in Hr, Hbody.
    assert (Hlim : respects_limit env -> len (front ++ [oldest]) <= 40).
    { intros Hserver. eapply Hserver; eassumption. }
    set (batch := front ++ [oldest]) in *.
    set (s2 := ServiceAlt.processed env untilDate s batch oldest fb) in *.
    set (called := if onProgress
                   then [EvProgress (len (ServiceAlt.Session.allFilteredStatuses s2))]
                   else []) in *.
    assert (Hcalled : pages (called ++ tr2) = pages tr2 /\
                      refusals (called ++ tr2) = refusals tr2 /\
                      reports (called ++ tr2) =
                        reports tr2 ++
                        (if onProgress
                         then running (len (ServiceAlt.Session.allFilteredStatuses s)) [batch]
                         else [])).
    { unfold called, batch. rewrite running_page. destruct onProgress.
      - cbn [app pages page_of refusals reports]. rewrite app_nil_r.
        repeat split. unfold s2, ServiceAlt.processed.
        cbn [ServiceAlt.Session.allFilteredStatuses]. rewrite len_app. reflexivity.
      - cbn [app]. rewrite app_nil_r. repeat split. }
    destruct Hcalled as (Hcp & Hcr & Hcrep).
    inversion H; subst s1 again tr1. clear H.
    exists [batch]. cbn [List.concat]. rewrite app_nil_r.
    unfold batch at 4 5. rewrite last_post_page. fold batch.
    rewrite Hcp, Hcr, Hcrep, Hrep.
    unfold s2, ServiceAlt.processed.
    cbn [ServiceAlt.Session.allFilteredStatuses ServiceAlt.Session.totalFetched
         ServiceAlt.Session.maxId ServiceAlt.Session.reachedThreshold
         ServiceAlt.Session.wasFellBack].
    split; [exact Hpg |]. split; [reflexivity |]. split; [reflexivity |].
    split; [reflexivity |]. split; [reflexivity |]. split; [destruct fb; lia |].
    split; [| split; [| split]].
    + destruct fb; split; try tauto; try (intros _; right; lia).
      intros [Hw | Hlt]; [exact Hw | lia].
    + reflexivity.
    + exact Hlim.
    + intros Hagain. apply negb_true_iff in Hagain.
      rewrite Z.gtb_ltb in Hagain. apply Z.ltb_ge in Hagain. exact Hagain.
Qed.

Lemma crawl_alt_effects fuel : forall s tr s' tr',
  crawl fuel s tr = (Returned s', tr') ->
  exists fetched,
    pages tr' = pages tr ++ fetched /\
    ServiceAlt.Session.allFilteredStatuses s' =
      ServiceAlt.Session.allFilteredStatuses s ++ filter not_reblog (List.concat fetched) /\
    ServiceAlt.Session.totalFetched s' =
      ServiceAlt.Session.totalFetched s + len (List.concat fetched) /\
    ServiceAlt.Session.maxId s' =
      match last_post fetched with
      | Some p => Some (id p)
      | None => ServiceAlt.Session.maxId s
      end /\
    ServiceAlt.Session.reachedThreshold s' =
      match last_post fetched with
      | Some p => before p
      | None => ServiceAlt.Session.reachedThreshold s
      end /\
    refusals tr <= refusals tr' /\
    (ServiceAlt.Session.wasFellBack s' = true <->
     ServiceAlt.Session.wasFellBack s = true \/ refusals tr < refusals tr') /\
    reports tr' =
      reports tr ++
      (if onProgress
       then running (len (ServiceAlt.Session.allFilteredStatuses s)) fetched
       else []) /\
    (respects_limit env ->
     ServiceAlt.Session.totalFetched s' <= Z.max (ServiceAlt.Session.totalFetched s) 10000 + 40).
Proof.
  induction fuel as [| fuel IH]; intros s tr s' tr' H; [discriminate H |].
  rewrite crawl_alt_step in H.
  destruct (ServiceAlt.Session.hasMore s && negb (ServiceAlt.Session.reachedThreshold s))
    eqn:Hcond.
  2:{ inversion H; subst. exists []. unfold last_post.
      cbn [List.concat map last filter running]. rewrite !app_nil_r.
      split; [reflexivity |]. split; [reflexivity |]. split; [unfold len; simpl; lia |].
      split; [reflexivity |]. split; [reflexivity |]. split; [lia |].
      split; [split; [tauto | intros [Hw | Hlt]; [exact Hw | lia]] |].
      split; [destruct onProgress; rewrite ?app_nil_r; reflexivity | lia]. }
  apply andb_prop in Hcond as [_ Hreached]. apply negb_true_iff in Hreached.
  destruct (crawl_body s tr) as [[[s1 again] | e |] tr1] eqn:Hbody;
    try discriminate H.
  apply crawl_body_alt_effects in Hbody
    as (f1 & Hp1 & Ha1 & Ht1 & Hid1 & Hthr1 & Hle1 & Hfb1 & Hrep1 & Hlim1 & Hagain).
  rewrite Hreached in Hthr1.
  destruct again.
  - apply IH in H
      as (f2 & Hp2 & Ha2 & Ht2 & Hid2 & Hthr2 & Hle2 & Hfb2 & Hrep2 & Hlim2).
    exists (f1 ++ f2).
    rewrite last_post_app, concat_app, filter_app, len_app, running_app.
    split; [rewrite Hp2, Hp1; symmetry; apply app_assoc |].
    split; [rewrite Ha2, Ha1; symmetry; apply app_assoc |].
    split; [lia |].
    split; [destruct (last_post f2); [exact Hid2 | rewrite Hid2; exact Hid1] |].
    split.
    { destruct (last_post f2); [exact Hthr2 |]. rewrite Hthr2, Hthr1.
      destruct (last_post f1) as [p |]; [| symmetry; exact Hreached].
      destruct (before p); reflexivity. }
    split; [lia |].
    split.
    { rewrite Hfb2, Hfb1. split.
      - intros [[Hw | Hlt] | Hlt]; [left; exact Hw | right; lia | right; lia].
      - intros [Hw | Hlt]; [left; left; exact Hw |].
        destruct (Z_lt_le_dec (refusals tr) (refusals tr1)) as [Hfirst | Hlater];
          [left; right; exact Hfirst | right; lia]. }
    split.
    { rewrite Hrep2, Hrep1, Ha1, len_app. destruct onProgress.
      - symmetry; apply app_assoc.
      - rewrite !app_nil_r. reflexivity. }
    intros Hserver. specialize (Hlim1 Hserver). specialize (Hlim2 Hserver).
    specialize (Hagain eq_refl). lia.
  - inversion H; subst. exists f1.
    split; [exact Hp1 |]. split; [exact Ha1 |]. split; [exact Ht1 |].
    split; [exact Hid1 |].
    split.
    { rewrite Hthr1. destruct (last_post f1) as [p |]; [| symmetry; exact Hreached].
      destruct (before p); reflexivity. }
    split; [exact Hle1 |]. split; [exact Hfb1 |]. split; [exact Hrep1 |].
    intros Hserver. specialize (Hlim1 Hserver). lia.
Qed.

End SessionAlt.

(** X21. The second copy of [getStatusesUntil], when it returns, in
    terms of the pages delivered during the call: the posts returned
    are their non-reblogs, in order; [lastId] is the id of the last
    post delivered, or [startId]; [reachedThreshold] tells whether
    that post is dated before [untilDate]; [fellBack] tells whether a
    request was answered 401 or 403; the callback got the running
    count after each non-empty page; and at most 10040 posts were
    delivered when no page holds more than 40. *)
Theorem getStatusesUntil_alt_result :
  forall env this accountId untilDate onProgress fuel startId tr r tr',
  ServiceAlt.getStatusesUntil env this accountId untilDate onProgress fuel startId tr =
  (Returned r, tr') ->
  exists fetched,
    pages tr' = pages tr ++ fetched /\
    Result.statuses r = filter not_reblog (List.concat fetched) /\
    Result.lastId r =
      match last_post fetched with
      | Some p => Some (id p)
      | None => startId
      end /\
    Result.reachedThreshold r =
      match last_post fetched with
      | Some p => Js.num_lt (new_Date env (created_at p)) untilDate
      | None => false
      end /\
    (Result.fellBack r = true <-> refusals tr < refusals tr') /\
    reports tr' = reports tr ++ (if onProgress then running 0 fetched else []) /\
    (respects_limit env -> len (List.concat fetched) <= 10040).
Proof.
  intros env this accountId untilDate onProgress fuel startId tr r tr'.
  rewrite getStatusesUntil_alt_run.
  destruct (ServiceAlt.getStatusesUntil_session _ _ _ _ _ _ _ _) as [[s | e |] tr1] eqn:Hs;
    try discriminate.
  intros H; inversion H; subst. clear H.
  unfold ServiceAlt.getStatusesUntil_session in Hs.
  apply crawl_alt_effects in Hs
    as (fetched & Hp & Ha & Ht & Hid & Hthr & Hle & Hfb & Hrep & Hlim).
  cbn [ServiceAlt.initial ServiceAlt.Session.allFilteredStatuses
       ServiceAlt.Session.totalFetched ServiceAlt.Session.maxId
       ServiceAlt.Session.reachedThreshold ServiceAlt.Session.wasFellBack app] in *.
  exists fetched. cbn [Result.statuses Result.lastId Result.reachedThreshold Result.fellBack].
  split; [exact Hp |]. split; [exact Ha |]. split; [exact Hid |]. split; [exact Hthr |].
  split; [rewrite Hfb; split; [intros [Hw | Hlt]; [discriminate Hw | exact Hlt] | auto] |].
  split; [exact Hrep |].
  intros Hserver. specialize (Hlim Hserver). lia.
Qed.

Lemma getStatusesUntil_alt_result_witness :
  exists fetched,
    pages (snd (ServiceAlt.getStatusesUntil Sample.three_pages Sample.member "42"
                  Cases.new_year true 10 None [])) = pages [] ++ fetched /\
    Result.statuses
      (Cases.returned Cases.no_result
         (ServiceAlt.getStatusesUntil Sample.three_pages Sample.member "42"
            Cases.new_year true 10 None [])) =
    filter not_reblog (List.concat fetched) /\
    Result.lastId
      (Cases.returned Cases.no_result
         (ServiceAlt.getStatusesUntil Sample.three_pages Sample.member "42"
            Cases.new_year true 10 None [])) =
      match last_post fetched with
      | Some p => Some (id p)
      | None => None
      end /\
    Result.reachedThreshold
      (Cases.returned Cases.no_result
         (ServiceAlt.getStatusesUntil Sample.three_pages Sample.member "42"
            Cases.new_year true 10 None [])) =
      match last_post fetched with
      | Some p => Js.num_lt (new_Date Sample.three_pages (created_at p)) Cases.new_year
      | None => false
      end /\
    (Result.fellBack
       (Cases.returned Cases.no_result
          (ServiceAlt.getStatusesUntil Sample.three_pages Sample.member "42"
             Cases.new_year true 10 None [])) = true <->
     refusals [] <
     refusals (snd (ServiceAlt.getStatusesUntil Sample.three_pages Sample.member "42"
                      Cases.new_year true 10 None []))) /\
    reports (snd (ServiceAlt.getStatusesUntil Sample.three_pages Sample.member "42"
                    Cases.new_year true 10 None [])) =
      reports [] ++ (if true then running 0 fetched else []) /\
    (respects_limit Sample.three_pages -> len (List.concat fetched) <= 10040).
Proof.
  apply (getStatusesUntil_alt_result Sample.three_pages Sample.member "42" Cases.new_year
           true 10 None []).
  vm_compute. reflexivity.
Defined.

(** ** The cursor through a session *)

Lemma pages_app n2 n1 : pages (n2 ++ n1) = pages n1 ++ pages n2.
Proof.
  induction n2 as [| ev n2 IH]; cbn [app pages]; [now rewrite app_nil_r |].
  rewrite IH. symmetry. apply app_assoc.
Qed.

Lemma cursor_after_app start n2 n1 :
  cursor_after start (n2 ++ n1) = cursor_after (cursor_after start n1) n2.
Proof.
  unfold cursor_after. rewrite pages_app, last_post_app.
  destruct (last_post (pages n2)); reflexivity.
Qed.

Lemma follows_app start n2 n1 :
  follows start (n2 ++ n1) <-> follows start n1 /\ follows (cursor_after start n1) n2.
Proof.
  induction n2 as [| ev n2 IH]; cbn [app follows]; [tauto |].
  destruct ev; try exact IH. rewrite cursor_after_app, IH. tauto.
Qed.

(** The events [new] hold no request but for the page before [c]. *)
Local Abbreviation carry c new :=
  (Forall (fun ev => match ev with
                     | EvFetch req _ => max_id_of req = c
                     | _ => True
                     end) new).

(** The events [new] hold no request at all. *)
Local Abbreviation quiet new :=
  (Forall (fun ev => match ev with
                     | EvFetch _ _ => False
                     | _ => True
                     end) new).

(** Requests for one and the same page, none of them but the last one
    answered by a page, follow the cursor. *)
Lemma follows_same start new :
  carry (sent start) new -> pages (tl new) = [] -> follows start new.
Proof.
  induction new as [| ev earlier IH]; intros Hall Hq; [exact I |].
  cbn [tl] in Hq. inversion Hall as [| ev' l' Hev Hrest]; subst.
  assert (Hearlier : follows start earlier).
  { apply IH; [exact Hrest |]. destruct earlier as [| e2 rest]; [reflexivity |].
    cbn [tl]. cbn [pages] in Hq. apply app_eq_nil in Hq. tauto. }
  destruct ev; cbn [follows]; try exact Hearlier.
  split; [| exact Hearlier]. unfold cursor_after. rewrite Hq. exact Hev.
Qed.

Lemma follows_quiet start extras rest :
  quiet extras -> follows start rest -> follows start (extras ++ rest).
Proof.
  induction 1 as [| ev extras Hev _ IH]; intros Hrest; [exact Hrest |].
  cbn [app]. destruct ev; cbn [follows]; [contradiction | auto | auto | auto].
Qed.

Lemma pages_quiet extras rest : quiet extras -> pages (extras ++ rest) = pages rest.
Proof.
  induction 1 as [| ev extras Hev _ IH]; [reflexivity |].
  cbn [app pages]. rewrite IH. destruct ev; [contradiction | | |]; apply app_nil_r.
Qed.

Lemma max_id_of_request this endpoint maxId limit useAuth :
  max_id_of (request this endpoint (page_params maxId limit) useAuth) = sent maxId.
Proof. destruct maxId as [[| c m] |]; reflexivity. Qed.

Lemma retried_new req rs : forall k tr,
  Forall (fun r => status r = 429) rs ->
  exists R,
    retried req k rs tr = R ++ tr /\
    Forall (fun ev => match ev with EvFetch rq _ => rq = req | _ => True end) R /\
    pages R = [].
Proof.
  induction rs as [| r rs IH]; intros k tr Hall.
  - exists []. repeat split. constructor.
  - inversion Hall as [| r' rs' H429 Hrest]; subst. cbn [retried].
    destruct (IH (S k) (EvSleep (Service.waitTime (retry_after r) k)
                          :: EvFetch req (Responded r) :: tr) Hrest)
      as (R & HR & Honly & Hpages).
    exists (R ++ [EvSleep (Service.waitTime (retry_after r) k); EvFetch req (Responded r)]).
    split; [rewrite HR, <- app_assoc; reflexivity |]. split.
    + apply Forall_app. split; [exact Honly |]. repeat constructor.
    + rewrite pages_app, Hpages, app_nil_r. cbn [pages page_of app].
      unfold ok. rewrite H429. reflexivity.
Qed.

(** One call of [fetchApi]: its requests are those of one request, and
    only the last exchange can deliver a page. *)
Lemma fetchApi_new env this endpoint params useAuth tr out tr' :
  Service.fetchApi env this endpoint params useAuth 0 tr = (out, tr') ->
  exists final R,
    tr' = EvFetch (request this endpoint params useAuth) final :: R ++ tr /\
    Forall (fun ev => match ev with
                      | EvFetch rq _ => rq = request this endpoint params useAuth
                      | _ => True
                      end) R /\
    pages R = [] /\
    page_of (EvFetch (request this endpoint params useAuth) final) =
    match out with
    | Returned (BodyStatuses l) => [l]
    | _ => []
    end.
Proof.
  intros H. pose proof H as Ht. apply fetchApi_trace in Ht as (_ & _ & Hpg).
  apply (fetchApi_exchanges_from _ _ _ _ _ 2) in H; [| reflexivity].
  destruct H as (rs & final & _ & Hall & _ & Htr & _ & _).
  destruct (retried_new (request this endpoint params useAuth) rs 0%nat tr Hall)
    as (R & HR & Honly & Hpages).
  exists final, R. rewrite HR in Htr. split; [exact Htr |].
  split; [exact Honly |]. split; [exact Hpages |].
  rewrite Htr in Hpg. cbn [pages] in Hpg. rewrite pages_app, Hpages, app_nil_r in Hpg.
  apply app_inv_head in Hpg. exact Hpg.
Qed.

(** One call of [getStatusesPage]: every request is for the page before
    [maxId], and only the last exchange can deliver a page. *)
Lemma getStatusesPage_new env this accountId maxId limit tr out tr' :
  Service.getStatusesPage env this accountId maxId limit tr = (out, tr') ->
  exists new,
    tr' = new ++ tr /\
    carry (sent maxId) new /\
    pages (tl new) = [] /\
    pages new = match out with
                | Returned page =>
                    match Page.statuses page with
                    | BodyStatuses l => [l]
                    | _ => []
                    end
                | _ => []
                end.
Proof.
  assert (Hcarry : forall useAuth R,
    Forall (fun ev => match ev with
                      | EvFetch rq _ =>
                          rq = request this ("accounts/" ++ accountId ++ "/statuses")%string
                                 (page_params maxId limit) useAuth
                      | _ => True
                      end) R ->
    carry (sent maxId) R).
  { intros useAuth R HR. eapply Forall_impl; [| exact HR].
    intros [rq res | | |] Hev; try exact I. rewrite Hev. apply max_id_of_request. }
  rewrite getStatusesPage_run. cbv zeta.
  destruct (Service.fetchApi env this _ _ true 0 tr) as [out1 tr1] eqn:E1.
  apply fetchApi_new in E1 as (f1 & R1 & -> & Honly1 & Hp1 & Hpage1).
  assert (Hfirst : forall out0,
    match out1 with Returned (BodyStatuses l) => [l] | _ => [] end =
    match out0 with
    | Returned page => match Page.statuses page with BodyStatuses l => [l] | _ => [] end
    | _ => []
    end ->
    exists new,
      EvFetch (request this ("accounts/" ++ accountId ++ "/statuses")%string
                 (page_params maxId limit) true) f1 :: R1 ++ tr = new ++ tr /\
      carry (sent maxId) new /\
      pages (tl new) = [] /\
      pages new = match out0 with
                  | Returned page =>
                      match Page.statuses page with BodyStatuses l => [l] | _ => [] end
                  | _ => []
                  end).
  { intros out0 Hout0. eexists (_ :: R1). split; [reflexivity |].
    split; [constructor; [apply max_id_of_request | eapply Hcarry; exact Honly1] |].
    split; [exact Hp1 |]. cbn [pages]. rewrite Hp1. cbn [app].
    rewrite Hpage1. exact Hout0. }
  destruct out1 as [st | e |].
  - intros H; injection H as <- <-.
    apply (Hfirst (Returned {| Page.statuses := st; Page.fellBack := false |})). reflexivity.
  - destruct (status_is e 403 || status_is e 401).
    + destruct (Service.fetchApi env this _ _ false 0 _) as [out2 tr2] eqn:E2.
      apply fetchApi_new in E2 as (f2 & R2 & -> & Honly2 & Hp2 & Hpage2).
      assert (Hrest : pages (R2 ++ EvFetch (request this
                                              ("accounts/" ++ accountId ++ "/statuses")%string
                                              (page_params maxId limit) true) f1 :: R1) = []).
      { rewrite pages_app, Hp2, app_nil_r. cbn [pages]. rewrite Hp1, Hpage1. reflexivity. }
      destruct out2 as [st2 | e2 |]; intros H; injection H as <- <-;
        exists (EvFetch (request this ("accounts/" ++ accountId ++ "/statuses")%string
                           (page_params maxId limit) false) f2
                  :: R2 ++ EvFetch (request this ("accounts/" ++ accountId ++ "/statuses")%string
                                      (page_params maxId limit) true) f1 :: R1);
        (split; [cbn [app]; rewrite <- app_assoc; reflexivity |]);
        (split;
         [constructor; [apply max_id_of_request |];
          apply Forall_app; split; [eapply Hcarry; exact Honly2 |];
          constructor; [apply max_id_of_request | eapply Hcarry; exact Honly1] |]);
        (split; [exact Hrest |]);
        cbn [pages]; rewrite Hrest; cbn [app]; rewrite Hpage2; reflexivity.
    + intros H; injection H as <- <-. apply (Hfirst (Thrown e)). reflexivity.
  - intros H; injection H as <- <-. apply (Hfirst OutOfFuel). reflexivity.
Qed.

Section SessionCursor.

Variable env : Env.
Variable this : MastodonService.
Variable accountId : string.
Variable untilDate : Js.number.
Variable onProgress : bool.

Local Abbreviation crawl_body := (Service.crawl_body env this accountId untilDate onProgress).
Local Abbreviation crawl := (Service.crawl env this accountId untilDate onProgress).

(** One run of the loop body, however it ends: its requests carry the
    cursor, and when it returns the cursor is the id of the last post
    delivered, or unchanged. *)
Lemma crawl_body_cursor startTime s tr out tr' :
  crawl_body startTime s tr = (out, tr') ->
  exists new,
    tr' = new ++ tr /\
    follows (Service.Session.maxId s) new /\
    match out with
    | Returned r => Service.Session.maxId (fst r) = cursor_after (Service.Session.maxId s) new
    | _ => True
    end.
Proof.
  unfold Service.crawl_body, bind, Date_now.
  destruct (clock env tr - startTime >? Service.TIME_BUDGET).
  { intros H; injection H as <- <-. exists [EvNow (clock env tr)].
    split; [reflexivity |]. split; [exact I | reflexivity]. }
  destruct (Service.getStatusesPage env this accountId (Service.Session.maxId s) 40
              (EvNow (clock env tr) :: tr)) as [outp tr2] eqn:Hp.
  apply getStatusesPage_new in Hp as (P & -> & Hall & Hq & Hpg).
  assert (Hfollow : forall extras,
    quiet extras ->
    follows (Service.Session.maxId s) (extras ++ P ++ [EvNow (clock env tr)]) /\
    pages (extras ++ P ++ [EvNow (clock env tr)]) = pages P /\
    extras ++ P ++ EvNow (clock env tr) :: tr =
    (extras ++ P ++ [EvNow (clock env tr)]) ++ tr).
  { intros extras Hextras. split; [| split].
    - apply follows_quiet; [exact Hextras |]. apply follows_app. split; [exact I |].
      apply follows_same; assumption.
    - rewrite pages_quiet by exact Hextras. rewrite pages_app. reflexivity.
    - rewrite <- !app_assoc. reflexivity. }
  assert (Hdone : forall extras (out0 : Outcome (Service.Session.t * bool)),
    quiet extras ->
    match out0 with
    | Returned r =>
        Service.Session.maxId (fst r) =
        match last_post (pages P) with
        | Some p => Some (id p)
        | None => Service.Session.maxId s
        end
    | _ => True
    end ->
    exists new,
      extras ++ P ++ EvNow (clock env tr) :: tr = new ++ tr /\
      follows (Service.Session.maxId s) new /\
      match out0 with
      | Returned r =>
          Service.Session.maxId (fst r) = cursor_after (Service.Session.maxId s) new
      | _ => True
      end).
  { intros extras out0 Hextras Hout.
    destruct (Hfollow extras Hextras) as (Hf & Hpages & Heq).
    exists (extras ++ P ++ [EvNow (clock env tr)]).
    split; [exact Heq |]. split; [exact Hf |].
    destruct out0; try exact I. unfold cursor_after. rewrite Hpages. exact Hout. }
  destruct outp as [page | e |].
  2:{ intros H; injection H as <- <-. apply (Hdone [] (Thrown e)); [constructor | exact I]. }
  2:{ intros H; injection H as <- <-. apply (Hdone [] OutOfFuel); [constructor | exact I]. }
  destruct page as [st fb]. cbn [Page.statuses Page.fellBack] in *.
  destruct st as [| err | batch | a |]; cbn [as_array].
  1,2,4,5: intros H; injection H as <- <-;
    apply (Hdone [] (Thrown SyntaxError)); [constructor | exact I].
  destruct (len batch =? 0) eqn:Hlen.
  { intros H; injection H as <- <-.
    eapply (Hdone [] (Returned _)); [constructor |]. cbn [fst Service.Session.maxId].
    rewrite Hpg. destruct batch as [| p batch]; [reflexivity |].
    apply Z.eqb_eq in Hlen. unfold len in Hlen. cbn [List.length] in Hlen. lia. }
  assert (Hne : batch <> []).
  { intros ->. discriminate Hlen. }
  destruct (nonempty_last batch Hne) as (front & oldest & ->).
  rewrite nth_error_last.
  assert (Hlast : match last_post (pages P) with
                  | Some p => Some (id p)
                  | None => Service.Session.maxId s
                  end = Some (id oldest)).
  { rewrite Hpg, last_post_page. reflexivity. }
  destruct onProgress; unfold progress, ret, sleep, Math_random;
    destruct (len (front ++ [oldest]) <? 40);
    try destruct (Service.Session.totalFetched s + len (front ++ [oldest]) >? 5000);
    intros H; injection H as <- <-;
    match goal with
    | |- exists new, ?x :: ?y :: P ++ _ = _ /\ _ =>
        eapply (Hdone [x; y] (Returned _)); [repeat constructor |]
    | |- exists new, ?x :: P ++ _ = _ /\ _ =>
        eapply (Hdone [x] (Returned _)); [repeat constructor |]
    | |- exists new, P ++ _ = _ /\ _ =>
        eapply (Hdone [] (Returned _)); [constructor |]
    end;
    cbn [fst Service.Session.maxId]; symmetry; exact Hlast.
Qed.

(** The loop, however it ends. *)
Lemma crawl_cursor fuel : forall startTime s tr,
  exists new,
    snd (crawl fuel startTime s tr) = new ++ tr /\
    follows (Service.Session.maxId s) new /\
    (forall s', fst (crawl fuel startTime s tr) = Returned s' ->
       Service.Session.maxId s' = cursor_after (Service.Session.maxId s) new).
Proof.
  induction fuel as [| fuel IH]; intros startTime s tr.
  { exists []. split; [reflexivity |]. split; [exact I | discriminate]. }
  rewrite crawl_step.
  destruct (Service.Session.reachedThreshold s).
  { exists []. split; [reflexivity |]. split; [exact I |].
    intros s' H; injection H as <-. reflexivity. }
  destruct (crawl_body startTime s tr) as [out1 tr1] eqn:Hbody.
  apply crawl_body_cursor in Hbody as (new1 & -> & Hf1 & Hc1).
  destruct out1 as [[s1 again] | e |]; cbn [fst] in Hc1.
  - destruct again.
    + destruct (IH startTime s1 (new1 ++ tr)) as (new2 & Htr & Hf2 & Hc2).
      exists (new2 ++ new1). rewrite Htr.
      split; [apply app_assoc |]. split.
      * apply follows_app. split; [exact Hf1 |]. rewrite <- Hc1. exact Hf2.
      * intros s' Hs'. rewrite cursor_after_app, <- Hc1. apply Hc2. exact Hs'.
    + exists new1. split; [reflexivity |]. split; [exact Hf1 |].
      intros s' H; injection H as <-. exact Hc1.
  - exists new1. split; [reflexivity |]. split; [exact Hf1 | discriminate].
  - exists new1. split; [reflexivity |]. split; [exact Hf1 | discriminate].
Qed.

End SessionCursor.

(** C7. A run of the loop body that fetches a non-empty page leaves
    the cursor at the id of the last element of that page. Through a
    whole session, from any state and however it ends, every request
    carries as [max_id] the cursor that the pages delivered before it
    have left: the id of the last post delivered so far, or the cursor
    at the start (no [max_id] when that is undefined or empty); and
    the cursor at the end is the id of the last post delivered. The
    loop does end, given fuel for the pages that the cap leaves. The
    cursor is never compared with the one before. *)
Theorem crawl_cursor_tracks_oldest :
  forall env this accountId untilDate onProgress fuel startTime s tr,
  (forall front oldest fb tr2,
     Service.page_fetched env this accountId startTime s tr (front ++ [oldest]) fb tr2 ->
     exists s' again tr',
       Service.crawl_body env this accountId untilDate onProgress startTime s tr =
       (Returned (s', again), tr') /\
       Service.Session.maxId s' = Some (id oldest)) /\
  exists new,
    snd (Service.crawl env this accountId untilDate onProgress fuel startTime s tr) =
    new ++ tr /\
    follows (Service.Session.maxId s) new /\
    (forall s',
       fst (Service.crawl env this accountId untilDate onProgress fuel startTime s tr) =
       Returned s' ->
       Service.Session.maxId s' = cursor_after (Service.Session.maxId s) new) /\
    ((1 <= fuel)%nat ->
     5001 - Service.Session.totalFetched s <= 40 * Z.of_nat fuel ->
     fst (Service.crawl env this accountId untilDate onProgress fuel startTime s tr)
     <> OutOfFuel).
Proof.
  intros env this accountId untilDate onProgress fuel startTime s tr. split.
  - intros front oldest fb tr2 Hp.
    erewrite crawl_body_page by eassumption.
    destruct (_ || _); eexists; eexists; eexists; split; reflexivity.
  - destruct (crawl_cursor env this accountId untilDate onProgress fuel startTime s tr)
      as (new & Htr & Hfollows & Hend).
    exists new. split; [exact Htr |]. split; [exact Hfollows |]. split; [exact Hend |].
    intros Hone Hfuel.
    destruct (crawl_enough env this accountId untilDate onProgress fuel fuel startTime s tr
                Hone Hfuel Hone Hfuel) as (_ & Hout & _).
    exact Hout.
Qed.

Lemma crawl_cursor_tracks_oldest_witness :
  let threshold := Js.Date_parse_iso "2023-01-01" in
  let five := Sample.post "5" "2023-03-01T00:00:00.000Z" false in
  (exists s' again tr',
     Service.crawl_body Sample.lonely Sample.member "42" threshold false 0 Sample.at_nine [] =
     (Returned (s', again), tr') /\
     Service.Session.maxId s' = Some (id five)) /\
  exists new,
    snd (Service.crawl Sample.lonely Sample.member "42" threshold false 126 0
           Sample.at_nine []) = new ++ [] /\
    follows (Service.Session.maxId Sample.at_nine) new /\
    (forall s',
       fst (Service.crawl Sample.lonely Sample.member "42" threshold false 126 0
              Sample.at_nine []) = Returned s' ->
       Service.Session.maxId s' = cursor_after (Service.Session.maxId Sample.at_nine) new) /\
    fst (Service.crawl Sample.lonely Sample.member "42" threshold false 126 0
           Sample.at_nine []) <> OutOfFuel.
Proof.
  intros threshold five.
  assert (Hpage : Service.page_fetched Sample.lonely Sample.member "42" 0 Sample.at_nine []
                    ([] ++ [five]) false
                    [EvFetch (request Sample.member "accounts/42/statuses"
                                [("limit", "40"); ("max_id", "9")] true)
                       (Sample.success [five]);
                     EvNow 0]).
  { split; [vm_compute; discriminate | reflexivity]. }
  destruct (crawl_cursor_tracks_oldest Sample.lonely Sample.member "42" threshold false 126 0
              Sample.at_nine []) as (Hset & new & Htr & Hfollows & Hend & Hreturns).
  split.
  - exact (Hset [] five false _ Hpage).
  - exists new. split; [exact Htr |]. split; [exact Hfollows |]. split; [exact Hend |].
    apply Hreturns; [lia | cbn; lia].
Defined.

(** The claim of C7 fails on a server that ignores [max_id]: the first
    request carries no cursor and is served a full page that ends with
    the post of id 5, of 1 March 2023; the second request carries
    [max_id=5] and is served the post of id 7, of the day after; the
    call returns the cursor 7, the id of a newer post. *)
Lemma cursor_moves_to_newer :
  cursors_sent (snd Heedless.run) = [None; Some "5"%string] /\
  pages (snd Heedless.run) =
    [repeat (Sample.post "5" "2023-03-01T00:00:00.000Z" false) 40;
     [Sample.post "7" "2023-03-02T00:00:00.000Z" false]] /\
  (exists r, fst Heedless.run = Returned r /\ Result.lastId r = Some "7"%string) /\
  Sample.older "5" "7" /\
  Js.num_lt (new_Date Heedless.server "2023-03-01T00:00:00.000Z")
            (new_Date Heedless.server "2023-03-02T00:00:00.000Z") = true.
Proof.
  split; [vm_compute; reflexivity |]. split; [vm_compute; reflexivity |].
  split; [eexists; split; vm_compute; reflexivity |].
  split; vm_compute; reflexivity.
Qed.
